(** * coremltools 0.3.0 -- the neural network builder

    A shallow embedding of [coremltools/models/neural_network.py]: the
    protobuf document the builder mutates, the numpy operations the layer
    factories apply to their weight arguments, and the builder's methods as
    functions from a document to an outcome (normal return or raised
    exception, each with the document as the call left it); and of the
    probes for optional packages in [coremltools/_deps/__init__.py].  *)

From Stdlib Require Import QArith Ascii DecimalString DecimalNat.
From stdpp Require Import base tactics option list strings.

Open Scope string_scope.
Open Scope list_scope.
Open Scope nat_scope.

(** ** Numbers

    The builder receives numpy arrays and Python numbers and stores 32-bit
    floats.  [A] is the type of the numbers it receives, [F] the type of
    the stored values; [float] is Python's [float(x)] followed by the
    protobuf float field's own conversion, [nonzero] is the truth value
    numpy's [any] tests, and [literal] gives the stored value of a
    decimal literal of the source ([0.2], [0.5], ...). *)

Class Numeric (A F : Type) := {
  float : A -> F;
  nonzero : A -> bool;
  literal : Q -> F
}.

(** ** numpy arrays

    An array is its shape and its elements by multi-index; [item] is only
    read at indices within the shape. *)

Record ndarray (A : Type) := NDArray {
  shape : list nat;
  item : list nat -> A
}.
Arguments NDArray {A} shape item.
Arguments shape {A} _.
Arguments item {A} _ _.

Module Numpy.
Section Numpy.
Context {A : Type}.

(** All multi-indices of a shape, last axis fastest (C order). *)
Fixpoint indices (shp : list nat) : list (list nat) :=
  match shp with
  | [] => [[]]
  | n :: rest => flat_map (fun i => map (cons i) (indices rest)) (seq 0 n)
  end.

Definition size (a : ndarray A) : nat := foldr Nat.mul 1 (shape a).

(** [a.flatten()] *)
Definition flatten (a : ndarray A) : list A :=
  map (item a) (indices (shape a)).

(** Position of axis [m] in the axes tuple. *)
Fixpoint position (m : nat) (axes : list nat) : nat :=
  match axes with
  | [] => 0
  | k :: rest => if Nat.eqb k m then 0 else S (position m rest)
  end.

Definition is_permutation (axes : list nat) (ndim : nat) : bool :=
  Nat.eqb (length axes) ndim &&
  forallb (fun m => existsb (Nat.eqb m) axes) (seq 0 ndim).

(** [a.transpose(axes)]: axis [i] of the result is axis [axes[i]] of [a],
    so that [result[idx] = a[src]] with [src[axes[i]] = idx[i]].  numpy
    raises ValueError when [axes] is not a permutation of the axes of
    [a]; that is [None] here. *)
Definition transpose (axes : list nat) (a : ndarray A) : option (ndarray A) :=
  if is_permutation axes (length (shape a)) then
    Some (NDArray
            (map (fun k => nth k (shape a) 0) axes)
            (fun idx => item a (map (fun m => nth (position m axes) idx 0)
                                    (seq 0 (length axes)))))
  else None.

(** Index expressions: an integer, a slice [start:stop], or [:]. *)
Inductive index := Int (i : nat) | Slice (start stop : nat) | Full.

(** Shape of [a[ix]]; [None] is IndexError (an integer out of bounds, or
    more indices than axes).  Slice bounds are clipped to the axis. *)
Fixpoint getitem_shape (ix : list index) (shp : list nat) : option (list nat) :=
  match ix, shp with
  | [], _ => Some shp
  | _ :: _, [] => None
  | Int i :: ix', n :: shp' =>
      if Nat.ltb i n then getitem_shape ix' shp' else None
  | Slice start stop :: ix', n :: shp' =>
      cons (Nat.min stop n - Nat.min start n) <$> getitem_shape ix' shp'
  | Full :: ix', n :: shp' => cons n <$> getitem_shape ix' shp'
  end.

(** The index of [a] that [a[ix]] reads at its index [idx]. *)
Fixpoint getitem_source (ix : list index) (idx : list nat) : list nat :=
  match ix with
  | [] => idx
  | Int i :: ix' => i :: getitem_source ix' idx
  | Slice start _ :: ix' =>
      match idx with
      | r :: idx' => (start + r) :: getitem_source ix' idx'
      | [] => []
      end
  | Full :: ix' =>
      match idx with
      | r :: idx' => r :: getitem_source ix' idx'
      | [] => []
      end
  end.

(** [a[ix]] *)
Definition getitem (ix : list index) (a : ndarray A) : option (ndarray A) :=
  shp ← getitem_shape ix (shape a);
  Some (NDArray shp (fun idx => item a (getitem_source ix idx))).

(** [a.any()] *)
Definition any `{Numeric A F} (a : ndarray A) : bool :=
  existsb nonzero (flatten a).

(** [b is not None and b.any()] *)
Definition present `{Numeric A F} (b : option (ndarray A)) : bool :=
  match b with
  | None => false
  | Some a => any a
  end.

(** [map(float, a.flatten())] *)
Definition floats `{Numeric A F} (a : ndarray A) : list F :=
  map float (flatten a).

(** A one-dimensional array from a list. *)
Definition vector (d : A) (l : list A) : ndarray A :=
  NDArray [length l] (fun idx => nth (nth 0 idx 0) l d).

End Numpy.
End Numpy.

Import Numpy.

(** ** Python values and exceptions *)

(** The class labels handed to [set_class_labels]: Python 2 values of the
    types [int], [str], [float] and [NoneType]. *)
Inductive PyValue :=
| PyInt (z : Z)
| PyStr (s : string)
| PyFloat (q : Q)
| PyNone.

Inductive PyType := py_int | py_str | py_float | py_NoneType.

Definition type (v : PyValue) : PyType :=
  match v with
  | PyInt _ => py_int
  | PyStr _ => py_str
  | PyFloat _ => py_float
  | PyNone => py_NoneType
  end.

Inductive Exception :=
| ValueError
| TypeError
| NotImplementedError
| RuntimeError
| IndexError
| AttributeError.

(** ** The protobuf document

    Messages are records, a [oneof] is an inductive type with a
    constructor for "no member set", repeated fields are lists.  The
    generated modules [Model_pb2], [NeuralNetwork_pb2] and
    [FeatureTypes_pb2] are not among the sources: a message has the
    fields the builder assigns, under the names it assigns them by, and a
    field that was never assigned has the proto3 default (0, false, the
    empty list, no member of a [oneof]). *)

Inductive ArrayDataType := INVALID_ARRAY_DATA_TYPE | FLOAT32 | DOUBLE | INT32.

Inductive KeyType := KeyUnset | int64KeyType | stringKeyType.

Inductive ColorSpace := INVALID_COLOR_SPACE | GRAYSCALE | RGB | BGR.

(** [FeatureType], the [oneof Type] of a feature description. *)
Inductive FeatureType :=
| TypeUnset
| int64Type
| doubleType
| stringType
| imageType (width height : Z) (colorSpace : ColorSpace)
| multiArrayType (shape : list Z) (dataType : ArrayDataType)
| dictionaryType (key : KeyType).

Record FeatureDescription := {
  feature_name : string;
  feature_type : FeatureType
}.

(** [oneof ClassLabels] of the classifier network. *)
Inductive ClassLabels :=
| LabelsUnset
| stringClassLabels (vector : list string)
| int64ClassLabels (vector : list Z).

(** Which of the three network messages [nn_spec] is. *)
Inductive Mode := classifier | regressor | plain.

Inductive SamePaddingMode := BOTTOM_RIGHT_HEAVY | TOP_LEFT_HEAVY.

(** [BorderAmounts.EdgeSizes] *)
Record EdgeSizes := {
  startEdgeSize : nat;
  endEdgeSize : nat
}.

(** The padding [oneof] of convolution and pooling parameters. *)
Inductive PaddingType :=
| PaddingUnset
| valid (borderAmounts : list EdgeSizes)
| same (asymmetryMode : SamePaddingMode).

Inductive PoolingType := MAX | AVERAGE | L2.

Inductive FlattenOrder := FLATTEN_CHANNEL_FIRST | FLATTEN_CHANNEL_LAST.

Inductive ReshapeOrder := RESHAPE_CHANNEL_FIRST | RESHAPE_CHANNEL_LAST.

Section Document.
Context {A F : Type} `{Numeric A F}.

(** [ActivationParams], the [oneof NonlinearityType]. *)
Inductive ActivationParams :=
| ActivationUnset
| linear
| ReLU
| leakyReLU (alpha : F)
| thresholdedReLU (alpha : F)
| PReLU (alpha : list F)
| tanh
| scaledTanh (alpha beta : F)
| sigmoid
| sigmoidHard (alpha beta : F)
| ELU (alpha : F)
| softsign
| softplus
| parametricSoftplus (alpha beta : list F).

Record InnerProductLayerParams := {
  ip_inputChannels : nat;
  ip_outputChannels : nat;
  ip_hasBias : bool;
  ip_weights : list F;
  ip_bias : list F
}.

Definition ip_default : InnerProductLayerParams :=
  {| ip_inputChannels := 0;
     ip_outputChannels := 0;
     ip_hasBias := false;
     ip_weights := [];
     ip_bias := [] |}.

Definition set_ip_inputChannels (v : nat) (p : InnerProductLayerParams) : InnerProductLayerParams :=
  let (_, x1, x2, x3, x4) := p in Build_InnerProductLayerParams v x1 x2 x3 x4.
Definition set_ip_outputChannels (v : nat) (p : InnerProductLayerParams) : InnerProductLayerParams :=
  let (x0, _, x2, x3, x4) := p in Build_InnerProductLayerParams x0 v x2 x3 x4.
Definition set_ip_hasBias (v : bool) (p : InnerProductLayerParams) : InnerProductLayerParams :=
  let (x0, x1, _, x3, x4) := p in Build_InnerProductLayerParams x0 x1 v x3 x4.
Definition set_ip_weights (v : list F) (p : InnerProductLayerParams) : InnerProductLayerParams :=
  let (x0, x1, x2, _, x4) := p in Build_InnerProductLayerParams x0 x1 x2 v x4.
Definition set_ip_bias (v : list F) (p : InnerProductLayerParams) : InnerProductLayerParams :=
  let (x0, x1, x2, x3, _) := p in Build_InnerProductLayerParams x0 x1 x2 x3 v.

Record EmbeddingLayerParams := {
  emb_inputDim : nat;
  emb_outputChannels : nat;
  emb_hasBias : bool;
  emb_weights : list F;
  emb_bias : list F
}.

Definition emb_default : EmbeddingLayerParams :=
  {| emb_inputDim := 0;
     emb_outputChannels := 0;
     emb_hasBias := false;
     emb_weights := [];
     emb_bias := [] |}.

Definition set_emb_inputDim (v : nat) (p : EmbeddingLayerParams) : EmbeddingLayerParams :=
  let (_, x1, x2, x3, x4) := p in Build_EmbeddingLayerParams v x1 x2 x3 x4.
Definition set_emb_outputChannels (v : nat) (p : EmbeddingLayerParams) : EmbeddingLayerParams :=
  let (x0, _, x2, x3, x4) := p in Build_EmbeddingLayerParams x0 v x2 x3 x4.
Definition set_emb_hasBias (v : bool) (p : EmbeddingLayerParams) : EmbeddingLayerParams :=
  let (x0, x1, _, x3, x4) := p in Build_EmbeddingLayerParams x0 x1 v x3 x4.
Definition set_emb_weights (v : list F) (p : EmbeddingLayerParams) : EmbeddingLayerParams :=
  let (x0, x1, x2, _, x4) := p in Build_EmbeddingLayerParams x0 x1 x2 v x4.
Definition set_emb_bias (v : list F) (p : EmbeddingLayerParams) : EmbeddingLayerParams :=
  let (x0, x1, x2, x3, _) := p in Build_EmbeddingLayerParams x0 x1 x2 x3 v.

Record ConvolutionLayerParams := {
  conv_outputChannels : nat;
  conv_kernelChannels : nat;
  conv_nGroups : nat;
  conv_kernelSize : list nat;
  conv_stride : list nat;
  conv_padding : PaddingType;
  conv_isDeconvolution : bool;
  conv_hasBias : bool;
  conv_weights : list F;
  conv_bias : list F;
  conv_outputShape : list nat
}.

Definition conv_default : ConvolutionLayerParams :=
  {| conv_outputChannels := 0;
     conv_kernelChannels := 0;
     conv_nGroups := 0;
     conv_kernelSize := [];
     conv_stride := [];
     conv_padding := PaddingUnset;
     conv_isDeconvolution := false;
     conv_hasBias := false;
     conv_weights := [];
     conv_bias := [];
     conv_outputShape := [] |}.

Definition set_conv_outputChannels (v : nat) (p : ConvolutionLayerParams) : ConvolutionLayerParams :=
  let (_, x1, x2, x3, x4, x5, x6, x7, x8, x9, x10) := p in Build_ConvolutionLayerParams v x1 x2 x3 x4 x5 x6 x7 x8 x9 x10.
Definition set_conv_kernelChannels (v : nat) (p : ConvolutionLayerParams) : ConvolutionLayerParams :=
  let (x0, _, x2, x3, x4, x5, x6, x7, x8, x9, x10) := p in Build_ConvolutionLayerParams x0 v x2 x3 x4 x5 x6 x7 x8 x9 x10.
Definition set_conv_nGroups (v : nat) (p : ConvolutionLayerParams) : ConvolutionLayerParams :=
  let (x0, x1, _, x3, x4, x5, x6, x7, x8, x9, x10) := p in Build_ConvolutionLayerParams x0 x1 v x3 x4 x5 x6 x7 x8 x9 x10.
Definition set_conv_kernelSize (v : list nat) (p : ConvolutionLayerParams) : ConvolutionLayerParams :=
  let (x0, x1, x2, _, x4, x5, x6, x7, x8, x9, x10) := p in Build_ConvolutionLayerParams x0 x1 x2 v x4 x5 x6 x7 x8 x9 x10.
Definition set_conv_stride (v : list nat) (p : ConvolutionLayerParams) : ConvolutionLayerParams :=
  let (x0, x1, x2, x3, _, x5, x6, x7, x8, x9, x10) := p in Build_ConvolutionLayerParams x0 x1 x2 x3 v x5 x6 x7 x8 x9 x10.
Definition set_conv_padding (v : PaddingType) (p : ConvolutionLayerParams) : ConvolutionLayerParams :=
  let (x0, x1, x2, x3, x4, _, x6, x7, x8, x9, x10) := p in Build_ConvolutionLayerParams x0 x1 x2 x3 x4 v x6 x7 x8 x9 x10.
Definition set_conv_isDeconvolution (v : bool) (p : ConvolutionLayerParams) : ConvolutionLayerParams :=
  let (x0, x1, x2, x3, x4, x5, _, x7, x8, x9, x10) := p in Build_ConvolutionLayerParams x0 x1 x2 x3 x4 x5 v x7 x8 x9 x10.
Definition set_conv_hasBias (v : bool) (p : ConvolutionLayerParams) : ConvolutionLayerParams :=
  let (x0, x1, x2, x3, x4, x5, x6, _, x8, x9, x10) := p in Build_ConvolutionLayerParams x0 x1 x2 x3 x4 x5 x6 v x8 x9 x10.
Definition set_conv_weights (v : list F) (p : ConvolutionLayerParams) : ConvolutionLayerParams :=
  let (x0, x1, x2, x3, x4, x5, x6, x7, _, x9, x10) := p in Build_ConvolutionLayerParams x0 x1 x2 x3 x4 x5 x6 x7 v x9 x10.
Definition set_conv_bias (v : list F) (p : ConvolutionLayerParams) : ConvolutionLayerParams :=
  let (x0, x1, x2, x3, x4, x5, x6, x7, x8, _, x10) := p in Build_ConvolutionLayerParams x0 x1 x2 x3 x4 x5 x6 x7 x8 v x10.
Definition set_conv_outputShape (v : list nat) (p : ConvolutionLayerParams) : ConvolutionLayerParams :=
  let (x0, x1, x2, x3, x4, x5, x6, x7, x8, x9, _) := p in Build_ConvolutionLayerParams x0 x1 x2 x3 x4 x5 x6 x7 x8 x9 v.

Record PoolingLayerParams := {
  pool_type : PoolingType;
  pool_kernelSize : list nat;
  pool_stride : list nat;
  pool_padding : PaddingType;
  pool_avgPoolExcludePadding : bool;
  pool_globalPooling : bool
}.

Definition pool_default : PoolingLayerParams :=
  {| pool_type := MAX;
     pool_kernelSize := [];
     pool_stride := [];
     pool_padding := PaddingUnset;
     pool_avgPoolExcludePadding := false;
     pool_globalPooling := false |}.

Definition set_pool_type (v : PoolingType) (p : PoolingLayerParams) : PoolingLayerParams :=
  let (_, x1, x2, x3, x4, x5) := p in Build_PoolingLayerParams v x1 x2 x3 x4 x5.
Definition set_pool_kernelSize (v : list nat) (p : PoolingLayerParams) : PoolingLayerParams :=
  let (x0, _, x2, x3, x4, x5) := p in Build_PoolingLayerParams x0 v x2 x3 x4 x5.
Definition set_pool_stride (v : list nat) (p : PoolingLayerParams) : PoolingLayerParams :=
  let (x0, x1, _, x3, x4, x5) := p in Build_PoolingLayerParams x0 x1 v x3 x4 x5.
Definition set_pool_padding (v : PaddingType) (p : PoolingLayerParams) : PoolingLayerParams :=
  let (x0, x1, x2, _, x4, x5) := p in Build_PoolingLayerParams x0 x1 x2 v x4 x5.
Definition set_pool_avgPoolExcludePadding (v : bool) (p : PoolingLayerParams) : PoolingLayerParams :=
  let (x0, x1, x2, x3, _, x5) := p in Build_PoolingLayerParams x0 x1 x2 x3 v x5.
Definition set_pool_globalPooling (v : bool) (p : PoolingLayerParams) : PoolingLayerParams :=
  let (x0, x1, x2, x3, x4, _) := p in Build_PoolingLayerParams x0 x1 x2 x3 x4 v.

Record SimpleRecurrentLayerParams := {
  rnn_inputVectorSize : nat;
  rnn_outputVectorSize : nat;
  rnn_activation : ActivationParams;
  rnn_sequenceOutput : bool;
  rnn_hasBiasVector : bool;
  rnn_weightMatrix : list F;
  rnn_recursionMatrix : list F;
  rnn_biasVector : list F;
  rnn_reverseInput : bool
}.

Definition rnn_default : SimpleRecurrentLayerParams :=
  {| rnn_inputVectorSize := 0;
     rnn_outputVectorSize := 0;
     rnn_activation := ActivationUnset;
     rnn_sequenceOutput := false;
     rnn_hasBiasVector := false;
     rnn_weightMatrix := [];
     rnn_recursionMatrix := [];
     rnn_biasVector := [];
     rnn_reverseInput := false |}.

Definition set_rnn_inputVectorSize (v : nat) (p : SimpleRecurrentLayerParams) : SimpleRecurrentLayerParams :=
  let (_, x1, x2, x3, x4, x5, x6, x7, x8) := p in Build_SimpleRecurrentLayerParams v x1 x2 x3 x4 x5 x6 x7 x8.
Definition set_rnn_outputVectorSize (v : nat) (p : SimpleRecurrentLayerParams) : SimpleRecurrentLayerParams :=
  let (x0, _, x2, x3, x4, x5, x6, x7, x8) := p in Build_SimpleRecurrentLayerParams x0 v x2 x3 x4 x5 x6 x7 x8.
Definition set_rnn_activation (v : ActivationParams) (p : SimpleRecurrentLayerParams) : SimpleRecurrentLayerParams :=
  let (x0, x1, _, x3, x4, x5, x6, x7, x8) := p in Build_SimpleRecurrentLayerParams x0 x1 v x3 x4 x5 x6 x7 x8.
Definition set_rnn_sequenceOutput (v : bool) (p : SimpleRecurrentLayerParams) : SimpleRecurrentLayerParams :=
  let (x0, x1, x2, _, x4, x5, x6, x7, x8) := p in Build_SimpleRecurrentLayerParams x0 x1 x2 v x4 x5 x6 x7 x8.
Definition set_rnn_hasBiasVector (v : bool) (p : SimpleRecurrentLayerParams) : SimpleRecurrentLayerParams :=
  let (x0, x1, x2, x3, _, x5, x6, x7, x8) := p in Build_SimpleRecurrentLayerParams x0 x1 x2 x3 v x5 x6 x7 x8.
Definition set_rnn_weightMatrix (v : list F) (p : SimpleRecurrentLayerParams) : SimpleRecurrentLayerParams :=
  let (x0, x1, x2, x3, x4, _, x6, x7, x8) := p in Build_SimpleRecurrentLayerParams x0 x1 x2 x3 x4 v x6 x7 x8.
Definition set_rnn_recursionMatrix (v : list F) (p : SimpleRecurrentLayerParams) : SimpleRecurrentLayerParams :=
  let (x0, x1, x2, x3, x4, x5, _, x7, x8) := p in Build_SimpleRecurrentLayerParams x0 x1 x2 x3 x4 x5 v x7 x8.
Definition set_rnn_biasVector (v : list F) (p : SimpleRecurrentLayerParams) : SimpleRecurrentLayerParams :=
  let (x0, x1, x2, x3, x4, x5, x6, _, x8) := p in Build_SimpleRecurrentLayerParams x0 x1 x2 x3 x4 x5 x6 v x8.
Definition set_rnn_reverseInput (v : bool) (p : SimpleRecurrentLayerParams) : SimpleRecurrentLayerParams :=
  let (x0, x1, x2, x3, x4, x5, x6, x7, _) := p in Build_SimpleRecurrentLayerParams x0 x1 x2 x3 x4 x5 x6 x7 v.

Record GRULayerParams := {
  gru_inputVectorSize : nat;
  gru_outputVectorSize : nat;
  gru_activations : list ActivationParams;
  gru_sequenceOutput : bool;
  gru_hasBiasVectors : bool;
  gru_updateGateWeightMatrix : list F;
  gru_resetGateWeightMatrix : list F;
  gru_outputGateWeightMatrix : list F;
  gru_updateGateRecursionMatrix : list F;
  gru_resetGateRecursionMatrix : list F;
  gru_outputGateRecursionMatrix : list F;
  gru_updateGateBiasVector : list F;
  gru_resetGateBiasVector : list F;
  gru_outputGateBiasVector : list F;
  gru_reverseInput : bool
}.

Definition gru_default : GRULayerParams :=
  {| gru_inputVectorSize := 0;
     gru_outputVectorSize := 0;
     gru_activations := [];
     gru_sequenceOutput := false;
     gru_hasBiasVectors := false;
     gru_updateGateWeightMatrix := [];
     gru_resetGateWeightMatrix := [];
     gru_outputGateWeightMatrix := [];
     gru_updateGateRecursionMatrix := [];
     gru_resetGateRecursionMatrix := [];
     gru_outputGateRecursionMatrix := [];
     gru_updateGateBiasVector := [];
     gru_resetGateBiasVector := [];
     gru_outputGateBiasVector := [];
     gru_reverseInput := false |}.

Definition set_gru_inputVectorSize (v : nat) (p : GRULayerParams) : GRULayerParams :=
  let (_, x1, x2, x3, x4, x5, x6, x7, x8, x9, x10, x11, x12, x13, x14) := p in Build_GRULayerParams v x1 x2 x3 x4 x5 x6 x7 x8 x9 x10 x11 x12 x13 x14.
Definition set_gru_outputVectorSize (v : nat) (p : GRULayerParams) : GRULayerParams :=
  let (x0, _, x2, x3, x4, x5, x6, x7, x8, x9, x10, x11, x12, x13, x14) := p in Build_GRULayerParams x0 v x2 x3 x4 x5 x6 x7 x8 x9 x10 x11 x12 x13 x14.
Definition set_gru_activations (v : list ActivationParams) (p : GRULayerParams) : GRULayerParams :=
  let (x0, x1, _, x3, x4, x5, x6, x7, x8, x9, x10, x11, x12, x13, x14) := p in Build_GRULayerParams x0 x1 v x3 x4 x5 x6 x7 x8 x9 x10 x11 x12 x13 x14.
Definition set_gru_sequenceOutput (v : bool) (p : GRULayerParams) : GRULayerParams :=
  let (x0, x1, x2, _, x4, x5, x6, x7, x8, x9, x10, x11, x12, x13, x14) := p in Build_GRULayerParams x0 x1 x2 v x4 x5 x6 x7 x8 x9 x10 x11 x12 x13 x14.
Definition set_gru_hasBiasVectors (v : bool) (p : GRULayerParams) : GRULayerParams :=
  let (x0, x1, x2, x3, _, x5, x6, x7, x8, x9, x10, x11, x12, x13, x14) := p in Build_GRULayerParams x0 x1 x2 x3 v x5 x6 x7 x8 x9 x10 x11 x12 x13 x14.
Definition set_gru_updateGateWeightMatrix (v : list F) (p : GRULayerParams) : GRULayerParams :=
  let (x0, x1, x2, x3, x4, _, x6, x7, x8, x9, x10, x11, x12, x13, x14) := p in Build_GRULayerParams x0 x1 x2 x3 x4 v x6 x7 x8 x9 x10 x11 x12 x13 x14.
Definition set_gru_resetGateWeightMatrix (v : list F) (p : GRULayerParams) : GRULayerParams :=
  let (x0, x1, x2, x3, x4, x5, _, x7, x8, x9, x10, x11, x12, x13, x14) := p in Build_GRULayerParams x0 x1 x2 x3 x4 x5 v x7 x8 x9 x10 x11 x12 x13 x14.
Definition set_gru_outputGateWeightMatrix (v : list F) (p : GRULayerParams) : GRULayerParams :=
  let (x0, x1, x2, x3, x4, x5, x6, _, x8, x9, x10, x11, x12, x13, x14) := p in Build_GRULayerParams x0 x1 x2 x3 x4 x5 x6 v x8 x9 x10 x11 x12 x13 x14.
Definition set_gru_updateGateRecursionMatrix (v : list F) (p : GRULayerParams) : GRULayerParams :=
  let (x0, x1, x2, x3, x4, x5, x6, x7, _, x9, x10, x11, x12, x13, x14) := p in Build_GRULayerParams x0 x1 x2 x3 x4 x5 x6 x7 v x9 x10 x11 x12 x13 x14.
Definition set_gru_resetGateRecursionMatrix (v : list F) (p : GRULayerParams) : GRULayerParams :=
  let (x0, x1, x2, x3, x4, x5, x6, x7, x8, _, x10, x11, x12, x13, x14) := p in Build_GRULayerParams x0 x1 x2 x3 x4 x5 x6 x7 x8 v x10 x11 x12 x13 x14.
Definition set_gru_outputGateRecursionMatrix (v : list F) (p : GRULayerParams) : GRULayerParams :=
  let (x0, x1, x2, x3, x4, x5, x6, x7, x8, x9, _, x11, x12, x13, x14) := p in Build_GRULayerParams x0 x1 x2 x3 x4 x5 x6 x7 x8 x9 v x11 x12 x13 x14.
Definition set_gru_updateGateBiasVector (v : list F) (p : GRULayerParams) : GRULayerParams :=
  let (x0, x1, x2, x3, x4, x5, x6, x7, x8, x9, x10, _, x12, x13, x14) := p in Build_GRULayerParams x0 x1 x2 x3 x4 x5 x6 x7 x8 x9 x10 v x12 x13 x14.
Definition set_gru_resetGateBiasVector (v : list F) (p : GRULayerParams) : GRULayerParams :=
  let (x0, x1, x2, x3, x4, x5, x6, x7, x8, x9, x10, x11, _, x13, x14) := p in Build_GRULayerParams x0 x1 x2 x3 x4 x5 x6 x7 x8 x9 x10 x11 v x13 x14.
Definition set_gru_outputGateBiasVector (v : list F) (p : GRULayerParams) : GRULayerParams :=
  let (x0, x1, x2, x3, x4, x5, x6, x7, x8, x9, x10, x11, x12, _, x14) := p in Build_GRULayerParams x0 x1 x2 x3 x4 x5 x6 x7 x8 x9 x10 x11 x12 v x14.
Definition set_gru_reverseInput (v : bool) (p : GRULayerParams) : GRULayerParams :=
  let (x0, x1, x2, x3, x4, x5, x6, x7, x8, x9, x10, x11, x12, x13, _) := p in Build_GRULayerParams x0 x1 x2 x3 x4 x5 x6 x7 x8 x9 x10 x11 x12 x13 v.

Record LSTMParams := {
  lstm_sequenceOutput : bool;
  lstm_hasBiasVectors : bool;
  lstm_forgetBias : bool;
  lstm_hasPeepholeVectors : bool;
  lstm_coupledInputAndForgetGate : bool;
  lstm_cellClipThreshold : F
}.

Definition lstm_default : LSTMParams :=
  {| lstm_sequenceOutput := false;
     lstm_hasBiasVectors := false;
     lstm_forgetBias := false;
     lstm_hasPeepholeVectors := false;
     lstm_coupledInputAndForgetGate := false;
     lstm_cellClipThreshold := literal 0 |}.

Definition set_lstm_sequenceOutput (v : bool) (p : LSTMParams) : LSTMParams :=
  let (_, x1, x2, x3, x4, x5) := p in Build_LSTMParams v x1 x2 x3 x4 x5.
Definition set_lstm_hasBiasVectors (v : bool) (p : LSTMParams) : LSTMParams :=
  let (x0, _, x2, x3, x4, x5) := p in Build_LSTMParams x0 v x2 x3 x4 x5.
Definition set_lstm_forgetBias (v : bool) (p : LSTMParams) : LSTMParams :=
  let (x0, x1, _, x3, x4, x5) := p in Build_LSTMParams x0 x1 v x3 x4 x5.
Definition set_lstm_hasPeepholeVectors (v : bool) (p : LSTMParams) : LSTMParams :=
  let (x0, x1, x2, _, x4, x5) := p in Build_LSTMParams x0 x1 x2 v x4 x5.
Definition set_lstm_coupledInputAndForgetGate (v : bool) (p : LSTMParams) : LSTMParams :=
  let (x0, x1, x2, x3, _, x5) := p in Build_LSTMParams x0 x1 x2 x3 v x5.
Definition set_lstm_cellClipThreshold (v : F) (p : LSTMParams) : LSTMParams :=
  let (x0, x1, x2, x3, x4, _) := p in Build_LSTMParams x0 x1 x2 x3 x4 v.

Record LSTMWeightParams := {
  w_inputGateWeightMatrix : list F;
  w_forgetGateWeightMatrix : list F;
  w_blockInputWeightMatrix : list F;
  w_outputGateWeightMatrix : list F;
  w_inputGateRecursionMatrix : list F;
  w_forgetGateRecursionMatrix : list F;
  w_blockInputRecursionMatrix : list F;
  w_outputGateRecursionMatrix : list F;
  w_inputGateBiasVector : list F;
  w_forgetGateBiasVector : list F;
  w_blockInputBiasVector : list F;
  w_outputGateBiasVector : list F;
  w_inputGatePeepholeVector : list F;
  w_forgetGatePeepholeVector : list F;
  w_outputGatePeepholeVector : list F
}.

Definition w_default : LSTMWeightParams :=
  {| w_inputGateWeightMatrix := [];
     w_forgetGateWeightMatrix := [];
     w_blockInputWeightMatrix := [];
     w_outputGateWeightMatrix := [];
     w_inputGateRecursionMatrix := [];
     w_forgetGateRecursionMatrix := [];
     w_blockInputRecursionMatrix := [];
     w_outputGateRecursionMatrix := [];
     w_inputGateBiasVector := [];
     w_forgetGateBiasVector := [];
     w_blockInputBiasVector := [];
     w_outputGateBiasVector := [];
     w_inputGatePeepholeVector := [];
     w_forgetGatePeepholeVector := [];
     w_outputGatePeepholeVector := [] |}.

Definition set_w_inputGateWeightMatrix (v : list F) (p : LSTMWeightParams) : LSTMWeightParams :=
  let (_, x1, x2, x3, x4, x5, x6, x7, x8, x9, x10, x11, x12, x13, x14) := p in Build_LSTMWeightParams v x1 x2 x3 x4 x5 x6 x7 x8 x9 x10 x11 x12 x13 x14.
Definition set_w_forgetGateWeightMatrix (v : list F) (p : LSTMWeightParams) : LSTMWeightParams :=
  let (x0, _, x2, x3, x4, x5, x6, x7, x8, x9, x10, x11, x12, x13, x14) := p in Build_LSTMWeightParams x0 v x2 x3 x4 x5 x6 x7 x8 x9 x10 x11 x12 x13 x14.
Definition set_w_blockInputWeightMatrix (v : list F) (p : LSTMWeightParams) : LSTMWeightParams :=
  let (x0, x1, _, x3, x4, x5, x6, x7, x8, x9, x10, x11, x12, x13, x14) := p in Build_LSTMWeightParams x0 x1 v x3 x4 x5 x6 x7 x8 x9 x10 x11 x12 x13 x14.
Definition set_w_outputGateWeightMatrix (v : list F) (p : LSTMWeightParams) : LSTMWeightParams :=
  let (x0, x1, x2, _, x4, x5, x6, x7, x8, x9, x10, x11, x12, x13, x14) := p in Build_LSTMWeightParams x0 x1 x2 v x4 x5 x6 x7 x8 x9 x10 x11 x12 x13 x14.
Definition set_w_inputGateRecursionMatrix (v : list F) (p : LSTMWeightParams) : LSTMWeightParams :=
  let (x0, x1, x2, x3, _, x5, x6, x7, x8, x9, x10, x11, x12, x13, x14) := p in Build_LSTMWeightParams x0 x1 x2 x3 v x5 x6 x7 x8 x9 x10 x11 x12 x13 x14.
Definition set_w_forgetGateRecursionMatrix (v : list F) (p : LSTMWeightParams) : LSTMWeightParams :=
  let (x0, x1, x2, x3, x4, _, x6, x7, x8, x9, x10, x11, x12, x13, x14) := p in Build_LSTMWeightParams x0 x1 x2 x3 x4 v x6 x7 x8 x9 x10 x11 x12 x13 x14.
Definition set_w_blockInputRecursionMatrix (v : list F) (p : LSTMWeightParams) : LSTMWeightParams :=
  let (x0, x1, x2, x3, x4, x5, _, x7, x8, x9, x10, x11, x12, x13, x14) := p in Build_LSTMWeightParams x0 x1 x2 x3 x4 x5 v x7 x8 x9 x10 x11 x12 x13 x14.
Definition set_w_outputGateRecursionMatrix (v : list F) (p : LSTMWeightParams) : LSTMWeightParams :=
  let (x0, x1, x2, x3, x4, x5, x6, _, x8, x9, x10, x11, x12, x13, x14) := p in Build_LSTMWeightParams x0 x1 x2 x3 x4 x5 x6 v x8 x9 x10 x11 x12 x13 x14.
Definition set_w_inputGateBiasVector (v : list F) (p : LSTMWeightParams) : LSTMWeightParams :=
  let (x0, x1, x2, x3, x4, x5, x6, x7, _, x9, x10, x11, x12, x13, x14) := p in Build_LSTMWeightParams x0 x1 x2 x3 x4 x5 x6 x7 v x9 x10 x11 x12 x13 x14.
Definition set_w_forgetGateBiasVector (v : list F) (p : LSTMWeightParams) : LSTMWeightParams :=
  let (x0, x1, x2, x3, x4, x5, x6, x7, x8, _, x10, x11, x12, x13, x14) := p in Build_LSTMWeightParams x0 x1 x2 x3 x4 x5 x6 x7 x8 v x10 x11 x12 x13 x14.
Definition set_w_blockInputBiasVector (v : list F) (p : LSTMWeightParams) : LSTMWeightParams :=
  let (x0, x1, x2, x3, x4, x5, x6, x7, x8, x9, _, x11, x12, x13, x14) := p in Build_LSTMWeightParams x0 x1 x2 x3 x4 x5 x6 x7 x8 x9 v x11 x12 x13 x14.
Definition set_w_outputGateBiasVector (v : list F) (p : LSTMWeightParams) : LSTMWeightParams :=
  let (x0, x1, x2, x3, x4, x5, x6, x7, x8, x9, x10, _, x12, x13, x14) := p in Build_LSTMWeightParams x0 x1 x2 x3 x4 x5 x6 x7 x8 x9 x10 v x12 x13 x14.
Definition set_w_inputGatePeepholeVector (v : list F) (p : LSTMWeightParams) : LSTMWeightParams :=
  let (x0, x1, x2, x3, x4, x5, x6, x7, x8, x9, x10, x11, _, x13, x14) := p in Build_LSTMWeightParams x0 x1 x2 x3 x4 x5 x6 x7 x8 x9 x10 x11 v x13 x14.
Definition set_w_forgetGatePeepholeVector (v : list F) (p : LSTMWeightParams) : LSTMWeightParams :=
  let (x0, x1, x2, x3, x4, x5, x6, x7, x8, x9, x10, x11, x12, _, x14) := p in Build_LSTMWeightParams x0 x1 x2 x3 x4 x5 x6 x7 x8 x9 x10 x11 x12 v x14.
Definition set_w_outputGatePeepholeVector (v : list F) (p : LSTMWeightParams) : LSTMWeightParams :=
  let (x0, x1, x2, x3, x4, x5, x6, x7, x8, x9, x10, x11, x12, x13, _) := p in Build_LSTMWeightParams x0 x1 x2 x3 x4 x5 x6 x7 x8 x9 x10 x11 x12 x13 v.

Record UniDirectionalLSTMLayerParams := {
  uni_inputVectorSize : nat;
  uni_outputVectorSize : nat;
  uni_activations : list ActivationParams;
  uni_params : LSTMParams;
  uni_weightParams : LSTMWeightParams;
  uni_reverseInput : bool
}.

Definition uni_default : UniDirectionalLSTMLayerParams :=
  {| uni_inputVectorSize := 0;
     uni_outputVectorSize := 0;
     uni_activations := [];
     uni_params := lstm_default;
     uni_weightParams := w_default;
     uni_reverseInput := false |}.

Definition set_uni_inputVectorSize (v : nat) (p : UniDirectionalLSTMLayerParams) : UniDirectionalLSTMLayerParams :=
  let (_, x1, x2, x3, x4, x5) := p in Build_UniDirectionalLSTMLayerParams v x1 x2 x3 x4 x5.
Definition set_uni_outputVectorSize (v : nat) (p : UniDirectionalLSTMLayerParams) : UniDirectionalLSTMLayerParams :=
  let (x0, _, x2, x3, x4, x5) := p in Build_UniDirectionalLSTMLayerParams x0 v x2 x3 x4 x5.
Definition set_uni_activations (v : list ActivationParams) (p : UniDirectionalLSTMLayerParams) : UniDirectionalLSTMLayerParams :=
  let (x0, x1, _, x3, x4, x5) := p in Build_UniDirectionalLSTMLayerParams x0 x1 v x3 x4 x5.
Definition set_uni_params (v : LSTMParams) (p : UniDirectionalLSTMLayerParams) : UniDirectionalLSTMLayerParams :=
  let (x0, x1, x2, _, x4, x5) := p in Build_UniDirectionalLSTMLayerParams x0 x1 x2 v x4 x5.
Definition set_uni_weightParams (v : LSTMWeightParams) (p : UniDirectionalLSTMLayerParams) : UniDirectionalLSTMLayerParams :=
  let (x0, x1, x2, x3, _, x5) := p in Build_UniDirectionalLSTMLayerParams x0 x1 x2 x3 v x5.
Definition set_uni_reverseInput (v : bool) (p : UniDirectionalLSTMLayerParams) : UniDirectionalLSTMLayerParams :=
  let (x0, x1, x2, x3, x4, _) := p in Build_UniDirectionalLSTMLayerParams x0 x1 x2 x3 x4 v.

Record BiDirectionalLSTMLayerParams := {
  bi_inputVectorSize : nat;
  bi_outputVectorSize : nat;
  bi_activationsForwardLSTM : list ActivationParams;
  bi_activationsBackwardLSTM : list ActivationParams;
  bi_params : LSTMParams;
  bi_weightParams : list LSTMWeightParams
}.

Definition bi_default : BiDirectionalLSTMLayerParams :=
  {| bi_inputVectorSize := 0;
     bi_outputVectorSize := 0;
     bi_activationsForwardLSTM := [];
     bi_activationsBackwardLSTM := [];
     bi_params := lstm_default;
     bi_weightParams := [] |}.

Definition set_bi_inputVectorSize (v : nat) (p : BiDirectionalLSTMLayerParams) : BiDirectionalLSTMLayerParams :=
  let (_, x1, x2, x3, x4, x5) := p in Build_BiDirectionalLSTMLayerParams v x1 x2 x3 x4 x5.
Definition set_bi_outputVectorSize (v : nat) (p : BiDirectionalLSTMLayerParams) : BiDirectionalLSTMLayerParams :=
  let (x0, _, x2, x3, x4, x5) := p in Build_BiDirectionalLSTMLayerParams x0 v x2 x3 x4 x5.
Definition set_bi_activationsForwardLSTM (v : list ActivationParams) (p : BiDirectionalLSTMLayerParams) : BiDirectionalLSTMLayerParams :=
  let (x0, x1, _, x3, x4, x5) := p in Build_BiDirectionalLSTMLayerParams x0 x1 v x3 x4 x5.
Definition set_bi_activationsBackwardLSTM (v : list ActivationParams) (p : BiDirectionalLSTMLayerParams) : BiDirectionalLSTMLayerParams :=
  let (x0, x1, x2, _, x4, x5) := p in Build_BiDirectionalLSTMLayerParams x0 x1 x2 v x4 x5.
Definition set_bi_params (v : LSTMParams) (p : BiDirectionalLSTMLayerParams) : BiDirectionalLSTMLayerParams :=
  let (x0, x1, x2, x3, _, x5) := p in Build_BiDirectionalLSTMLayerParams x0 x1 x2 x3 v x5.
Definition set_bi_weightParams (v : list LSTMWeightParams) (p : BiDirectionalLSTMLayerParams) : BiDirectionalLSTMLayerParams :=
  let (x0, x1, x2, x3, x4, _) := p in Build_BiDirectionalLSTMLayerParams x0 x1 x2 x3 x4 v.

Record BatchnormLayerParams := {
  bn_channels : nat;
  bn_computeMeanVar : bool;
  bn_instanceNormalization : bool;
  bn_epsilon : F;
  bn_gamma : list F;
  bn_beta : list F;
  bn_mean : list F;
  bn_variance : list F
}.

Definition bn_default : BatchnormLayerParams :=
  {| bn_channels := 0;
     bn_computeMeanVar := false;
     bn_instanceNormalization := false;
     bn_epsilon := literal 0;
     bn_gamma := [];
     bn_beta := [];
     bn_mean := [];
     bn_variance := [] |}.

Definition set_bn_channels (v : nat) (p : BatchnormLayerParams) : BatchnormLayerParams :=
  let (_, x1, x2, x3, x4, x5, x6, x7) := p in Build_BatchnormLayerParams v x1 x2 x3 x4 x5 x6 x7.
Definition set_bn_computeMeanVar (v : bool) (p : BatchnormLayerParams) : BatchnormLayerParams :=
  let (x0, _, x2, x3, x4, x5, x6, x7) := p in Build_BatchnormLayerParams x0 v x2 x3 x4 x5 x6 x7.
Definition set_bn_instanceNormalization (v : bool) (p : BatchnormLayerParams) : BatchnormLayerParams :=
  let (x0, x1, _, x3, x4, x5, x6, x7) := p in Build_BatchnormLayerParams x0 x1 v x3 x4 x5 x6 x7.
Definition set_bn_epsilon (v : F) (p : BatchnormLayerParams) : BatchnormLayerParams :=
  let (x0, x1, x2, _, x4, x5, x6, x7) := p in Build_BatchnormLayerParams x0 x1 x2 v x4 x5 x6 x7.
Definition set_bn_gamma (v : list F) (p : BatchnormLayerParams) : BatchnormLayerParams :=
  let (x0, x1, x2, x3, _, x5, x6, x7) := p in Build_BatchnormLayerParams x0 x1 x2 x3 v x5 x6 x7.
Definition set_bn_beta (v : list F) (p : BatchnormLayerParams) : BatchnormLayerParams :=
  let (x0, x1, x2, x3, x4, _, x6, x7) := p in Build_BatchnormLayerParams x0 x1 x2 x3 x4 v x6 x7.
Definition set_bn_mean (v : list F) (p : BatchnormLayerParams) : BatchnormLayerParams :=
  let (x0, x1, x2, x3, x4, x5, _, x7) := p in Build_BatchnormLayerParams x0 x1 x2 x3 x4 x5 v x7.
Definition set_bn_variance (v : list F) (p : BatchnormLayerParams) : BatchnormLayerParams :=
  let (x0, x1, x2, x3, x4, x5, x6, _) := p in Build_BatchnormLayerParams x0 x1 x2 x3 x4 x5 x6 v.

(** [NeuralNetworkLayer]'s [oneof layer]: the kind-specific parameters.
    The members [flatten] and [concat] are [flatten_] and [concat_] here,
    next to numpy's [flatten] and the list [concat]. *)
Inductive LayerParams :=
| LayerUnset
| convolution (p : ConvolutionLayerParams)
| pooling (p : PoolingLayerParams)
| activation (p : ActivationParams)
| innerProduct (p : InnerProductLayerParams)
| embedding (p : EmbeddingLayerParams)
| batchnorm (p : BatchnormLayerParams)
| softmax
| crop (cropAmounts : list EdgeSizes) (offset : list nat)
| padding (constant_value : F) (paddingAmounts : list EdgeSizes)
| upsample (scalingFactor : list nat)
| add
| multiply
| average
| max
| dot (cosineSimilarity : bool)
| reshape (targetShape : list Z) (mode : ReshapeOrder)
| flatten_ (mode : FlattenOrder)
| permute (axis : list nat)
| concat_ (sequenceConcat : bool)
| sequenceRepeat (nRepetitions : nat)
| simpleRecurrent (p : SimpleRecurrentLayerParams)
| gru (p : GRULayerParams)
| uniDirectionalLSTM (p : UniDirectionalLSTMLayerParams)
| biDirectionalLSTM (p : BiDirectionalLSTMLayerParams).

(** [spec_layer.WhichOneof('layer')] *)
Definition WhichOneof (l : LayerParams) : option string :=
  match l with
  | LayerUnset => None
  | convolution _ => Some "convolution"
  | pooling _ => Some "pooling"
  | activation _ => Some "activation"
  | innerProduct _ => Some "innerProduct"
  | embedding _ => Some "embedding"
  | batchnorm _ => Some "batchnorm"
  | softmax => Some "softmax"
  | crop _ _ => Some "crop"
  | padding _ _ => Some "padding"
  | upsample _ => Some "upsample"
  | add => Some "add"
  | multiply => Some "multiply"
  | average => Some "average"
  | max => Some "max"
  | dot _ => Some "dot"
  | reshape _ _ => Some "reshape"
  | flatten_ _ => Some "flatten"
  | permute _ => Some "permute"
  | concat_ _ => Some "concat"
  | sequenceRepeat _ => Some "sequenceRepeat"
  | simpleRecurrent _ => Some "simpleRecurrent"
  | gru _ => Some "gru"
  | uniDirectionalLSTM _ => Some "uniDirectionalLSTM"
  | biDirectionalLSTM _ => Some "biDirectionalLSTM"
  end.

(** [NeuralNetworkLayer] *)
Record Layer := {
  layer_name : string;
  layer_input : list string;
  layer_output : list string;
  layer_params : LayerParams
}.

(** The builder's state: [self.spec] with [self.nn_spec], the network
    message of [spec] that [mode] selected.  [classLabels] is a field of
    the classifier network only.  The specification version and the
    preprocessing list, which no method below reads or writes, are left
    out. *)
Record Builder := {
  description_input : list FeatureDescription;
  description_output : list FeatureDescription;
  predictedFeatureName : string;
  predictedProbabilitiesName : string;
  nn_mode : Mode;
  layers : list Layer;
  classLabels : ClassLabels
}.

Definition set_description_input (v : list FeatureDescription) (b : Builder) : Builder :=
  let (_, x1, x2, x3, x4, x5, x6) := b in Build_Builder v x1 x2 x3 x4 x5 x6.
Definition set_description_output (v : list FeatureDescription) (b : Builder) : Builder :=
  let (x0, _, x2, x3, x4, x5, x6) := b in Build_Builder x0 v x2 x3 x4 x5 x6.
Definition set_predictedFeatureName (v : string) (b : Builder) : Builder :=
  let (x0, x1, _, x3, x4, x5, x6) := b in Build_Builder x0 x1 v x3 x4 x5 x6.
Definition set_predictedProbabilitiesName (v : string) (b : Builder) : Builder :=
  let (x0, x1, x2, _, x4, x5, x6) := b in Build_Builder x0 x1 x2 v x4 x5 x6.
Definition set_layers (v : list Layer) (b : Builder) : Builder :=
  let (x0, x1, x2, x3, x4, _, x6) := b in Build_Builder x0 x1 x2 x3 x4 v x6.
Definition set_classLabels (v : ClassLabels) (b : Builder) : Builder :=
  let (x0, x1, x2, x3, x4, x5, _) := b in Build_Builder x0 x1 x2 x3 x4 x5 v.

(** How a call ends: it returns, or raises; either way the document is
    left as the statements executed so far made it. *)
Inductive Outcome :=
| Return (b : Builder)
| Raise (e : Exception) (b : Builder).

Definition final (o : Outcome) : Builder :=
  match o with
  | Return b => b
  | Raise _ b => b
  end.

(** ** Filling in one layer

    A factory method adds an empty layer to [nn_spec.layers] and then
    assigns its fields one statement after the other.  [Fill S X] is such
    a run of statements over the parameter message [S]: it yields the
    message as far as it was filled and a value or the exception raised. *)

Definition Fill (S X : Type) : Type := S -> (Exception + X) * S.

Definition ret {S X} (x : X) : Fill S X := fun s => (inr x, s).

Definition bind {S X Y} (m : Fill S X) (k : X -> Fill S Y) : Fill S Y :=
  fun s =>
    match m s with
    | (inl e, s') => (inl e, s')
    | (inr x, s') => k x s'
    end.

Definition raise {S X} (e : Exception) : Fill S X := fun s => (inl e, s).

Definition modify {S} (f : S -> S) : Fill S unit := fun s => (inr tt, f s).

(** A call into numpy or a Python subscript that can raise [e]. *)
Definition try {S X} (e : Exception) (o : option X) : Fill S X :=
  match o with
  | Some x => ret x
  | None => raise e
  end.

(** [if c: body] *)
Definition when {S} (c : bool) (body : Fill S unit) : Fill S unit :=
  if c then body else ret tt.

Fixpoint for_each {S X} (l : list X) (body : X -> Fill S unit) : Fill S unit :=
  match l with
  | [] => ret tt
  | x :: rest => bind (body x) (fun _ => for_each rest body)
  end.

(** [for idx in xrange(n): body] *)
Definition for_xrange {S} (n : nat) (body : nat -> Fill S unit) : Fill S unit :=
  for_each (seq 0 n) body.

#[global] Instance Fill_ret {S} : MRet (Fill S) := fun X x => ret x.
#[global] Instance Fill_bind {S} : MBind (Fill S) := fun X Y k m => bind m k.

(** Runs the statements that fill in a layer added to [nn_spec.layers]:
    the layer is in the list from the start, and keeps whatever was
    assigned when an exception leaves the method. *)
Definition add_layer {S} (name : string) (input output : list string)
    (variant : S -> LayerParams) (init : S) (body : Fill S unit)
    (b : Builder) : Outcome :=
  let '(r, p) := body init in
  let b' := set_layers (layers b ++ [ {| layer_name := name;
                                         layer_input := input;
                                         layer_output := output;
                                         layer_params := variant p |} ]) b in
  match r with
  | inl e => Raise e b'
  | inr _ => Return b'
  end.

(** [field.extend(values)] on a repeated field of the message being
    filled. *)
Definition extend {S X} (get : S -> list X) (set : list X -> S -> S)
    (values : list X) : Fill S unit :=
  modify (fun p => set (get p ++ values) p).

(** ** The document builder *)

(** The shape [set_input] writes for [dim]; [None] where it raises. *)
Definition input_shape (dim : list Z) : option (list Z) :=
  match dim with
  | [d0; d1; d2] => Some [d0; d1; d2]
  | [d0; d1] => Some [d1]
  | [d0] => Some dim
  | _ => None
  end.

(** [f.type.multiArrayType.ClearField("shape")], [shape.extend(shp)] and
    [dataType = DOUBLE] on one feature description: the feature's type
    becomes the array type, whatever member of the [oneof] was set. *)
Definition write_array_type (shp : list Z) (f : FeatureDescription) : FeatureDescription :=
  {| feature_name := feature_name f;
     feature_type := multiArrayType shp DOUBLE |}.

(** The loop of [set_input], at position [idx] of [enumerate(input_dims)]. *)
Fixpoint set_input_from (idx : nat) (input_dims : list (list Z)) (b : Builder) : Outcome :=
  match input_dims with
  | [] => Return b
  | dim :: rest =>
      match input_shape dim with
      | None => Raise RuntimeError b
      | Some shp =>
          match description_input b !! idx with
          | None => Raise IndexError b
          | Some f =>
              set_input_from (S idx) rest
                (set_description_input
                   (<[idx := write_array_type shp f]> (description_input b)) b)
          end
      end
  end.

Definition set_input (input_names : list string) (input_dims : list (list Z))
    (b : Builder) : Outcome :=
  set_input_from 0 input_dims b.

(** The loop of [set_output], at position [idx] of [enumerate(output_dims)]. *)
Fixpoint set_output_from (idx : nat) (output_dims : list (list Z)) (b : Builder) : Outcome :=
  match output_dims with
  | [] => Return b
  | dim :: rest =>
      match description_output b !! idx with
      | None => Raise IndexError b
      | Some f =>
          set_output_from (S idx) rest
            (set_description_output
               (<[idx := write_array_type dim f]> (description_output b)) b)
      end
  end.

Definition set_output (output_names : list string) (output_dims : list (list Z))
    (b : Builder) : Outcome :=
  set_output_from 0 output_dims b.

(** [t.dictionaryType.MergeFromString('')]: the dictionary member of the
    type [oneof] becomes the one that is set; a dictionary type that was
    already there keeps its key type. *)
Definition touch_dictionaryType (t : FeatureType) : FeatureType :=
  match t with
  | dictionaryType k => dictionaryType k
  | _ => dictionaryType KeyUnset
  end.

(** Modelled from the spec: the message types of [NeuralNetwork_pb2] are
    not among the sources; by section 6 of the specification the label
    vector belongs to the classifier variant.
    [nn_spec.ClearField(name)] for one of the two class label fields;
    [None] is the ValueError protobuf raises for a field the message does
    not have. *)
Definition ClearField_int64ClassLabels (b : Builder) : option Builder :=
  match nn_mode b with
  | classifier =>
      Some (match classLabels b with
            | int64ClassLabels _ => set_classLabels LabelsUnset b
            | _ => b
            end)
  | _ => None
  end.

Definition ClearField_stringClassLabels (b : Builder) : option Builder :=
  match nn_mode b with
  | classifier =>
      Some (match classLabels b with
            | stringClassLabels _ => set_classLabels LabelsUnset b
            | _ => b
            end)
  | _ => None
  end.

(** [nn_spec.int64ClassLabels.vector.append(c)]; the repeated int64 field
    takes integers only and raises TypeError otherwise. *)
Definition append_int64ClassLabel (c : PyValue) (b : Builder) : Outcome :=
  match c with
  | PyInt z =>
      Return (set_classLabels
                (int64ClassLabels
                   (match classLabels b with
                    | int64ClassLabels v => v ++ [z]
                    | _ => [z]
                    end)) b)
  | _ => Raise TypeError b
  end.

(** [nn_spec.stringClassLabels.vector.append(c)] *)
Definition append_stringClassLabel (c : PyValue) (b : Builder) : Outcome :=
  match c with
  | PyStr s =>
      Return (set_classLabels
                (stringClassLabels
                   (match classLabels b with
                    | stringClassLabels v => v ++ [s]
                    | _ => [s]
                    end)) b)
  | _ => Raise TypeError b
  end.

(** [for c in class_labels: append(c)] *)
Fixpoint append_all (append : PyValue -> Builder -> Outcome)
    (class_labels : list PyValue) (b : Builder) : Outcome :=
  match class_labels with
  | [] => Return b
  | c :: rest =>
      match append c b with
      | Return b' => append_all append rest b'
      | Raise e b' => Raise e b'
      end
  end.

(** Assigns the type of [description.output[0]], the message [probOutput]
    aliases. *)
Definition set_probOutput_type (t : FeatureType) (b : Builder) : Builder :=
  match description_output b with
  | [] => b
  | probOutput :: rest =>
      set_description_output
        ({| feature_name := feature_name probOutput; feature_type := t |} :: rest) b
  end.

Definition set_class_labels (class_labels : list PyValue)
    (predicted_feature_name : string) (b : Builder) : Outcome :=
  match description_output b with
  | [] => Raise ValueError b
  | probOutput :: _ =>
      let b := set_probOutput_type (touch_dictionaryType (feature_type probOutput)) b in
      match class_labels with
      | [] => Return b
      | c0 :: _ =>
          let class_type := type c0 in
          match class_type with
          | py_int | py_str =>
              let b := set_predictedProbabilitiesName (feature_name probOutput) b in
              let b := set_predictedFeatureName predicted_feature_name b in
              let classLabel t := {| feature_name := predicted_feature_name;
                                     feature_type := t |} in
              let b := set_description_output (description_output b ++ [classLabel TypeUnset]) b in
              match class_type with
              | py_int =>
                  match ClearField_int64ClassLabels b with
                  | None => Raise ValueError b
                  | Some b =>
                      let b := set_probOutput_type (dictionaryType int64KeyType) b in
                      let b := set_description_output
                                 (<[length (description_output b) - 1 := classLabel int64Type]>
                                    (description_output b)) b in
                      append_all append_int64ClassLabel class_labels b
                  end
              | _ =>
                  match ClearField_stringClassLabels b with
                  | None => Raise ValueError b
                  | Some b =>
                      let b := set_probOutput_type (dictionaryType stringKeyType) b in
                      let b := set_description_output
                                 (<[length (description_output b) - 1 := classLabel stringType]>
                                    (description_output b)) b in
                      append_all append_stringClassLabel class_labels b
                  end
              end
          | _ => Raise TypeError b
          end
      end
  end.

(** ** The layer factory *)

(** [_set_recurrent_activation(param, activation)]: the message [param]
    becomes, or TypeError. *)
Definition _set_recurrent_activation {S} (activation : string) : Fill S ActivationParams :=
  if String.eqb activation "SIGMOID" then ret sigmoid
  else if String.eqb activation "TANH" then ret tanh
  else if String.eqb activation "LINEAR" then ret linear
  else if String.eqb activation "SIGMOID_HARD" then ret (sigmoidHard (literal 0) (literal 0))
  else if String.eqb activation "SCALED_TANH" then ret (scaledTanh (literal 0) (literal 0))
  else if String.eqb activation "RELU" then ret ReLU
  else raise TypeError.

Definition add_inner_product (name : string) (W : ndarray A) (Wb : option (ndarray A))
    (nB nC : nat) (has_bias : bool) (input_name output_name : string)
    : Builder -> Outcome :=
  add_layer name [input_name] [output_name] innerProduct ip_default (
    modify (set_ip_inputChannels nB) ;;
    modify (set_ip_outputChannels nC) ;;
    modify (set_ip_hasBias has_bias) ;;
    extend ip_weights set_ip_weights (floats W) ;;
    when has_bias (
      Wb ← try AttributeError Wb;
      extend ip_bias set_ip_bias (floats Wb))).

Definition add_embedding (name : string) (W : ndarray A) (Wb : option (ndarray A))
    (nB nC : nat) (has_bias : bool) (input_name output_name : string)
    : Builder -> Outcome :=
  add_layer name [input_name] [output_name] embedding emb_default (
    modify (set_emb_inputDim nB) ;;
    modify (set_emb_outputChannels nC) ;;
    modify (set_emb_hasBias has_bias) ;;
    extend emb_weights set_emb_weights (floats W) ;;
    when has_bias (
      Wb ← try AttributeError Wb;
      extend emb_bias set_emb_bias (floats Wb))).

Definition add_softmax (name input_name output_name : string) : Builder -> Outcome :=
  add_layer name [input_name] [output_name] (fun _ : unit => softmax) tt (ret tt).

(** The [params] argument of [add_activation]: [None], a number, a list
    of numbers, an array, or a list of arrays. *)
Inductive ActivationArg :=
| params_None
| params_number (x : A)
| params_list (xs : list A)
| params_array (a : ndarray A)
| params_arrays (l : list (ndarray A)).

(** What a subscript of [params] or a literal default is. *)
Inductive PyItem :=
| item_literal (q : Q)
| item_number (x : A)
| item_array (a : ndarray A).

(** [params[i]] *)
Definition subscript {S} (params : ActivationArg) (i : nat) : Fill S PyItem :=
  match params with
  | params_None => raise TypeError
  | params_number _ => raise TypeError
  | params_list xs => try IndexError (item_number <$> xs !! i)
  | params_array a => try IndexError (item_array <$> getitem [Int i] a)
  | params_arrays l => try IndexError (item_array <$> l !! i)
  end.

(** The value a float field takes when [x] is assigned to it; an array
    with an axis is refused. *)
Definition assign_float {S} (x : PyItem) : Fill S F :=
  match x with
  | item_literal q => ret (literal q)
  | item_number x => ret (float x)
  | item_array a =>
      match shape a with
      | [] => ret (float (item a []))
      | _ => raise TypeError
      end
  end.

(** [float(params)] *)
Definition pyfloat {S} (params : ActivationArg) : Fill S F :=
  match params with
  | params_number x => ret (float x)
  | params_array a =>
      match Numpy.flatten a with
      | [x] => ret (float x)
      | _ => raise TypeError
      end
  | _ => raise TypeError
  end.

(** [map(float, x.flatten())] *)
Definition flatten_floats {S} (x : PyItem) : Fill S (list F) :=
  match x with
  | item_array a => ret (floats a)
  | _ => raise AttributeError
  end.

Definition is_None (params : ActivationArg) : bool :=
  match params with
  | params_None => true
  | _ => false
  end.

Definition add_activation (name non_linearity input_name output_name : string)
    (params : ActivationArg) : Builder -> Outcome :=
  let set a : Fill LayerParams unit := modify (fun _ => activation a) in
  add_layer name [input_name] [output_name] id LayerUnset (
    if String.eqb non_linearity "RELU" then set ReLU
    else if String.eqb non_linearity "SIGMOID" then set sigmoid
    else if String.eqb non_linearity "TANH" then set tanh
    else if String.eqb non_linearity "SCALED_TANH" then
      set (scaledTanh (literal 0) (literal 0)) ;;
      ab ← (if is_None params then ret (item_literal 0.0, item_literal 0.0)
            else a ← subscript params 0; b ← subscript params 1; ret (a, b));
      alpha ← assign_float ab.1;
      set (scaledTanh alpha (literal 0)) ;;
      beta ← assign_float ab.2;
      set (scaledTanh alpha beta)
    else if String.eqb non_linearity "SOFTPLUS" then set softplus
    else if String.eqb non_linearity "SOFTSIGN" then set softsign
    else if String.eqb non_linearity "SIGMOID_HARD" then
      ab ← (if is_None params then ret (item_literal 0.2, item_literal 0.5)
            else a ← subscript params 0; b ← subscript params 1; ret (a, b));
      alpha ← assign_float ab.1;
      set (sigmoidHard alpha (literal 0)) ;;
      beta ← assign_float ab.2;
      set (sigmoidHard alpha beta)
    else if String.eqb non_linearity "LEAKYRELU" then
      a ← (if is_None params then ret (item_literal 0.3) else subscript params 0);
      alpha ← assign_float a;
      set (leakyReLU alpha)
    else if String.eqb non_linearity "PRELU" then
      match params with
      | params_array a => set (PReLU (floats a))
      | _ => raise AttributeError
      end
    else if String.eqb non_linearity "ELU" then
      alpha ← pyfloat params;
      set (ELU alpha)
    else if String.eqb non_linearity "PARAMETRICSOFTPLUS" then
      alphas ← subscript params 0;
      betas ← subscript params 1;
      alpha ← flatten_floats alphas;
      set (parametricSoftplus alpha []) ;;
      beta ← flatten_floats betas;
      set (parametricSoftplus alpha beta)
    else if String.eqb non_linearity "THRESHOLDEDRELU" then
      theta ← (if is_None params then ret (literal 1.0) else pyfloat params);
      set (thresholdedReLU theta)
    else if String.eqb non_linearity "LINEAR" then set linear
    else raise TypeError).

Definition add_elementwise (name : string) (input_names : list string)
    (output_name mode : string) : Builder -> Outcome :=
  add_layer name input_names [output_name] id LayerUnset (
    if String.eqb mode "CONCAT" then modify (fun _ => concat_ false)
    else if String.eqb mode "SEQUENCE_CONCAT" then modify (fun _ => concat_ true)
    else if String.eqb mode "ADD" then modify (fun _ => add)
    else if String.eqb mode "MULTIPLY" then modify (fun _ => multiply)
    else if String.eqb mode "COS" then modify (fun _ => dot true)
    else if String.eqb mode "DOT" then modify (fun _ => dot false)
    else if String.eqb mode "MAX" then modify (fun _ => max)
    else if String.eqb mode "AVE" then modify (fun _ => average)
    else raise ValueError).

Definition add_upsample (name : string) (scaling_factor_h scaling_factor_w : nat)
    (input_name output_name : string) : Builder -> Outcome :=
  add_layer name [input_name] [output_name] upsample [] (
    modify (fun scalingFactor => scalingFactor ++ [scaling_factor_h]) ;;
    modify (fun scalingFactor => scalingFactor ++ [scaling_factor_w])).

Definition add_repeat (name : string) (nrep : nat) (input_name output_name : string)
    : Builder -> Outcome :=
  add_layer name [input_name] [output_name] sequenceRepeat 0 (
    modify (fun _ => nrep)).

(** [float(b[f])]: [b[f]] is an element, or a sub-array that [float]
    takes only when it holds one element. *)
Definition float_at {S} (b : option (ndarray A)) (f : nat) : Fill S F :=
  b ← try TypeError b;
  x ← try IndexError (getitem [Int f] b);
  match Numpy.flatten x with
  | [x] => ret (float x)
  | _ => raise TypeError
  end.

(** [output_shape] is a tuple or [None]; [outputShape.extend(None)] adds
    nothing. *)
Definition add_convolution (name : string)
    (kernelChannels outputChannels height width stride_height stride_width : nat)
    (borderMode : string) (groups : nat) (W : ndarray A) (b : option (ndarray A))
    (has_bias is_deconv : bool) (output_shape : option (list nat))
    (input_name output_name : string) : Builder -> Outcome :=
  add_layer name [input_name] [output_name] convolution conv_default (
    modify (set_conv_isDeconvolution is_deconv) ;;
    extend conv_outputShape set_conv_outputShape (default [] output_shape) ;;
    modify (set_conv_outputChannels outputChannels) ;;
    modify (set_conv_kernelChannels kernelChannels) ;;
    extend conv_kernelSize set_conv_kernelSize [height] ;;
    extend conv_kernelSize set_conv_kernelSize [width] ;;
    extend conv_stride set_conv_stride [stride_height] ;;
    extend conv_stride set_conv_stride [stride_width] ;;
    (if String.eqb borderMode "valid" then
       modify (set_conv_padding
                 (valid [ {| startEdgeSize := 0; endEdgeSize := 0 |};
                          {| startEdgeSize := 0; endEdgeSize := 0 |} ]))
     else if String.eqb borderMode "same" then
       modify (set_conv_padding (same BOTTOM_RIGHT_HEAVY))
     else raise NotImplementedError) ;;
    modify (set_conv_nGroups groups) ;;
    modify (set_conv_hasBias has_bias) ;;
    Wt ← try ValueError
           (Numpy.flatten <$>
              (if negb is_deconv then transpose [3; 2; 0; 1] W
               else transpose [2; 3; 0; 1] W));
    for_xrange (outputChannels * kernelChannels * height * width) (fun idx =>
      x ← try IndexError (Wt !! idx);
      extend conv_weights set_conv_weights [float x]) ;;
    when has_bias (
      for_xrange outputChannels (fun f =>
        x ← float_at b f;
        extend conv_bias set_conv_bias [x]))).

(** [PoolingLayerParams.PoolingType.Value(layer_type)]; [None] is the
    ValueError of a name the enum does not have. *)
Definition PoolingType_Value (layer_type : string) : option PoolingType :=
  if String.eqb layer_type "MAX" then Some MAX
  else if String.eqb layer_type "AVERAGE" then Some AVERAGE
  else if String.eqb layer_type "L2" then Some L2
  else None.

Definition add_pooling (name : string) (height width stride_height stride_width : nat)
    (layer_type padding_type : string) (exclude_pad_area is_global : bool)
    (input_name output_name : string) : Builder -> Outcome :=
  add_layer name [input_name] [output_name] id LayerUnset (
    t ← try ValueError (PoolingType_Value layer_type);
    let p := set_pool_type t pool_default in
    let p :=
      if String.eqb padding_type "VALID" then
        set_pool_padding (valid [ {| startEdgeSize := 0; endEdgeSize := 0 |};
                                  {| startEdgeSize := 0; endEdgeSize := 0 |} ]) p
      else if String.eqb padding_type "SAME" then
        set_pool_padding (same BOTTOM_RIGHT_HEAVY) p
      else p in
    let p := set_pool_kernelSize (pool_kernelSize p ++ [height]) p in
    let p := set_pool_kernelSize (pool_kernelSize p ++ [width]) p in
    let p := set_pool_stride (pool_stride p ++ [stride_height]) p in
    let p := set_pool_stride (pool_stride p ++ [stride_width]) p in
    let p := set_pool_avgPoolExcludePadding exclude_pad_area p in
    let p := set_pool_globalPooling is_global p in
    modify (fun _ => pooling p)).

Definition add_padding (name : string) (left right top bottom : nat) (value : A)
    (input_name output_name : string) : Builder -> Outcome :=
  add_layer name [input_name] [output_name] id LayerUnset (
    modify (fun _ =>
      padding (float value)
        [ {| startEdgeSize := top; endEdgeSize := bottom |};
          {| startEdgeSize := left; endEdgeSize := right |} ])).

Definition add_crop (name : string) (left right top bottom : nat) (offset : list nat)
    (input_name output_name : string) : Builder -> Outcome :=
  add_layer name [input_name] [output_name] id LayerUnset (
    modify (fun _ =>
      crop [ {| startEdgeSize := top; endEdgeSize := bottom |};
             {| startEdgeSize := left; endEdgeSize := right |} ]
           offset)).

(** [if b is not None and b.any(): body] *)
Definition if_present {S} (b : option (ndarray A)) (body : Fill S unit) : Fill S unit :=
  when (present b) body.

(** [map(float, W[0, 0, g * hidden_size:(g + 1) * hidden_size, :].flatten())] *)
Definition gate_block {S} (W : ndarray A) (g hidden_size : nat) : Fill S (list F) :=
  block ← try IndexError
            (getitem [Int 0; Int 0; Slice (g * hidden_size) ((g + 1) * hidden_size); Full] W);
  ret (floats block).

(** [map(float, b[g * hidden_size:(g + 1) * hidden_size].flatten())];
    [b] is the argument itself, [None] when the caller passed none. *)
Definition gate_vector {S} (b : option (ndarray A)) (g hidden_size : nat) : Fill S (list F) :=
  b ← try TypeError b;
  block ← try IndexError (getitem [Slice (g * hidden_size) ((g + 1) * hidden_size)] b);
  ret (floats block).

Definition add_vanilla_rnn (name : string) (W_h W_x : ndarray A) (b : option (ndarray A))
    (activation : string) (hidden_size input_size : nat)
    (input_names output_names : list string) (output_all reverse_input : bool)
    : Builder -> Outcome :=
  add_layer name input_names output_names simpleRecurrent rnn_default (
    modify (set_rnn_reverseInput reverse_input) ;;
    modify (set_rnn_inputVectorSize input_size) ;;
    modify (set_rnn_outputVectorSize hidden_size) ;;
    if_present b (modify (set_rnn_hasBiasVector true)) ;;
    modify (set_rnn_sequenceOutput output_all) ;;
    activation_f ← _set_recurrent_activation activation;
    modify (set_rnn_activation activation_f) ;;
    extend rnn_weightMatrix set_rnn_weightMatrix (floats W_x) ;;
    extend rnn_recursionMatrix set_rnn_recursionMatrix (floats W_h) ;;
    if_present b (
      b ← try TypeError b;
      extend rnn_biasVector set_rnn_biasVector (floats b))).

Definition add_gru (name : string) (W_h W_x : ndarray A) (b : option (ndarray A))
    (activation inner_activation : string) (hidden_size input_size : nat)
    (input_names output_names : list string) (output_all reverse_input : bool)
    : Builder -> Outcome :=
  add_layer name input_names output_names gru gru_default (
    modify (set_gru_inputVectorSize input_size) ;;
    modify (set_gru_outputVectorSize hidden_size) ;;
    if_present b (modify (set_gru_hasBiasVectors true)) ;;
    modify (set_gru_sequenceOutput output_all) ;;
    modify (set_gru_reverseInput reverse_input) ;;
    modify (set_gru_activations [ActivationUnset; ActivationUnset]) ;;
    activation_f ← _set_recurrent_activation inner_activation;
    modify (set_gru_activations [activation_f; ActivationUnset]) ;;
    activation_g ← _set_recurrent_activation activation;
    modify (set_gru_activations [activation_f; activation_g]) ;;
    v ← gate_block W_x 0 hidden_size;
    extend gru_updateGateWeightMatrix set_gru_updateGateWeightMatrix v ;;
    v ← gate_block W_x 1 hidden_size;
    extend gru_resetGateWeightMatrix set_gru_resetGateWeightMatrix v ;;
    v ← gate_block W_x 2 hidden_size;
    extend gru_outputGateWeightMatrix set_gru_outputGateWeightMatrix v ;;
    v ← gate_block W_h 0 hidden_size;
    extend gru_updateGateRecursionMatrix set_gru_updateGateRecursionMatrix v ;;
    v ← gate_block W_h 1 hidden_size;
    extend gru_resetGateRecursionMatrix set_gru_resetGateRecursionMatrix v ;;
    v ← gate_block W_h 2 hidden_size;
    extend gru_outputGateRecursionMatrix set_gru_outputGateRecursionMatrix v ;;
    if_present b (
      v ← gate_vector b 0 hidden_size;
      extend gru_updateGateBiasVector set_gru_updateGateBiasVector v ;;
      v ← gate_vector b 1 hidden_size;
      extend gru_resetGateBiasVector set_gru_resetGateBiasVector v ;;
      v ← gate_vector b 2 hidden_size;
      extend gru_outputGateBiasVector set_gru_outputGateBiasVector v)).

(** The eight weight matrices of one [LSTMWeightParams] message; [on]
    applies an update to the message written to ([weight_params] or
    [weight_params_back]). *)
Definition write_lstm_matrices {S}
    (on : (LSTMWeightParams -> LSTMWeightParams) -> Fill S unit)
    (hidden_size : nat) (W_x W_h : ndarray A) : Fill S unit :=
  let ext get set v := on (fun w => set (get w ++ v) w) in
  v ← gate_block W_x 0 hidden_size;
  ext w_inputGateWeightMatrix set_w_inputGateWeightMatrix v ;;
  v ← gate_block W_x 1 hidden_size;
  ext w_forgetGateWeightMatrix set_w_forgetGateWeightMatrix v ;;
  v ← gate_block W_x 2 hidden_size;
  ext w_outputGateWeightMatrix set_w_outputGateWeightMatrix v ;;
  v ← gate_block W_x 3 hidden_size;
  ext w_blockInputWeightMatrix set_w_blockInputWeightMatrix v ;;
  v ← gate_block W_h 0 hidden_size;
  ext w_inputGateRecursionMatrix set_w_inputGateRecursionMatrix v ;;
  v ← gate_block W_h 1 hidden_size;
  ext w_forgetGateRecursionMatrix set_w_forgetGateRecursionMatrix v ;;
  v ← gate_block W_h 2 hidden_size;
  ext w_outputGateRecursionMatrix set_w_outputGateRecursionMatrix v ;;
  v ← gate_block W_h 3 hidden_size;
  ext w_blockInputRecursionMatrix set_w_blockInputRecursionMatrix v.

(** The four bias vectors of one [LSTMWeightParams] message, sliced from
    [b]. *)
Definition write_lstm_bias {S}
    (on : (LSTMWeightParams -> LSTMWeightParams) -> Fill S unit)
    (hidden_size : nat) (b : option (ndarray A)) : Fill S unit :=
  let ext get set v := on (fun w => set (get w ++ v) w) in
  v ← gate_vector b 0 hidden_size;
  ext w_inputGateBiasVector set_w_inputGateBiasVector v ;;
  v ← gate_vector b 1 hidden_size;
  ext w_forgetGateBiasVector set_w_forgetGateBiasVector v ;;
  v ← gate_vector b 2 hidden_size;
  ext w_outputGateBiasVector set_w_outputGateBiasVector v ;;
  v ← gate_vector b 3 hidden_size;
  ext w_blockInputBiasVector set_w_blockInputBiasVector v.

(** The three peephole vectors of one [LSTMWeightParams] message. *)
Definition write_lstm_peephole {S}
    (on : (LSTMWeightParams -> LSTMWeightParams) -> Fill S unit)
    (hidden_size : nat) (peep : option (ndarray A)) : Fill S unit :=
  let ext get set v := on (fun w => set (get w ++ v) w) in
  v ← gate_vector peep 0 hidden_size;
  ext w_inputGatePeepholeVector set_w_inputGatePeepholeVector v ;;
  v ← gate_vector peep 1 hidden_size;
  ext w_forgetGatePeepholeVector set_w_forgetGatePeepholeVector v ;;
  v ← gate_vector peep 2 hidden_size;
  ext w_outputGatePeepholeVector set_w_outputGatePeepholeVector v.

(** The three activations of an LSTM, added empty and then set. *)
Definition write_lstm_activations {S}
    (set : list ActivationParams -> S -> S)
    (inner_activation cell_state_update_activation output_activation : string)
    : Fill S unit :=
  modify (set [ActivationUnset; ActivationUnset; ActivationUnset]) ;;
  activation_f ← _set_recurrent_activation inner_activation;
  modify (set [activation_f; ActivationUnset; ActivationUnset]) ;;
  activation_g ← _set_recurrent_activation cell_state_update_activation;
  modify (set [activation_f; activation_g; ActivationUnset]) ;;
  activation_h ← _set_recurrent_activation output_activation;
  modify (set [activation_f; activation_g; activation_h]).

Definition add_unilstm (name : string) (hidden_size input_size : nat)
    (input_names output_names : list string) (W_h W_x : ndarray A)
    (inner_activation cell_state_update_activation output_activation : string)
    (b peep : option (ndarray A)) (output_all forget_bias coupled_input_forget_gate : bool)
    (cell_clip_threshold : A) (reverse_input : bool) : Builder -> Outcome :=
  let params f : Fill UniDirectionalLSTMLayerParams unit :=
    modify (fun p => set_uni_params (f (uni_params p)) p) in
  let weight_params f : Fill UniDirectionalLSTMLayerParams unit :=
    modify (fun p => set_uni_weightParams (f (uni_weightParams p)) p) in
  add_layer name input_names output_names uniDirectionalLSTM uni_default (
    modify (set_uni_inputVectorSize input_size) ;;
    modify (set_uni_outputVectorSize hidden_size) ;;
    params (set_lstm_sequenceOutput output_all) ;;
    params (set_lstm_forgetBias false) ;;
    if_present b (params (set_lstm_hasBiasVectors true)) ;;
    if_present peep (params (set_lstm_hasPeepholeVectors true)) ;;
    params (set_lstm_coupledInputAndForgetGate coupled_input_forget_gate) ;;
    params (set_lstm_cellClipThreshold (float cell_clip_threshold)) ;;
    params (set_lstm_forgetBias forget_bias) ;;
    modify (set_uni_reverseInput reverse_input) ;;
    write_lstm_activations set_uni_activations
      inner_activation cell_state_update_activation output_activation ;;
    write_lstm_matrices weight_params hidden_size W_x W_h ;;
    if_present b (write_lstm_bias weight_params hidden_size b) ;;
    if_present peep (write_lstm_peephole weight_params hidden_size peep)).

Definition add_bidirlstm (name : string) (hidden_size input_size : nat)
    (input_names output_names : list string) (W_h W_x W_h_back W_x_back : ndarray A)
    (inner_activation cell_state_update_activation output_activation : string)
    (b b_back peep peep_back : option (ndarray A))
    (output_all forget_bias coupled_input_forget_gate : bool)
    (cell_clip_threshold : A) : Builder -> Outcome :=
  let params f : Fill BiDirectionalLSTMLayerParams unit :=
    modify (fun p => set_bi_params (f (bi_params p)) p) in
  let weight_params f : Fill BiDirectionalLSTMLayerParams unit :=
    modify (fun p => set_bi_weightParams (alter f 0 (bi_weightParams p)) p) in
  let weight_params_back f : Fill BiDirectionalLSTMLayerParams unit :=
    modify (fun p => set_bi_weightParams (alter f 1 (bi_weightParams p)) p) in
  add_layer name input_names output_names biDirectionalLSTM bi_default (
    modify (set_bi_weightParams [w_default; w_default]) ;;
    modify (set_bi_inputVectorSize input_size) ;;
    modify (set_bi_outputVectorSize hidden_size) ;;
    if_present b (params (set_lstm_hasBiasVectors true)) ;;
    params (set_lstm_sequenceOutput output_all) ;;
    params (set_lstm_forgetBias forget_bias) ;;
    if_present peep (params (set_lstm_hasPeepholeVectors true)) ;;
    params (set_lstm_coupledInputAndForgetGate coupled_input_forget_gate) ;;
    params (set_lstm_cellClipThreshold (float cell_clip_threshold)) ;;
    write_lstm_activations set_bi_activationsForwardLSTM
      inner_activation cell_state_update_activation output_activation ;;
    write_lstm_activations set_bi_activationsBackwardLSTM
      inner_activation cell_state_update_activation output_activation ;;
    write_lstm_matrices weight_params hidden_size W_x W_h ;;
    if_present b (write_lstm_bias weight_params hidden_size b) ;;
    if_present peep (write_lstm_peephole weight_params hidden_size peep) ;;
    write_lstm_matrices weight_params_back hidden_size W_x_back W_h_back ;;
    if_present b (write_lstm_bias weight_params_back hidden_size b_back) ;;
    if_present peep_back (write_lstm_peephole weight_params_back hidden_size peep_back)).

Definition add_flatten (mode : Z) (name input_name output_name : string)
    : Builder -> Outcome :=
  add_layer name [input_name] [output_name] id LayerUnset (
    if Z.eqb mode 0 then modify (fun _ => flatten_ FLATTEN_CHANNEL_FIRST)
    else if Z.eqb mode 1 then modify (fun _ => flatten_ FLATTEN_CHANNEL_LAST)
    else raise NotImplementedError).

Definition add_batchnorm (name : string) (channels : nat)
    (gamma beta mean variance : ndarray A) (input_name output_name : string)
    (epsilon : A) (computeMeanVar instanceNormalization : bool)
    : Builder -> Outcome :=
  add_layer name [input_name] [output_name] batchnorm bn_default (
    modify (set_bn_channels channels) ;;
    extend bn_gamma set_bn_gamma (floats gamma) ;;
    extend bn_beta set_bn_beta (floats beta) ;;
    extend bn_mean set_bn_mean (floats mean) ;;
    extend bn_variance set_bn_variance (floats variance) ;;
    modify (set_bn_epsilon (float epsilon)) ;;
    modify (set_bn_computeMeanVar computeMeanVar) ;;
    modify (set_bn_instanceNormalization instanceNormalization)).

Definition add_permute (name input_name output_name : string) (dim : list nat)
    : Builder -> Outcome :=
  add_layer name [input_name] [output_name] permute [] (
    modify (fun axis => axis ++ dim)).

Definition add_reshape (name input_name output_name : string)
    (target_shape : list Z) (mode : Z) : Builder -> Outcome :=
  add_layer name [input_name] [output_name] id LayerUnset (
    if Z.eqb mode 0 then modify (fun _ => reshape target_shape RESHAPE_CHANNEL_FIRST)
    else modify (fun _ => reshape target_shape RESHAPE_CHANNEL_LAST)).

(** [add_dropout]: the body is [pass]. *)
Definition add_dropout (name input_name output_name : string) (b : Builder) : Outcome :=
  Return b.

(** The layer list with one more record at its end. *)
Definition with_layer (l : Layer) (b : Builder) : Builder :=
  set_layers (layers b ++ [l]) b.

(** The modes [add_elementwise] knows. *)
Definition elementwise_modes : list string :=
  ["CONCAT"; "SEQUENCE_CONCAT"; "ADD"; "MULTIPLY"; "DOT"; "COS"; "MAX"; "AVE"].

(** The parameter variant [add_elementwise] populates for a mode. *)
Definition elementwise_variant (mode : string) : option string :=
  if String.eqb mode "CONCAT" || String.eqb mode "SEQUENCE_CONCAT" then Some "concat"
  else if String.eqb mode "ADD" then Some "add"
  else if String.eqb mode "MULTIPLY" then Some "multiply"
  else if String.eqb mode "DOT" || String.eqb mode "COS" then Some "dot"
  else if String.eqb mode "MAX" then Some "max"
  else if String.eqb mode "AVE" then Some "average"
  else None.

(** The convolution record a call leaves behind when it stops at the
    border mode: what was assigned before the test, nothing after it. *)
Definition convolution_before_border
    (kernelChannels outputChannels height width stride_height stride_width : nat)
    (is_deconv : bool) (output_shape : option (list nat)) : ConvolutionLayerParams :=
  {| conv_outputChannels := outputChannels;
     conv_kernelChannels := kernelChannels;
     conv_nGroups := 0;
     conv_kernelSize := [height; width];
     conv_stride := [stride_height; stride_width];
     conv_padding := PaddingUnset;
     conv_isDeconvolution := is_deconv;
     conv_hasBias := false;
     conv_weights := [];
     conv_bias := [];
     conv_outputShape := default [] output_shape |}.

(** The feature list after shapes were written to its first slots, one
    shape per slot in order; the slots beyond keep what they had. *)
Fixpoint write_shapes (shapes : list (list Z)) (features : list FeatureDescription)
    : list FeatureDescription :=
  match shapes, features with
  | shp :: shapes', f :: features' =>
      write_array_type shp f :: write_shapes shapes' features'
  | _, _ => features
  end.

(** The normalization the interface is said to apply: a rank-2 shape
    keeps its trailing dimension only, any other shape is kept. *)
Definition normalize_shape (dim : list Z) : list Z :=
  if Nat.eqb (length dim) 2 then drop 1 dim else dim.

(** Rank 1, 2 or 3. *)
Definition supported_rank (dim : list Z) : Prop :=
  1 <= length dim <= 3.

(** The first output with the dictionary type [set_class_labels] gives
    it before it looks at the labels. *)
Definition with_probability_dictionary (probOutput : FeatureDescription)
    (rest : list FeatureDescription) (b : Builder) : Builder :=
  set_description_output
    ({| feature_name := feature_name probOutput;
        feature_type := touch_dictionaryType (feature_type probOutput) |} :: rest) b.

(** The flattened sequence of a weight tensor [W] of shape (H, W, Cin,
    Cout) after its axes are transposed to (Cout, Cin, H, W): the element
    of the transposed tensor at [f, c, h, w] is [W[h, w, c, f]], and
    flattening runs through the indices with the last one fastest. *)
Definition flattened_Cout_Cin_H_W (W : ndarray A) (H_ W_ Cin Cout : nat) : list A :=
  f ← seq 0 Cout; c ← seq 0 Cin; h ← seq 0 H_; w ← seq 0 W_; [item W [h; w; c; f]].

(** The same after transposing to (Cin, Cout, H, W). *)
Definition flattened_Cin_Cout_H_W (W : ndarray A) (H_ W_ Cin Cout : nat) : list A :=
  c ← seq 0 Cin; f ← seq 0 Cout; h ← seq 0 H_; w ← seq 0 W_; [item W [h; w; c; f]].

(** [l[start:stop]] on a list, for bounds within it. *)
Definition slice {X} (l : list X) (start stop : nat) : list X :=
  take (stop - start) (drop start l).

(** The rows of the matrix [W[0, 0]], the last two axes of a weight
    tensor whose second-to-last axis stacks the gates. *)
Definition matrix_rows (W : ndarray A) : list (list A) :=
  map (fun r => map (fun c => item W [0; 0; r; c]) (seq 0 (nth 3 (shape W) 0)))
      (seq 0 (nth 2 (shape W) 0)).

(** Rows [g*h:(g+1)*h] of the source tensor, one after the other, as the
    values stored for gate [g]. *)
Definition gate_rows (W : ndarray A) (g h : nat) : list F :=
  map float (concat (slice (matrix_rows W) (g * h) ((g + 1) * h))).

(** A weight tensor whose gate-stacked axis has length [k * h]; the two
    leading axes, which the builder indexes at 0, are not empty. *)
Definition gate_stacked (k h : nat) (W : ndarray A) : Prop :=
  ∃ n0 n1 cols, shape W = [S n0; S n1; k * h; cols].

(** The activation names [_set_recurrent_activation] knows. *)
Definition recurrent_activations : list string :=
  ["SIGMOID"; "TANH"; "LINEAR"; "SIGMOID_HARD"; "SCALED_TANH"; "RELU"].

(** A bias or peephole argument that can be sliced: absent, or an array
    with at least one axis. *)
Definition sliceable (v : option (ndarray A)) : Prop :=
  match v with
  | Some a => shape a ≠ []
  | None => True
  end.

(** The gate order of the GRU weights: update, reset, output. *)
Definition gru_gate_order (p : GRULayerParams) (W_x W_h : ndarray A) (h : nat) : Prop :=
  gru_updateGateWeightMatrix p = gate_rows W_x 0 h
  ∧ gru_resetGateWeightMatrix p = gate_rows W_x 1 h
  ∧ gru_outputGateWeightMatrix p = gate_rows W_x 2 h
  ∧ gru_updateGateRecursionMatrix p = gate_rows W_h 0 h
  ∧ gru_resetGateRecursionMatrix p = gate_rows W_h 1 h
  ∧ gru_outputGateRecursionMatrix p = gate_rows W_h 2 h.

(** The gate order of the LSTM weights: input, forget, output, block
    input. *)
Definition lstm_gate_order (w : LSTMWeightParams) (W_x W_h : ndarray A) (h : nat) : Prop :=
  w_inputGateWeightMatrix w = gate_rows W_x 0 h
  ∧ w_forgetGateWeightMatrix w = gate_rows W_x 1 h
  ∧ w_outputGateWeightMatrix w = gate_rows W_x 2 h
  ∧ w_blockInputWeightMatrix w = gate_rows W_x 3 h
  ∧ w_inputGateRecursionMatrix w = gate_rows W_h 0 h
  ∧ w_forgetGateRecursionMatrix w = gate_rows W_h 1 h
  ∧ w_outputGateRecursionMatrix w = gate_rows W_h 2 h
  ∧ w_blockInputRecursionMatrix w = gate_rows W_h 3 h.

(** *** Sequences of factory calls *)

(** One call of a layer factory method, with its arguments. *)
Inductive Call :=
| call_add_inner_product (name : string) (W : ndarray A) (Wb : option (ndarray A))
    (nB nC : nat) (has_bias : bool) (input_name output_name : string)
| call_add_embedding (name : string) (W : ndarray A) (Wb : option (ndarray A))
    (nB nC : nat) (has_bias : bool) (input_name output_name : string)
| call_add_softmax (name input_name output_name : string)
| call_add_activation (name non_linearity input_name output_name : string)
    (params : ActivationArg)
| call_add_elementwise (name : string) (input_names : list string)
    (output_name mode : string)
| call_add_upsample (name : string) (scaling_factor_h scaling_factor_w : nat)
    (input_name output_name : string)
| call_add_repeat (name : string) (nrep : nat) (input_name output_name : string)
| call_add_convolution (name : string)
    (kernelChannels outputChannels height width stride_height stride_width : nat)
    (borderMode : string) (groups : nat) (W : ndarray A) (b : option (ndarray A))
    (has_bias is_deconv : bool) (output_shape : option (list nat))
    (input_name output_name : string)
| call_add_pooling (name : string) (height width stride_height stride_width : nat)
    (layer_type padding_type : string) (exclude_pad_area is_global : bool)
    (input_name output_name : string)
| call_add_padding (name : string) (left right top bottom : nat) (value : A)
    (input_name output_name : string)
| call_add_crop (name : string) (left right top bottom : nat) (offset : list nat)
    (input_name output_name : string)
| call_add_vanilla_rnn (name : string) (W_h W_x : ndarray A) (b : option (ndarray A))
    (activation : string) (hidden_size input_size : nat)
    (input_names output_names : list string) (output_all reverse_input : bool)
| call_add_gru (name : string) (W_h W_x : ndarray A) (b : option (ndarray A))
    (activation inner_activation : string) (hidden_size input_size : nat)
    (input_names output_names : list string) (output_all reverse_input : bool)
| call_add_unilstm (name : string) (hidden_size input_size : nat)
    (input_names output_names : list string) (W_h W_x : ndarray A)
    (inner_activation cell_state_update_activation output_activation : string)
    (b peep : option (ndarray A))
    (output_all forget_bias coupled_input_forget_gate : bool)
    (cell_clip_threshold : A) (reverse_input : bool)
| call_add_bidirlstm (name : string) (hidden_size input_size : nat)
    (input_names output_names : list string) (W_h W_x W_h_back W_x_back : ndarray A)
    (inner_activation cell_state_update_activation output_activation : string)
    (b b_back peep peep_back : option (ndarray A))
    (output_all forget_bias coupled_input_forget_gate : bool)
    (cell_clip_threshold : A)
| call_add_flatten (mode : Z) (name input_name output_name : string)
| call_add_batchnorm (name : string) (channels : nat)
    (gamma beta mean variance : ndarray A) (input_name output_name : string)
    (epsilon : A) (computeMeanVar instanceNormalization : bool)
| call_add_permute (name input_name output_name : string) (dim : list nat)
| call_add_reshape (name input_name output_name : string)
    (target_shape : list Z) (mode : Z)
| call_add_dropout (name input_name output_name : string).

Definition run_call (c : Call) : Builder -> Outcome :=
  match c with
  | call_add_inner_product name W Wb nB nC has_bias input_name output_name =>
      add_inner_product name W Wb nB nC has_bias input_name output_name
  | call_add_embedding name W Wb nB nC has_bias input_name output_name =>
      add_embedding name W Wb nB nC has_bias input_name output_name
  | call_add_softmax name input_name output_name =>
      add_softmax name input_name output_name
  | call_add_activation name non_linearity input_name output_name params =>
      add_activation name non_linearity input_name output_name params
  | call_add_elementwise name input_names output_name mode =>
      add_elementwise name input_names output_name mode
  | call_add_upsample name scaling_factor_h scaling_factor_w input_name output_name =>
      add_upsample name scaling_factor_h scaling_factor_w input_name output_name
  | call_add_repeat name nrep input_name output_name =>
      add_repeat name nrep input_name output_name
  | call_add_convolution name kernelChannels outputChannels height width
      stride_height stride_width borderMode groups W b has_bias is_deconv
      output_shape input_name output_name =>
      add_convolution name kernelChannels outputChannels height width
        stride_height stride_width borderMode groups W b has_bias is_deconv
        output_shape input_name output_name
  | call_add_pooling name height width stride_height stride_width layer_type
      padding_type exclude_pad_area is_global input_name output_name =>
      add_pooling name height width stride_height stride_width layer_type
        padding_type exclude_pad_area is_global input_name output_name
  | call_add_padding name left_ right_ top bottom value input_name output_name =>
      add_padding name left_ right_ top bottom value input_name output_name
  | call_add_crop name left_ right_ top bottom offset input_name output_name =>
      add_crop name left_ right_ top bottom offset input_name output_name
  | call_add_vanilla_rnn name W_h W_x b activation_ hidden_size input_size
      input_names output_names output_all reverse_input =>
      add_vanilla_rnn name W_h W_x b activation_ hidden_size input_size
        input_names output_names output_all reverse_input
  | call_add_gru name W_h W_x b activation_ inner_activation hidden_size input_size
      input_names output_names output_all reverse_input =>
      add_gru name W_h W_x b activation_ inner_activation hidden_size input_size
        input_names output_names output_all reverse_input
  | call_add_unilstm name hidden_size input_size input_names output_names W_h W_x
      inner_activation cell_state_update_activation output_activation b peep
      output_all forget_bias coupled_input_forget_gate cell_clip_threshold
      reverse_input =>
      add_unilstm name hidden_size input_size input_names output_names W_h W_x
        inner_activation cell_state_update_activation output_activation b peep
        output_all forget_bias coupled_input_forget_gate cell_clip_threshold
        reverse_input
  | call_add_bidirlstm name hidden_size input_size input_names output_names
      W_h W_x W_h_back W_x_back inner_activation cell_state_update_activation
      output_activation b b_back peep peep_back output_all forget_bias
      coupled_input_forget_gate cell_clip_threshold =>
      add_bidirlstm name hidden_size input_size input_names output_names
        W_h W_x W_h_back W_x_back inner_activation cell_state_update_activation
        output_activation b b_back peep peep_back output_all forget_bias
        coupled_input_forget_gate cell_clip_threshold
  | call_add_flatten mode name input_name output_name =>
      add_flatten mode name input_name output_name
  | call_add_batchnorm name channels gamma beta mean variance input_name
      output_name epsilon computeMeanVar instanceNormalization =>
      add_batchnorm name channels gamma beta mean variance input_name
        output_name epsilon computeMeanVar instanceNormalization
  | call_add_permute name input_name output_name dim =>
      add_permute name input_name output_name dim
  | call_add_reshape name input_name output_name target_shape mode =>
      add_reshape name input_name output_name target_shape mode
  | call_add_dropout name input_name output_name =>
      add_dropout name input_name output_name
  end.

(** The calls one after the other; the first exception ends the run. *)
Fixpoint run_calls (calls : list Call) (b : Builder) : Outcome :=
  match calls with
  | [] => Return b
  | c :: rest =>
      match run_call c b with
      | Return b' => run_calls rest b'
      | Raise e b' => Raise e b'
      end
  end.

(** The [name] argument of a call. *)
Definition call_name (c : Call) : string :=
  match c with
  | call_add_inner_product name _ _ _ _ _ _ _ => name
  | call_add_embedding name _ _ _ _ _ _ _ => name
  | call_add_softmax name _ _ => name
  | call_add_activation name _ _ _ _ => name
  | call_add_elementwise name _ _ _ => name
  | call_add_upsample name _ _ _ _ => name
  | call_add_repeat name _ _ _ => name
  | call_add_convolution name _ _ _ _ _ _ _ _ _ _ _ _ _ _ _ => name
  | call_add_pooling name _ _ _ _ _ _ _ _ _ _ => name
  | call_add_padding name _ _ _ _ _ _ _ => name
  | call_add_crop name _ _ _ _ _ _ _ => name
  | call_add_vanilla_rnn name _ _ _ _ _ _ _ _ _ _ => name
  | call_add_gru name _ _ _ _ _ _ _ _ _ _ _ => name
  | call_add_unilstm name _ _ _ _ _ _ _ _ _ _ _ _ _ _ _ _ => name
  | call_add_bidirlstm name _ _ _ _ _ _ _ _ _ _ _ _ _ _ _ _ _ _ _ => name
  | call_add_flatten _ name _ _ => name
  | call_add_batchnorm name _ _ _ _ _ _ _ _ _ _ => name
  | call_add_permute name _ _ _ => name
  | call_add_reshape name _ _ _ _ => name
  | call_add_dropout name _ _ => name
  end.

(** The parameter variant that belongs to the operation of a call; none
    for [add_dropout], which has no layer kind. *)
Definition variant_of_call (c : Call) : option string :=
  match c with
  | call_add_inner_product _ _ _ _ _ _ _ _ => Some "innerProduct"
  | call_add_embedding _ _ _ _ _ _ _ _ => Some "embedding"
  | call_add_softmax _ _ _ => Some "softmax"
  | call_add_activation _ _ _ _ _ => Some "activation"
  | call_add_elementwise _ _ _ mode => elementwise_variant mode
  | call_add_upsample _ _ _ _ _ => Some "upsample"
  | call_add_repeat _ _ _ _ => Some "sequenceRepeat"
  | call_add_convolution _ _ _ _ _ _ _ _ _ _ _ _ _ _ _ _ => Some "convolution"
  | call_add_pooling _ _ _ _ _ _ _ _ _ _ _ => Some "pooling"
  | call_add_padding _ _ _ _ _ _ _ _ => Some "padding"
  | call_add_crop _ _ _ _ _ _ _ _ => Some "crop"
  | call_add_vanilla_rnn _ _ _ _ _ _ _ _ _ _ _ => Some "simpleRecurrent"
  | call_add_gru _ _ _ _ _ _ _ _ _ _ _ _ => Some "gru"
  | call_add_unilstm _ _ _ _ _ _ _ _ _ _ _ _ _ _ _ _ _ => Some "uniDirectionalLSTM"
  | call_add_bidirlstm _ _ _ _ _ _ _ _ _ _ _ _ _ _ _ _ _ _ _ _ => Some "biDirectionalLSTM"
  | call_add_flatten _ _ _ _ => Some "flatten"
  | call_add_batchnorm _ _ _ _ _ _ _ _ _ _ _ => Some "batchnorm"
  | call_add_permute _ _ _ _ => Some "permute"
  | call_add_reshape _ _ _ _ _ => Some "reshape"
  | call_add_dropout _ _ _ => None
  end.

Definition is_add_dropout (c : Call) : bool :=
  match c with
  | call_add_dropout _ _ _ => true
  | _ => false
  end.

(** A layer is the one a call made: it has the call's name and exactly
    the parameter variant of the call's operation. *)
Definition made_by (c : Call) (l : Layer) : Prop :=
  layer_name l = call_name c
  ∧ is_Some (WhichOneof (layer_params l))
  ∧ WhichOneof (layer_params l) = variant_of_call c.

(** The values stored for a bias or peephole argument: none when it is
    absent or all zero, else its elements. *)
Definition stored_vector (v : option (ndarray A)) : list F :=
  match v with
  | Some a => if any a then floats a else []
  | None => []
  end.

(** A bias or peephole argument for [k] gates: absent, or a vector of
    length [k * h]. *)
Definition gate_vector_shaped (k h : nat) (v : option (ndarray A)) : Prop :=
  match v with
  | Some a => shape a = [k * h]
  | None => True
  end.

(** Elements [g*h:(g+1)*h] of a vector, as stored. *)
Definition vector_block (a : ndarray A) (g h : nat) : list F :=
  map float (slice (Numpy.flatten a) (g * h) ((g + 1) * h)).

(** The bias and the peephole vectors of an LSTM weight message, in the
    order they are sliced. *)
Definition lstm_bias_vectors (w : LSTMWeightParams) : list F :=
  w_inputGateBiasVector w ++ w_forgetGateBiasVector w
  ++ w_outputGateBiasVector w ++ w_blockInputBiasVector w.

Definition lstm_peephole_vectors (w : LSTMWeightParams) : list F :=
  w_inputGatePeepholeVector w ++ w_forgetGatePeepholeVector w
  ++ w_outputGatePeepholeVector w.

(** What holds of the message when a run of statements gets to its end. *)
Definition ends_in {St X} (P : St -> Prop) (m : Fill St X) : Prop :=
  ∀ s x s', m s = (inr x, s') -> P s'.

(** ** Image preprocessing *)

(** [NeuralNetworkImageScaler] *)
Record NeuralNetworkImageScaler := {
  channelScale : F;
  blueBias : F;
  greenBias : F;
  redBias : F;
  grayBias : F
}.

(** The [oneof preprocessor] of [NeuralNetworkPreprocessing]; the builder
    never assigns the message's [featureName]. *)
Inductive NeuralNetworkPreprocessing :=
| PreprocessorUnset
| scaler (s : NeuralNetworkImageScaler).

(** The builder with [nn_spec.preprocessing], the repeated field that
    [set_pre_processing_parameters] alone writes. *)
Record Network := {
  document : Builder;
  preprocessing : list NeuralNetworkPreprocessing
}.

(** How [set_pre_processing_parameters] ends. *)
Inductive NetworkOutcome :=
| Returned (n : Network)
| Raised (e : Exception) (n : Network).

(** [name in image_input_names] *)
Definition is_in (name : string) (image_input_names : list string) : bool :=
  existsb (String.eqb name) image_input_names.

(** The body of the loop over [spec.description.input] for one input
    that is named: an array input of shape (channels, height, width)
    becomes an image, an input of another type is left alone; [None] is
    the ValueError of an array shape that does not unpack into three
    values or of a channel count other than 1 and 3. *)
Definition as_image (is_bgr : bool) (input_ : FeatureDescription) : option FeatureDescription :=
  match feature_type input_ with
  | multiArrayType array_shape _ =>
      match array_shape with
      | [channels; height; width] =>
          if Z.eqb channels 1 then
            Some {| feature_name := feature_name input_;
                    feature_type := imageType width height GRAYSCALE |}
          else if Z.eqb channels 3 then
            Some {| feature_name := feature_name input_;
                    feature_type := imageType width height (if is_bgr then BGR else RGB) |}
          else None
      | _ => None
      end
  | _ => Some input_
  end.

(** [for input_ in spec.description.input: ...]: the inputs as the loop
    left them, and whether it got to its end. *)
Fixpoint add_image_inputs (image_input_names : list string) (is_bgr : bool)
    (inputs : list FeatureDescription) : bool * list FeatureDescription :=
  match inputs with
  | [] => (true, [])
  | input_ :: rest =>
      if is_in (feature_name input_) image_input_names then
        match as_image is_bgr input_ with
        | Some image =>
            let '(ok, rest') := add_image_inputs image_input_names is_bgr rest in
            (ok, image :: rest')
        | None => (false, input_ :: rest)
        end
      else
        let '(ok, rest') := add_image_inputs image_input_names is_bgr rest in
        (ok, input_ :: rest')
  end.

Definition set_pre_processing_parameters (image_input_names : list string)
    (is_bgr : bool) (red_bias green_bias blue_bias gray_bias image_scale : A)
    (n : Network) : NetworkOutcome :=
  match image_input_names with
  | [] => Returned n
  | _ :: _ =>
      let '(ok, inputs) :=
        add_image_inputs image_input_names is_bgr (description_input (document n)) in
      let doc := set_description_input inputs (document n) in
      if ok then
        Returned {| document := doc;
                    preprocessing :=
                      preprocessing n
                      ++ [ scaler {| channelScale := float image_scale;
                                     blueBias := float blue_bias;
                                     greenBias := float green_bias;
                                     redBias := float red_bias;
                                     grayBias := float gray_bias |} ] |}
      else
        Raised ValueError
          {| document := doc;
             preprocessing := preprocessing n ++ [PreprocessorUnset] |}
  end.

(** What [set_pre_processing_parameters] makes of one input: the name
    stays; a named array input of shape (channels, height, width) is an
    image of that width and height, gray for one channel and else in the
    colour order asked for; any other input is as it was. *)
Definition image_input (image_input_names : list string) (is_bgr : bool)
    (input_ input' : FeatureDescription) : Prop :=
  feature_name input' = feature_name input_
  ∧ match feature_type input_ with
    | multiArrayType [channels; height; width] _ =>
        if is_in (feature_name input_) image_input_names then
          feature_type input'
          = imageType width height
              (if Z.eqb channels 1 then GRAYSCALE else if is_bgr then BGR else RGB)
        else input' = input_
    | _ => input' = input_
    end.

(** An input the method can take: not named, not an array, or an array
    of shape (1, height, width) or (3, height, width). *)
Definition image_ready (image_input_names : list string) (input_ : FeatureDescription) : Prop :=
  is_in (feature_name input_) image_input_names = true ->
  ∀ array_shape dataType, feature_type input_ = multiArrayType array_shape dataType ->
  ∃ channels height width,
    array_shape = [channels; height; width] ∧ (channels = 1%Z ∨ channels = 3%Z).

(** The network of a call's outcome. *)
Definition network_of (o : NetworkOutcome) : Network :=
  match o with
  | Returned n => n
  | Raised _ n => n
  end.

(** ** Tags and sizes the factory takes *)

(** The names [add_activation] knows. *)
Definition non_linearities : list string :=
  ["RELU"; "SIGMOID"; "TANH"; "SCALED_TANH"; "SOFTPLUS"; "SOFTSIGN"; "SIGMOID_HARD";
   "LEAKYRELU"; "PRELU"; "ELU"; "PARAMETRICSOFTPLUS"; "THRESHOLDEDRELU"; "LINEAR"].

(** The names of the [PoolingType] enum. *)
Definition pooling_types : list string := ["MAX"; "AVERAGE"; "L2"].

(** A layer record with its names and no parameter variant. *)
Definition empty_layer (name : string) (input output : list string) : Layer :=
  {| layer_name := name;
     layer_input := input;
     layer_output := output;
     layer_params := LayerUnset |}.

End Document.

(** ** Concrete documents

    Arrays of integers, stored as rationals: [float] of an integer is that
    integer. *)

#[global] Instance Z_Numeric : Numeric Z Q := {
  float := inject_Z;
  nonzero := fun z => negb (Z.eqb z 0);
  literal := fun q => q
}.

(** The document of a builder made for one input [("data", (3,))] and one
    output [("probs", (2,))], before any layer is added. *)
Definition example_builder (mode : Mode) : Builder (F := Q) :=
  {| description_input :=
       [ {| feature_name := "data"; feature_type := multiArrayType [3%Z] DOUBLE |} ];
     description_output :=
       [ {| feature_name := "probs"; feature_type := multiArrayType [2%Z] DOUBLE |} ];
     predictedFeatureName := "";
     predictedProbabilitiesName := "";
     nn_mode := mode;
     layers := [];
     classLabels := LabelsUnset |}.

(** [numpy.arange(n).reshape(shp)]: the array of shape [shp] whose
    elements are 0, 1, 2, ... in flattening order. *)
Definition arange (shp : list nat) : ndarray Z :=
  NDArray shp (fun idx =>
    Z.of_nat (foldl (fun acc '(i, n) => acc * n + i) 0 (zip idx shp))).

(** A vector of integers. *)
Definition vector_of (l : list Z) : ndarray Z := vector 0%Z l.

(** ** Optional dependencies

    [coremltools/_deps/__init__.py] probes the optional packages when it
    is imported and leaves one flag for each.  What the probe finds is
    given here as a record: for a package whether [import] succeeds, and
    for those whose version is read, the string [str(package.__version__)]
    and, for Keras, the name [keras.backend.backend()] returns. *)

Module Deps.

(** [distutils.version.StrictVersion] of a string of two or three
    numbers: the numbers, a missing third one being 0; such versions
    compare as tuples do. *)
Definition StrictVersion : Type := nat * nat * nat.

Definition version_compare (v w : StrictVersion) : comparison :=
  let '(a, b, c) := v in
  let '(a', b', c') := w in
  match Nat.compare a a' with
  | Eq => match Nat.compare b b' with
          | Eq => Nat.compare c c'
          | r => r
          end
  | r => r
  end.

Definition version_lt (v w : StrictVersion) : bool :=
  match version_compare v w with Lt => true | _ => false end.

Definition version_gt (v w : StrictVersion) : bool :=
  match version_compare v w with Gt => true | _ => false end.

Definition version_ge (v w : StrictVersion) : bool := negb (version_lt v w).

Definition version_le (v w : StrictVersion) : bool := negb (version_gt v w).

(** The value of a decimal digit. *)
Definition digit (c : Ascii.ascii) : option nat :=
  let n := Ascii.nat_of_ascii c in
  if Nat.leb 48 n && Nat.leb n 57 then Some (n - 48) else None.

(** [\d+] at the start of a string, matched greedily: the number read
    and the rest of the string. *)
Fixpoint digits (acc : nat) (s : string) : nat * string :=
  match s with
  | String c rest =>
      match digit c with
      | Some d => digits (10 * acc + d) rest
      | None => (acc, s)
      end
  | EmptyString => (acc, s)
  end.

Definition number (s : string) : option (nat * string) :=
  match s with
  | String c rest =>
      match digit c with
      | Some d => Some (digits d rest)
      | None => None
      end
  | EmptyString => None
  end.

(** [\.] *)
Definition dot (s : string) : option string :=
  match s with
  | String "."%char rest => Some rest
  | _ => None
  end.

(** [__get_version]: the match of [^\d+\.\d+\.\d+] as a version; [None]
    is the AttributeError of [.group] on a failed search. *)
Definition __get_version (version : string) : option StrictVersion :=
  '(a, s) ← number version;
  s ← dot s;
  '(b, s) ← number s;
  s ← dot s;
  '(c, _) ← number s;
  Some (a, b, c).

(** [__get_sklearn_version]: the same with [^\d+\.\d+]. *)
Definition __get_sklearn_version (version : string) : option StrictVersion :=
  '(a, s) ← number version;
  s ← dot s;
  '(b, _) ← number s;
  Some (a, b, 0).

Definition SKLEARN_MIN_VERSION : StrictVersion := (0, 15, 0).
Definition KERAS_MIN_VERSION : StrictVersion := (1, 2, 2).
Definition KERAS_MAX_VERSION : StrictVersion := (1, 2, 2).
Definition TF_MIN_VERSION : StrictVersion := (1, 0, 0).
Definition TF_MAX_VERSION : StrictVersion := (1, 1, 1).

Record Keras := {
  keras_version : string;
  backend : string
}.

(** What the imports find; [None] and [false] are an import that
    raises. *)
Record Packages := {
  sklearn : option string;
  svm : bool;
  xgboost : bool;
  keras : option Keras;
  tensorflow : option string
}.

(** The calls of [_logging.warn]. *)
Inductive Warning :=
| sklearn_not_supported
| keras_not_supported
| tensorflow_not_supported
| tensorflow_not_known_compatible
| backend_not_supported.

(** The scikit-learn block: the flag and the warnings logged.  The bare
    [except] turns every exception into a cleared flag. *)
Definition probe_sklearn (env : Packages) : bool * list Warning :=
  match sklearn env with
  | None => (false, [])
  | Some version =>
      match __get_sklearn_version version with
      | None => (false, [])
      | Some v =>
          if version_lt v SKLEARN_MIN_VERSION then (false, [sklearn_not_supported])
          else (true, [])
      end
  end.

(** The Keras and TensorFlow block. *)
Definition probe_keras_tf (env : Packages) : bool * list Warning :=
  match keras env with
  | None => (false, [])
  | Some k =>
      match tensorflow env with
      | None => (false, [])
      | Some tf_version =>
          match __get_version tf_version with
          | None => (false, [])
          | Some tf_ver =>
              match __get_version (keras_version k) with
              | None => (false, [])
              | Some k_ver =>
                  let s := (true, []) in
                  let s :=
                    if negb (version_ge k_ver KERAS_MIN_VERSION)
                       && version_le k_ver KERAS_MAX_VERSION
                    then (false, s.2 ++ [keras_not_supported]) else s in
                  let s :=
                    if version_lt tf_ver TF_MIN_VERSION
                    then (false, s.2 ++ [tensorflow_not_supported]) else s in
                  let s :=
                    if version_gt tf_ver TF_MAX_VERSION
                    then (s.1, s.2 ++ [tensorflow_not_known_compatible]) else s in
                  let s :=
                    if negb (String.eqb (backend k) "tensorflow")
                    then (false, s.2 ++ [backend_not_supported]) else s in
                  s
              end
          end
      end
  end.

Definition HAS_SKLEARN (env : Packages) : bool := (probe_sklearn env).1.
Definition HAS_LIBSVM (env : Packages) : bool := svm env.
Definition HAS_XGBOOST (env : Packages) : bool := xgboost env.
Definition HAS_KERAS_TF (env : Packages) : bool := (probe_keras_tf env).1.

(** All warnings of the import, in the order they are logged. *)
Definition warnings (env : Packages) : list Warning :=
  (probe_sklearn env).2 ++ (probe_keras_tf env).2.

(** A version as a string: decimal numbers joined by dots. *)
Definition decimal (n : nat) : string := NilEmpty.string_of_uint (Nat.to_uint n).

Definition dotted (v : StrictVersion) : string :=
  let '(a, b, c) := v in
  (decimal a ++ "." ++ decimal b ++ "." ++ decimal c)%string.

(** Whether a string goes on with a decimal digit. *)
Definition starts_with_digit (s : string) : bool :=
  match s with
  | String c _ => bool_decide (is_Some (digit c))
  | EmptyString => false
  end.

End Deps.


(** The same with one input, [("image", (2, 4, 5))], whose channel count
    no image has. *)
Definition two_channel_network : Network (F := Q) :=
  {| document :=
       set_description_input
         [ {| feature_name := "image";
              feature_type := multiArrayType [2; 4; 5]%Z DOUBLE |} ]
         (example_builder plain);
     preprocessing := [] |}.

(** An installation with Keras 2.0.6 on TensorFlow 1.2.0. *)
Definition newer_packages : Deps.Packages :=
  {| Deps.sklearn := Some "0.18.1";
     Deps.svm := false;
     Deps.xgboost := true;
     Deps.keras := Some {| Deps.keras_version := "2.0.6";
                           Deps.backend := "tensorflow" |};
     Deps.tensorflow := Some "1.2.0" |}.

(** ** Properties *)

Section Properties.
Context {A F : Type} `{Numeric A F}.
Implicit Types (b doc : Builder (F := F)).

Lemma layers_with_layer (l : Layer (F := F)) b : layers (with_layer l b) = layers b ++ [l].
Proof. by destruct b. Qed.

Lemma String_eqb_neq (s t : string) : s ≠ t -> String.eqb s t = false.
Proof. intros Hne. by apply String.eqb_neq. Qed.

(** C10: [add_dropout] returns and leaves the document as it was, for
    every document and all arguments. *)
Theorem add_dropout_is_noop (name input_name output_name : string) (b : Builder (F := F)) :
  add_dropout name input_name output_name b = Return b.
Proof. reflexivity. Qed.

(** C9 (amended): [add_elementwise] checks no arity.  For each of its
    eight modes and every list of input names, of any length, the call
    returns and has appended one layer that holds these names as they
    were given, the output name, and the variant of the mode. *)
Theorem add_elementwise_any_arity (name : string) (input_names : list string)
    (output_name mode : string) (b : Builder (F := F)) :
  mode ∈ elementwise_modes ->
  ∃ p, add_elementwise name input_names output_name mode b
       = Return (with_layer {| layer_name := name;
                               layer_input := input_names;
                               layer_output := [output_name];
                               layer_params := p |} b)
       ∧ WhichOneof p = elementwise_variant mode
       ∧ WhichOneof p ≠ None.
Proof.
  unfold elementwise_modes. intros Hmode.
  repeat (apply elem_of_cons in Hmode as [-> | Hmode]);
    try (eexists; split; [reflexivity | by split]).
  by apply elem_of_nil in Hmode.
Qed.

(** X25: an unknown mode is the only failure of [add_elementwise], and it
    comes after the layer record was added: the call raises ValueError
    and leaves a layer with the names of the call and no parameter
    variant. *)
Lemma add_elementwise_unknown_mode (name : string) (input_names : list string)
    (output_name mode : string) (b : Builder (F := F)) :
  mode ∉ elementwise_modes ->
  add_elementwise name input_names output_name mode b
  = Raise ValueError (with_layer {| layer_name := name;
                                    layer_input := input_names;
                                    layer_output := [output_name];
                                    layer_params := LayerUnset |} b).
Proof.
  unfold elementwise_modes. intros Hmode.
  unfold add_elementwise, add_layer.
  repeat (rewrite String_eqb_neq; [| intros ->; apply Hmode; rewrite !elem_of_cons; tauto]).
  reflexivity.
Qed.

(** C3 (amended): with a border mode other than 'valid' and 'same',
    [add_convolution] raises NotImplementedError after it has added the
    layer: the layer list is the one before the call followed by one
    convolution record with the name, the input and output names, and the
    fields assigned before the border mode is tested; nothing else of the
    document changes. *)
Theorem add_convolution_unsupported_border (name : string)
    (kernelChannels outputChannels height width stride_height stride_width : nat)
    (borderMode : string) (groups : nat) (W : ndarray A) (bias : option (ndarray A))
    (has_bias is_deconv : bool) (output_shape : option (list nat))
    (input_name output_name : string) (b : Builder (F := F)) :
  borderMode ≠ "valid" -> borderMode ≠ "same" ->
  add_convolution name kernelChannels outputChannels height width
    stride_height stride_width borderMode groups W bias has_bias is_deconv
    output_shape input_name output_name b
  = Raise NotImplementedError
      (with_layer {| layer_name := name;
                     layer_input := [input_name];
                     layer_output := [output_name];
                     layer_params :=
                       convolution (convolution_before_border kernelChannels
                                      outputChannels height width stride_height
                                      stride_width is_deconv output_shape) |} b).
Proof.
  intros Hvalid Hsame.
  unfold add_convolution, add_layer; cbn.
  rewrite (String_eqb_neq _ _ Hvalid), (String_eqb_neq _ _ Hsame).
  reflexivity.
Qed.

Lemma set_description_input_id b : set_description_input (description_input b) b = b.
Proof. by destruct b. Qed.

Lemma set_description_output_id b : set_description_output (description_output b) b = b.
Proof. by destruct b. Qed.

Lemma set_description_input_twice l1 l2 b :
  set_description_input l2 (set_description_input l1 b) = set_description_input l2 b.
Proof. by destruct b. Qed.

Lemma set_description_output_twice l1 l2 b :
  set_description_output l2 (set_description_output l1 b) = set_description_output l2 b.
Proof. by destruct b. Qed.

Lemma description_input_set l b : description_input (set_description_input l b) = l.
Proof. by destruct b. Qed.

Lemma description_output_set l b : description_output (set_description_output l b) = l.
Proof. by destruct b. Qed.

Lemma input_shape_supported dim :
  supported_rank dim -> input_shape dim = Some (normalize_shape dim).
Proof.
  unfold supported_rank.
  destruct dim as [|d0 [|d1 [|d2 [|d3 dim]]]]; simpl; intros; try lia; done.
Qed.

Lemma input_shape_unsupported dim :
  ¬ supported_rank dim -> input_shape dim = None.
Proof.
  unfold supported_rank.
  destruct dim as [|d0 [|d1 [|d2 [|d3 dim]]]]; simpl; intros; try lia; done.
Qed.

(** One step of either loop on the list of features: writing slot [idx]
    and overlaying the remaining shapes from [S idx] on is overlaying all
    shapes from [idx] on. *)
Lemma write_shapes_step (features : list FeatureDescription) idx f shp shapes :
  features !! idx = Some f ->
  let features' := <[idx := write_array_type shp f]> features in
  take (S idx) features' ++ write_shapes shapes (drop (S idx) features')
  = take idx features ++ write_shapes (shp :: shapes) (drop idx features).
Proof.
  intros Hf features'. subst features'.
  assert (idx < length features) as Hlt by (by eapply lookup_lt_Some).
  rewrite drop_insert_lt by lia.
  rewrite (take_S_r _ _ (write_array_type shp f))
    by (by rewrite list_lookup_insert_eq).
  rewrite take_insert_ge by lia.
  rewrite (drop_S _ _ _ Hf). simpl.
  by rewrite <- app_assoc.
Qed.

Lemma set_input_from_supported input_dims : ∀ idx b,
  Forall supported_rank input_dims ->
  idx + length input_dims <= length (description_input b) ->
  set_input_from idx input_dims b
  = Return (set_description_input
              (take idx (description_input b)
               ++ write_shapes (map normalize_shape input_dims)
                    (drop idx (description_input b))) b).
Proof.
  induction input_dims as [|dim rest IH]; intros idx b Hrank Hlen; simpl in *.
  - destruct (drop idx (description_input b)) eqn:Hd;
      rewrite <- Hd, take_drop; by rewrite set_description_input_id.
  - apply Forall_cons in Hrank as [Hdim Hrest].
    rewrite (input_shape_supported _ Hdim).
    destruct (lookup_lt_is_Some_2 (description_input b) idx) as [f Hf]; [lia|].
    rewrite Hf, IH; [| done | rewrite description_input_set, length_insert; lia].
    rewrite description_input_set, set_description_input_twice.
    by rewrite (write_shapes_step _ _ _ _ _ Hf).
Qed.

Lemma set_input_from_unsupported input_dims : ∀ idx b,
  ¬ Forall supported_rank input_dims ->
  idx + length input_dims <= length (description_input b) ->
  ∃ b', set_input_from idx input_dims b = Raise RuntimeError b'.
Proof.
  induction input_dims as [|dim rest IH]; intros idx b Hrank Hlen; simpl in *.
  - by destruct Hrank.
  - destruct (decide (supported_rank dim)) as [Hdim | Hdim].
    + rewrite (input_shape_supported _ Hdim).
      destruct (lookup_lt_is_Some_2 (description_input b) idx) as [f Hf]; [lia|].
      rewrite Hf. apply IH.
      * intros Hrest. apply Hrank. by constructor.
      * rewrite description_input_set, length_insert; lia.
    + rewrite (input_shape_unsupported _ Hdim). by eexists.
Qed.

Lemma set_output_from_writes output_dims : ∀ idx b,
  idx + length output_dims <= length (description_output b) ->
  set_output_from idx output_dims b
  = Return (set_description_output
              (take idx (description_output b)
               ++ write_shapes output_dims (drop idx (description_output b))) b).
Proof.
  induction output_dims as [|dim rest IH]; intros idx b Hlen; simpl in *.
  - destruct (drop idx (description_output b)) eqn:Hd;
      rewrite <- Hd, take_drop; by rewrite set_description_output_id.
  - destruct (lookup_lt_is_Some_2 (description_output b) idx) as [f Hf]; [lia|].
    rewrite Hf, IH; [| rewrite description_output_set, length_insert; lia].
    rewrite description_output_set, set_description_output_twice.
    by rewrite (write_shapes_step _ _ _ _ _ Hf).
Qed.

(** C6 (amended): for every list of shapes that has no more entries than
    the interface has slots, [set_input] writes each rank-2 shape as the
    rank-1 shape of its trailing dimension and each rank-1 and rank-3
    shape unchanged, and raises RuntimeError when a shape has another
    rank; [set_output] writes every shape through unchanged, whatever its
    rank, and has no rank check. *)
Theorem set_input_normalizes_set_output_copies
    (names : list string) (dims : list (list Z)) (b : Builder (F := F)) :
  length dims <= length (description_input b) ->
  length dims <= length (description_output b) ->
  (Forall supported_rank dims ->
     set_input names dims b
     = Return (set_description_input
                 (write_shapes (map normalize_shape dims) (description_input b)) b))
  ∧ (¬ Forall supported_rank dims ->
     ∃ b', set_input names dims b = Raise RuntimeError b')
  ∧ set_output names dims b
    = Return (set_description_output
                (write_shapes dims (description_output b)) b).
Proof.
  intros Hin Hout. unfold set_input, set_output. split_and!.
  - intros Hrank. by rewrite set_input_from_supported.
  - intros Hrank. by apply set_input_from_unsupported.
  - by rewrite set_output_from_writes.
Qed.

(** C4 (amended): on a document with at least one output,
    [set_class_labels] with an empty label list returns, and what it has
    changed is the type of the first output, which is now the dictionary
    type (with the key type it had if it was one already); the names,
    the other outputs, the labels and the layers are as before, and the
    whole document is unchanged exactly when the first output already had
    the dictionary type. *)
Theorem set_class_labels_empty (predicted_feature_name : string) (b : Builder (F := F))
    (probOutput : FeatureDescription) (rest : list FeatureDescription) :
  description_output b = probOutput :: rest ->
  set_class_labels [] predicted_feature_name b
  = Return (with_probability_dictionary probOutput rest b)
  ∧ (with_probability_dictionary probOutput rest b = b
     ↔ ∃ key, feature_type probOutput = dictionaryType key).
Proof.
  intros Hout. split.
  - unfold set_class_labels, set_probOutput_type. by rewrite Hout.
  - unfold with_probability_dictionary.
    destruct b, probOutput as [n t]; simpl in *; subst. split.
    + intros Heq. injection Heq as Ht. destruct t; try done. by eexists.
    + intros [key ->]. done.
Qed.

(** C5 (amended): on a document with at least one output, a label list
    whose first element is neither an [int] nor a [str] makes
    [set_class_labels] raise TypeError; by then the type of the first
    output has become the dictionary type, and nothing else of the
    document has changed. *)
Theorem set_class_labels_rejects_first_type (c0 : PyValue) (class_labels : list PyValue)
    (predicted_feature_name : string) (b : Builder (F := F))
    (probOutput : FeatureDescription) (rest : list FeatureDescription) :
  description_output b = probOutput :: rest ->
  type c0 ≠ py_int -> type c0 ≠ py_str ->
  set_class_labels (c0 :: class_labels) predicted_feature_name b
  = Raise TypeError (with_probability_dictionary probOutput rest b).
Proof.
  intros Hout Hint Hstr.
  unfold set_class_labels, set_probOutput_type. rewrite Hout.
  by destruct c0.
Qed.

(** *** Flattening *)

Lemma flat_map_bind {X Y} (f : X -> list Y) (l : list X) : flat_map f l = l ≫= f.
Proof. induction l as [|x l IH]; simpl; [done | by rewrite IH]. Qed.

Lemma map_bind {X Y Z} (g : Y -> Z) (f : X -> list Y) (l : list X) :
  map g (l ≫= f) = l ≫= (fun x => map g (f x)).
Proof.
  induction l as [|x l IH]; [done|].
  by rewrite !bind_cons, map_app, IH.
Qed.

Lemma bind_ext {X Y} (f g : X -> list Y) (l : list X) :
  (∀ x, f x = g x) -> l ≫= f = l ≫= g.
Proof. intros Hfg. induction l as [|x l IH]; [done|]. by rewrite !bind_cons, Hfg, IH. Qed.

Lemma length_bind_const {X Y} (f : X -> list Y) (l : list X) n :
  (∀ x, length (f x) = n) -> length (l ≫= f) = length l * n.
Proof.
  intros Hn. induction l as [|x l IH]; [done|].
  rewrite bind_cons, length_app, Hn, IH. simpl. lia.
Qed.

(** Mapping over the indices of a shape, one axis at a time. *)
Lemma map_indices_cons {Y} (g : list nat -> Y) n rest :
  map g (indices (n :: rest))
  = i ← seq 0 n; map (fun idx => g (i :: idx)) (indices rest).
Proof.
  simpl. rewrite flat_map_bind, map_bind.
  apply bind_ext. intros i. by rewrite map_map.
Qed.

Lemma map_indices_4 {Y} (g : list nat -> Y) n0 n1 n2 n3 :
  map g (indices [n0; n1; n2; n3])
  = i0 ← seq 0 n0; i1 ← seq 0 n1; i2 ← seq 0 n2; i3 ← seq 0 n3; [g [i0; i1; i2; i3]].
Proof.
  rewrite map_indices_cons. apply bind_ext; intros i0.
  rewrite map_indices_cons. apply bind_ext; intros i1.
  rewrite map_indices_cons. apply bind_ext; intros i2.
  rewrite map_indices_cons. apply bind_ext; intros i3.
  reflexivity.
Qed.

Lemma length_indices shp : length (indices shp) = foldr Nat.mul 1 shp.
Proof.
  induction shp as [|n rest IH]; [done|].
  simpl. rewrite flat_map_bind.
  rewrite (length_bind_const _ _ (foldr Nat.mul 1 rest)).
  - by rewrite length_seq.
  - intros i. by rewrite length_map.
Qed.

Lemma flatten_transpose_conv (W : ndarray A) H_ W_ Cin Cout :
  shape W = [H_; W_; Cin; Cout] ->
  Numpy.flatten <$> transpose [3; 2; 0; 1] W
  = Some (flattened_Cout_Cin_H_W W H_ W_ Cin Cout).
Proof.
  intros Hshape. unfold transpose. rewrite Hshape.
  change (is_permutation _ _) with true. cbv iota.
  unfold Numpy.flatten, fmap, option_fmap, option_map. f_equal.
  cbn [shape item map nth length]. by rewrite map_indices_4.
Qed.

Lemma flatten_transpose_deconv (W : ndarray A) H_ W_ Cin Cout :
  shape W = [H_; W_; Cin; Cout] ->
  Numpy.flatten <$> transpose [2; 3; 0; 1] W
  = Some (flattened_Cin_Cout_H_W W H_ W_ Cin Cout).
Proof.
  intros Hshape. unfold transpose. rewrite Hshape.
  change (is_permutation _ _) with true. cbv iota.
  unfold Numpy.flatten, fmap, option_fmap, option_map. f_equal.
  cbn [shape item map nth length]. by rewrite map_indices_4.
Qed.

Lemma length_flattened_Cout_Cin_H_W (W : ndarray A) H_ W_ Cin Cout :
  length (flattened_Cout_Cin_H_W W H_ W_ Cin Cout) = Cout * Cin * H_ * W_.
Proof.
  unfold flattened_Cout_Cin_H_W.
  rewrite (length_bind_const _ _ (Cin * (H_ * W_))), length_seq; [lia|]. intros f.
  rewrite (length_bind_const _ _ (H_ * W_)), length_seq; [lia|]. intros c.
  rewrite (length_bind_const _ _ W_), length_seq; [lia|]. intros h.
  rewrite (length_bind_const _ _ 1), length_seq; [lia|]. done.
Qed.

Lemma length_flattened_Cin_Cout_H_W (W : ndarray A) H_ W_ Cin Cout :
  length (flattened_Cin_Cout_H_W W H_ W_ Cin Cout) = Cout * Cin * H_ * W_.
Proof.
  unfold flattened_Cin_Cout_H_W.
  rewrite (length_bind_const _ _ (Cout * (H_ * W_))), length_seq; [lia|]. intros f.
  rewrite (length_bind_const _ _ (H_ * W_)), length_seq; [lia|]. intros c.
  rewrite (length_bind_const _ _ W_), length_seq; [lia|]. intros h.
  rewrite (length_bind_const _ _ 1), length_seq; [lia|]. done.
Qed.

(** *** Convolution *)

Lemma set_conv_weights_twice v1 v2 (p : ConvolutionLayerParams (F := F)) :
  set_conv_weights v2 (set_conv_weights v1 p) = set_conv_weights v2 p.
Proof. by destruct p. Qed.

Lemma conv_weights_set v (p : ConvolutionLayerParams (F := F)) :
  conv_weights (set_conv_weights v p) = v.
Proof. by destruct p. Qed.

Lemma set_conv_weights_id (p : ConvolutionLayerParams (F := F)) :
  set_conv_weights (conv_weights p) p = p.
Proof. by destruct p. Qed.

(** The loop that copies [Wt] into the weights, started at [i]. *)
Lemma copy_weights_loop (Wt : list A) n : ∀ i (p : ConvolutionLayerParams (F := F)),
  i + n <= length Wt ->
  for_each (seq i n) (fun idx =>
    x ← try IndexError (Wt !! idx);
    extend conv_weights set_conv_weights [float x]) p
  = (inr tt, set_conv_weights (conv_weights p ++ map float (take n (drop i Wt))) p).
Proof.
  induction n as [|n IH]; intros i p Hlen.
  - simpl. unfold mret, Fill_ret, ret. by rewrite app_nil_r, set_conv_weights_id.
  - destruct (lookup_lt_is_Some_2 Wt i) as [x Hx]; [lia|].
    cbn [seq for_each]. unfold bind at 1. unfold mbind, Fill_bind, bind at 1.
    rewrite Hx. cbn [try ret extend modify].
    rewrite IH by lia.
    rewrite conv_weights_set, set_conv_weights_twice.
    rewrite (drop_S _ _ _ Hx). cbn [take map].
    by rewrite <- app_assoc.
Qed.

Lemma float_at_state {S} (b : option (ndarray A)) f (p : S) :
  (float_at b f p).2 = p.
Proof.
  unfold float_at, mbind, Fill_bind, bind.
  destruct b as [a|]; cbn [try ret raise]; [|done].
  destruct (getitem [Int f] a) as [x|]; cbn [try ret raise]; [|done].
  by destruct (Numpy.flatten x) as [|? [|]].
Qed.

(** The loop that copies the bias leaves the weights alone. *)
Lemma copy_bias_loop_weights (b : option (ndarray A)) l : ∀ (p : ConvolutionLayerParams (F := F)),
  conv_weights (for_each l (fun f =>
                  x ← float_at b f;
                  extend conv_bias set_conv_bias [x]) p).2
  = conv_weights p.
Proof.
  induction l as [|f l IH]; intros p; [done|].
  cbn [for_each]. unfold bind at 1. unfold mbind, Fill_bind, bind at 1.
  pose proof (float_at_state b f p) as Hp.
  destruct (float_at b f p) as [[e|x] p']; simpl in Hp; subst p'; [done|].
  cbn [extend modify]. rewrite IH. by destruct p.
Qed.

Lemma copy_bias_loop_false (b : option (ndarray A)) n (p : ConvolutionLayerParams (F := F)) :
  when false (for_xrange n (fun f =>
                x ← float_at b f;
                extend conv_bias set_conv_bias [x])) p
  = (inr tt, p).
Proof. done. Qed.

Lemma final_add_layer {S} name input output (variant : S -> LayerParams) init body b :
  final (add_layer name input output variant init body b)
  = with_layer {| layer_name := name;
                  layer_input := input;
                  layer_output := output;
                  layer_params := variant (body init).2 |} b.
Proof. unfold add_layer. by destruct (body init) as [[e|x] p]. Qed.

Lemma add_layer_returns {S} name input output (variant : S -> LayerParams) init body b :
  (body init).1 = inr tt ->
  add_layer name input output variant init body b
  = Return (final (add_layer name input output variant init body b)).
Proof. unfold add_layer. destruct (body init) as [[e|x] p]; [done|]. by intros _. Qed.

(** Running a sequence of statements on the message being filled. *)
Lemma run_bind {S X Y} (m : Fill S X) (k : X -> Fill S Y) (s : S) :
  (m ≫= k) s = match m s with
               | (inl e, s') => (inl e, s')
               | (inr x, s') => k x s'
               end.
Proof. reflexivity. Qed.

Lemma run_modify {S Y} (f : S -> S) (k : unit -> Fill S Y) (s : S) :
  (modify f ≫= k) s = k tt (f s).
Proof. reflexivity. Qed.

Lemma run_extend {S X Y} (get : S -> list X) set v (k : unit -> Fill S Y) (s : S) :
  (extend get set v ≫= k) s = k tt (set (get s ++ v) s).
Proof. reflexivity. Qed.

Lemma run_try_Some {S X Y} e (x : X) (k : X -> Fill S Y) (s : S) :
  (try e (Some x) ≫= k) s = k x s.
Proof. reflexivity. Qed.

Lemma run_ret {S X Y} (x : X) (k : X -> Fill S Y) (s : S) :
  (mret x ≫= k) s = k x s.
Proof. reflexivity. Qed.

(** Steps through the assignments at the head of a sequence. *)
Ltac run_fill :=
  repeat first [ rewrite run_modify | rewrite run_extend
               | rewrite run_try_Some | rewrite run_ret ].

(** The whole copy, when [n] is the length of [Wt]. *)
Lemma copy_weights_all {Y} (Wt : list A) n
    (k : unit -> Fill (ConvolutionLayerParams (F := F)) Y) (p : ConvolutionLayerParams (F := F)) :
  n = length Wt ->
  (for_xrange n (fun idx =>
     x ← try IndexError (Wt !! idx);
     extend conv_weights set_conv_weights [float x]) ≫= k) p
  = k tt (set_conv_weights (conv_weights p ++ map float Wt) p).
Proof.
  intros ->. rewrite run_bind. unfold for_xrange.
  rewrite copy_weights_loop by (simpl; lia).
  by rewrite drop_0, firstn_all.
Qed.

(** C1: for a weight tensor [W] of shape (H, W, Cin, Cout), passed with
    these four sizes as [height], [width], [kernelChannels] and
    [outputChannels] and with a border mode the method takes,
    [add_convolution] stores as the weights of the layer it adds the
    flattened sequence of [W] transposed to (Cout, Cin, H, W) when
    [is_deconv] is False, and of [W] transposed to (Cin, Cout, H, W)
    when it is True, each element converted by [float]; this is so
    whatever happens to the bias afterwards, and without a bias the call
    returns. *)
Theorem add_convolution_weight_layout (name : string)
    (H_ W_ Cin Cout stride_height stride_width : nat)
    (borderMode : string) (groups : nat) (W : ndarray A) (bias : option (ndarray A))
    (has_bias is_deconv : bool) (output_shape : option (list nat))
    (input_name output_name : string) (b : Builder (F := F)) :
  shape W = [H_; W_; Cin; Cout] ->
  borderMode = "valid" ∨ borderMode = "same" ->
  let outcome :=
    add_convolution name Cin Cout H_ W_ stride_height stride_width borderMode
      groups W bias has_bias is_deconv output_shape input_name output_name b in
  ∃ p, final outcome
       = with_layer {| layer_name := name;
                       layer_input := [input_name];
                       layer_output := [output_name];
                       layer_params := convolution p |} b
       ∧ conv_weights p
         = map float (if is_deconv then flattened_Cin_Cout_H_W W H_ W_ Cin Cout
                      else flattened_Cout_Cin_H_W W H_ W_ Cin Cout)
       ∧ (has_bias = false -> outcome = Return (final outcome)).
Proof.
  intros Hshape Hborder outcome. subst outcome.
  unfold add_convolution.
  eexists. split; [apply final_add_layer|].
  pose proof (copy_weights_all (Y := unit)) as Hloop.
  split.
  - destruct Hborder as [-> | ->], is_deconv;
      cbn [negb String.eqb Ascii.eqb Bool.eqb];
      run_fill;
      rewrite ?(flatten_transpose_conv _ _ _ _ _ Hshape),
              ?(flatten_transpose_deconv _ _ _ _ _ Hshape), run_try_Some;
      (rewrite Hloop;
       [| by rewrite ?length_flattened_Cout_Cin_H_W, ?length_flattened_Cin_Cout_H_W]);
      (destruct has_bias; cbn [when];
       [unfold for_xrange; rewrite copy_bias_loop_weights | cbn [snd ret mret Fill_ret]]);
      by rewrite conv_weights_set.
  - intros ->. apply add_layer_returns.
    destruct Hborder as [-> | ->], is_deconv;
      cbn [negb String.eqb Ascii.eqb Bool.eqb];
      run_fill;
      rewrite ?(flatten_transpose_conv _ _ _ _ _ Hshape),
              ?(flatten_transpose_deconv _ _ _ _ _ Hshape), run_try_Some;
      (rewrite Hloop;
       [| by rewrite ?length_flattened_Cout_Cin_H_W, ?length_flattened_Cin_Cout_H_W]);
      done.
Qed.

(** *** Gate slices *)

Lemma drop_map_seq {X} (f : nat -> X) a n :
  drop a (map f (seq 0 n)) = map f (seq a (n - a)).
Proof. by rewrite skipn_map, drop_seq. Qed.

Lemma bind_seq_shift {X} (f : nat -> list X) a n :
  seq a n ≫= f = seq 0 n ≫= (fun r => f (a + r)).
Proof.
  rewrite <- (Nat.add_0_r a) at 1. rewrite <- fmap_add_seq.
  by rewrite list_fmap_bind.
Qed.

Lemma map_as_bind {X Y} (f : X -> Y) (l : list X) :
  map f l = l ≫= (fun x => [f x]).
Proof. induction l as [|x l IH]; [done|]. by rewrite bind_cons, <- IH. Qed.

Lemma gate_rows_unfold (W : ndarray A) n0 n1 k cols g h :
  shape W = [n0; n1; k * h; cols] -> g < k ->
  gate_rows W g h
  = r ← seq 0 h; c ← seq 0 cols; [float (item W [0; 0; g * h + r; c])].
Proof.
  intros Hshape Hg. unfold gate_rows, matrix_rows, slice. rewrite Hshape.
  cbn [nth].
  rewrite drop_map_seq, firstn_map, take_seq.
  replace ((g + 1) * h - g * h) with h by nia.
  replace (h `min` (k * h - g * h)) with h by nia.
  rewrite concat_map, map_map, <- flat_map_concat_map, flat_map_bind.
  rewrite bind_seq_shift. apply bind_ext; intros r.
  by rewrite map_map, map_as_bind.
Qed.

(** What [gate_block] yields on a gate-stacked tensor. *)
Lemma run_gate_block {St Y} (W : ndarray A) k g h
    (cont : list F -> Fill St Y) (s : St) :
  gate_stacked k h W -> g < k ->
  (gate_block W g h ≫= cont) s = cont (gate_rows W g h) s.
Proof.
  intros (n0 & n1 & cols & Hshape) Hg.
  rewrite (gate_rows_unfold _ _ _ _ _ _ _ Hshape Hg).
  unfold gate_block, getitem. rewrite Hshape.
  cbn [getitem_shape Nat.ltb Nat.leb fmap option_fmap option_map mbind option_bind].
  rewrite !Nat.min_l by nia.
  replace ((g + 1) * h - g * h) with h by nia.
  rewrite run_bind. cbn [try ret mret Fill_ret mbind Fill_bind bind].
  f_equal. unfold floats, Numpy.flatten. cbn [shape item].
  rewrite map_map, map_indices_cons. apply bind_ext; intros r.
  rewrite map_indices_cons. apply bind_ext; intros c.
  reflexivity.
Qed.

Lemma run_ret' {St X Y} (x : X) (k : X -> Fill St Y) (s : St) :
  (ret x ≫= k) s = k x s.
Proof. reflexivity. Qed.

Lemma run_when_true {St Y} (body : Fill St unit) (k : unit -> Fill St Y) (s : St) :
  (when true body ≫= k) s = (body ≫= k) s.
Proof. reflexivity. Qed.

Lemma run_when_false {St Y} (body : Fill St unit) (k : unit -> Fill St Y) (s : St) :
  (when false body ≫= k) s = k tt s.
Proof. reflexivity. Qed.

Lemma run_assoc {St X Y Z} (m : Fill St X) (k1 : X -> Fill St Y) (k2 : Y -> Fill St Z) s :
  ((m ≫= k1) ≫= k2) s = (m ≫= (fun x => k1 x ≫= k2)) s.
Proof. rewrite !run_bind. by destruct (m s) as [[e|x] s']. Qed.

Lemma add_layer_Return {St} name input output (variant : St -> LayerParams (F := F)) init body b p :
  body init = (inr tt, p) ->
  add_layer name input output variant init body b
  = Return (with_layer {| layer_name := name;
                          layer_input := input;
                          layer_output := output;
                          layer_params := variant p |} b).
Proof. unfold add_layer. by intros ->. Qed.

(** A known activation name sets the activation message. *)
Lemma run_recurrent_activation (activation : string) :
  activation ∈ recurrent_activations ->
  ∃ act, ∀ St Y (k : ActivationParams (F := F) -> Fill St Y) (s : St),
    (_set_recurrent_activation activation ≫= k) s = k act s.
Proof.
  unfold recurrent_activations. intros Hact.
  repeat (apply elem_of_cons in Hact as [-> | Hact]); try (by eexists).
  by apply elem_of_nil in Hact.
Qed.

(** Slicing a bias or peephole argument that is there and has an axis
    succeeds, for every gate. *)
Lemma run_gate_vector (v : option (ndarray A)) h :
  is_Some v -> sliceable v ->
  ∃ vals : nat -> list F, ∀ g St Y (k : list F -> Fill St Y) (s : St),
    (gate_vector v g h ≫= k) s = k (vals g) s.
Proof.
  intros [a ->] Hshape. destruct a as [[|n rest] it]; [done|].
  eexists (fun g => _). intros g St Y k s. reflexivity.
Qed.

Lemma present_is_Some (v : option (ndarray A)) : present v = true -> is_Some v.
Proof. by destruct v. Qed.

(** Brings the recurrent message being filled back to a record of its
    fields. *)
Ltac norm_state :=
  cbn [
       set_gru_inputVectorSize set_gru_outputVectorSize set_gru_activations
       set_gru_sequenceOutput set_gru_hasBiasVectors
       set_gru_updateGateWeightMatrix set_gru_resetGateWeightMatrix
       set_gru_outputGateWeightMatrix set_gru_updateGateRecursionMatrix
       set_gru_resetGateRecursionMatrix set_gru_outputGateRecursionMatrix
       set_gru_updateGateBiasVector set_gru_resetGateBiasVector
       set_gru_outputGateBiasVector set_gru_reverseInput
       set_lstm_sequenceOutput set_lstm_hasBiasVectors set_lstm_forgetBias
       set_lstm_hasPeepholeVectors set_lstm_coupledInputAndForgetGate
       set_lstm_cellClipThreshold set_w_inputGateWeightMatrix
       set_w_forgetGateWeightMatrix set_w_blockInputWeightMatrix
       set_w_outputGateWeightMatrix set_w_inputGateRecursionMatrix
       set_w_forgetGateRecursionMatrix set_w_blockInputRecursionMatrix
       set_w_outputGateRecursionMatrix set_w_inputGateBiasVector
       set_w_forgetGateBiasVector set_w_blockInputBiasVector
       set_w_outputGateBiasVector set_w_inputGatePeepholeVector
       set_w_forgetGatePeepholeVector set_w_outputGatePeepholeVector
       set_uni_inputVectorSize set_uni_outputVectorSize set_uni_activations
       set_uni_params set_uni_weightParams set_uni_reverseInput
       set_bi_inputVectorSize set_bi_outputVectorSize
       set_bi_activationsForwardLSTM set_bi_activationsBackwardLSTM
       set_bi_params set_bi_weightParams gru_inputVectorSize
       gru_outputVectorSize gru_activations gru_sequenceOutput
       gru_hasBiasVectors gru_updateGateWeightMatrix
       gru_resetGateWeightMatrix gru_outputGateWeightMatrix
       gru_updateGateRecursionMatrix gru_resetGateRecursionMatrix
       gru_outputGateRecursionMatrix gru_updateGateBiasVector
       gru_resetGateBiasVector gru_outputGateBiasVector gru_reverseInput
       lstm_sequenceOutput lstm_hasBiasVectors lstm_forgetBias
       lstm_hasPeepholeVectors lstm_coupledInputAndForgetGate
       lstm_cellClipThreshold w_inputGateWeightMatrix
       w_forgetGateWeightMatrix w_blockInputWeightMatrix
       w_outputGateWeightMatrix w_inputGateRecursionMatrix
       w_forgetGateRecursionMatrix w_blockInputRecursionMatrix
       w_outputGateRecursionMatrix w_inputGateBiasVector
       w_forgetGateBiasVector w_blockInputBiasVector w_outputGateBiasVector
       w_inputGatePeepholeVector w_forgetGatePeepholeVector
       w_outputGatePeepholeVector uni_inputVectorSize uni_outputVectorSize
       uni_activations uni_params uni_weightParams uni_reverseInput
       bi_inputVectorSize bi_outputVectorSize bi_activationsForwardLSTM
       bi_activationsBackwardLSTM bi_params bi_weightParams gru_default
       uni_default bi_default lstm_default w_default app alter list_alter ].

(** Runs a recurrent layer's statements, given what its activations and
    vector slices yield; [k] is the number of gates. *)
Ltac run_recurrent k :=
  repeat
    (first
       [ rewrite run_modify | rewrite run_extend
       | rewrite run_ret | rewrite run_ret'
       | rewrite run_when_true | rewrite run_when_false
       | rewrite run_assoc
       | progress cbn [when]
       | rewrite (run_gate_block _ k) by (done || lia)
       | match goal with
         | Hrun : ∀ St Y cont s, (_set_recurrent_activation _ ≫= cont) s = _ |- _ =>
             rewrite Hrun
         | Hrun : ∀ g St Y cont s, (gate_vector _ g _ ≫= cont) s = _ |- _ =>
             rewrite Hrun
         end ];
     norm_state).

Section GateSlices.

Variables (name : string) (hidden_size input_size : nat).
Variables (input_names output_names : list string).
Variables (output_all reverse_input forget_bias coupled_input_forget_gate : bool).
Variable (cell_clip_threshold : A).
Variables (activation inner_activation : string).
Variables (cell_state_update_activation output_activation : string).
Variables (G_h G_x : ndarray A) (W_h W_x W_h_back W_x_back : ndarray A).
Variables (b b_back peep peep_back : option (ndarray A)).
Variable (doc : Builder (F := F)).

Hypothesis GRU_stacked : gate_stacked 3 hidden_size G_x ∧ gate_stacked 3 hidden_size G_h.
Hypothesis LSTM_stacked :
  gate_stacked 4 hidden_size W_x ∧ gate_stacked 4 hidden_size W_h.
Hypothesis LSTM_back_stacked :
  gate_stacked 4 hidden_size W_x_back ∧ gate_stacked 4 hidden_size W_h_back.
Hypothesis activations_known :
  Forall (fun a => a ∈ recurrent_activations)
    [activation; inner_activation; cell_state_update_activation; output_activation].
Hypothesis vectors_sliceable :
  sliceable b ∧ sliceable b_back ∧ sliceable peep ∧ sliceable peep_back.
Hypothesis b_back_given : present b = true -> is_Some b_back.

(** C2: for a hidden size [h] and weight tensors whose gate-stacked axis
    has length [3 * h] ([add_gru]) or [4 * h] ([add_unilstm],
    [add_bidirlstm], forward and backward), the call returns and the
    block written for the gate with index [g] is rows [g*h:(g+1)*h] of
    the source tensor, in the order update, reset, output for the GRU and
    input, forget, output, block input for the LSTM weights. *)
Theorem gate_blocks_are_row_slices :
  (∃ p, add_gru name G_h G_x b activation inner_activation hidden_size input_size
          input_names output_names output_all reverse_input doc
        = Return (with_layer {| layer_name := name;
                                layer_input := input_names;
                                layer_output := output_names;
                                layer_params := gru p |} doc)
        ∧ gru_gate_order p G_x G_h hidden_size)
  ∧ (∃ p, add_unilstm name hidden_size input_size input_names output_names W_h W_x
            inner_activation cell_state_update_activation output_activation
            b peep output_all forget_bias coupled_input_forget_gate
            cell_clip_threshold reverse_input doc
          = Return (with_layer {| layer_name := name;
                                  layer_input := input_names;
                                  layer_output := output_names;
                                  layer_params := uniDirectionalLSTM p |} doc)
          ∧ lstm_gate_order (uni_weightParams p) W_x W_h hidden_size)
  ∧ (∃ p forward backward,
          add_bidirlstm name hidden_size input_size input_names output_names
            W_h W_x W_h_back W_x_back
            inner_activation cell_state_update_activation output_activation
            b b_back peep peep_back output_all forget_bias
            coupled_input_forget_gate cell_clip_threshold doc
          = Return (with_layer {| layer_name := name;
                                  layer_input := input_names;
                                  layer_output := output_names;
                                  layer_params := biDirectionalLSTM p |} doc)
          ∧ bi_weightParams p = [forward; backward]
          ∧ lstm_gate_order forward W_x W_h hidden_size
          ∧ lstm_gate_order backward W_x_back W_h_back hidden_size).
Proof.
  destruct GRU_stacked as [HGx HGh], LSTM_stacked as [Hx Hh],
    LSTM_back_stacked as [Hxb Hhb].
  destruct vectors_sliceable as (Hb & Hbb & Hp & Hpb).
  pose proof activations_known as Hact.
  apply Forall_cons in Hact as [Ha Hact]. apply Forall_cons in Hact as [Hi Hact].
  apply Forall_cons in Hact as [Hc Hact]. apply Forall_cons in Hact as [Ho _].
  destruct (run_recurrent_activation _ Ha) as [act_a Hact_a].
  destruct (run_recurrent_activation _ Hi) as [act_i Hact_i].
  destruct (run_recurrent_activation _ Hc) as [act_c Hact_c].
  destruct (run_recurrent_activation _ Ho) as [act_o Hact_o].
  assert (present b = true -> ∃ vals : nat -> list F, ∀ g St Y (k : list F -> Fill St Y) s,
            (gate_vector b g hidden_size ≫= k) s = k (vals g) s) as Hrun_b.
  { intros Hpr. apply run_gate_vector; [by apply present_is_Some | done]. }
  assert (present peep = true -> ∃ vals : nat -> list F, ∀ g St Y (k : list F -> Fill St Y) s,
            (gate_vector peep g hidden_size ≫= k) s = k (vals g) s) as Hrun_p.
  { intros Hpr. apply run_gate_vector; [by apply present_is_Some | done]. }
  assert (present peep_back = true -> ∃ vals : nat -> list F, ∀ g St Y (k : list F -> Fill St Y) s,
            (gate_vector peep_back g hidden_size ≫= k) s = k (vals g) s) as Hrun_pb.
  { intros Hpr. apply run_gate_vector; [by apply present_is_Some | done]. }
  assert (present b = true -> ∃ vals : nat -> list F, ∀ g St Y (k : list F -> Fill St Y) s,
            (gate_vector b_back g hidden_size ≫= k) s = k (vals g) s) as Hrun_bb.
  { intros Hpr. apply run_gate_vector; [by apply b_back_given | done]. }
  split_and!.
  - unfold add_gru, if_present.
    destruct (present b); [destruct Hrun_b as [vals Hvals]; [done|] |];
      (eexists; split;
       [ apply add_layer_Return; run_recurrent 3; reflexivity
       | by repeat split ]).
  - unfold add_unilstm, if_present, write_lstm_activations, write_lstm_matrices,
      write_lstm_bias, write_lstm_peephole.
    destruct (present b); [destruct Hrun_b as [vals Hvals]; [done|] |];
      (destruct (present peep); [destruct Hrun_p as [pvals Hpvals]; [done|] |]);
      (eexists; split;
       [ apply add_layer_Return; run_recurrent 4; reflexivity
       | by repeat split ]).
  - unfold add_bidirlstm, if_present, write_lstm_activations, write_lstm_matrices,
      write_lstm_bias, write_lstm_peephole.
    destruct (present b);
      [destruct Hrun_b as [vals Hvals]; [done|];
       destruct Hrun_bb as [bvals Hbvals]; [done|] |];
      (destruct (present peep); [destruct Hrun_p as [pvals Hpvals]; [done|] |]);
      (destruct (present peep_back); [destruct Hrun_pb as [qvals Hqvals]; [done|] |]);
      (eexists _, _, _; split;
       [ apply add_layer_Return; run_recurrent 4; reflexivity
       | by repeat split ]).
Qed.

End GateSlices.

(** *** Every call that returns has made its layer *)

Lemma ends_in_bind {St X Y} (P : St -> Prop) (m : Fill St X) (k : X -> Fill St Y) :
  (∀ x, ends_in P (k x)) -> ends_in P (m ≫= k).
Proof.
  intros Hk s y s'. rewrite run_bind.
  destruct (m s) as [[e|x] s1]; [done|]. apply Hk.
Qed.

Lemma ends_in_modify {St} (P : St -> Prop) (f : St -> St) :
  (∀ s, P (f s)) -> ends_in P (modify f).
Proof. intros Hf s x s' [= _ <-]. apply Hf. Qed.

Lemma ends_in_raise {St X} (P : St -> Prop) e : ends_in P (raise (X := X) e).
Proof. by intros s x s'. Qed.

Lemma add_layer_inv {St} name input output (variant : St -> LayerParams (F := F)) init body b b' :
  add_layer name input output variant init body b = Return b' ->
  ∃ p, body init = (inr tt, p)
       ∧ b' = with_layer {| layer_name := name;
                            layer_input := input;
                            layer_output := output;
                            layer_params := variant p |} b.
Proof.
  unfold add_layer. destruct (body init) as [[e|[]] p]; [done|].
  intros [= <-]. by eexists.
Qed.

Ltac ends_in_steps :=
  repeat first
    [ apply ends_in_raise
    | apply ends_in_modify; by intros
    | apply ends_in_bind; intros
    | case_match ].

(** From a run that got to its end to what holds there. *)
Ltac at_end P Hrun :=
  match type of Hrun with
  | ?m _ = (inr _, _) =>
      let Hends := fresh "Hends" in
      assert (ends_in P m) as Hends; [| exact (Hends _ _ _ Hrun)]
  end.

Lemma add_elementwise_variant (mode : string) :
  ends_in (fun p : LayerParams (F := F) =>
             is_Some (WhichOneof p) ∧ WhichOneof p = elementwise_variant mode)
    (if String.eqb mode "CONCAT" then modify (fun _ => concat_ false)
     else if String.eqb mode "SEQUENCE_CONCAT" then modify (fun _ => concat_ true)
     else if String.eqb mode "ADD" then modify (fun _ => add)
     else if String.eqb mode "MULTIPLY" then modify (fun _ => multiply)
     else if String.eqb mode "COS" then modify (fun _ => dot true)
     else if String.eqb mode "DOT" then modify (fun _ => dot false)
     else if String.eqb mode "MAX" then modify (fun _ => max)
     else if String.eqb mode "AVE" then modify (fun _ => average)
     else raise ValueError).
Proof.
  repeat (match goal with
          | |- context [String.eqb mode ?m] =>
              destruct (String.eqb_spec mode m) as [-> | _];
              [apply ends_in_modify; by intros |]
          end).
  apply ends_in_raise.
Qed.

(** A call that returns has appended the layer of its operation, and
    [add_dropout] has appended nothing. *)
Lemma run_call_Return (c : Call (A := A)) (b b' : Builder (F := F)) :
  run_call c b = Return b' ->
  if is_add_dropout c then b' = b
  else ∃ l, b' = with_layer l b ∧ made_by c l.
Proof.
  destruct c; cbn [run_call is_add_dropout]; intros Hcall;
    try (apply add_layer_inv in Hcall as (p & Hrun & ->);
         eexists; split; [reflexivity|];
         unfold made_by; cbn [layer_name layer_params call_name variant_of_call];
         split; [reflexivity|]).
  all: try (by split).
  all: try (match goal with
            | |- _ ∧ _ = ?v =>
                at_end (fun p : LayerParams (F := F) =>
                          is_Some (WhichOneof (id p)) ∧ WhichOneof (id p) = v) Hrun
            end;
            first [ apply add_elementwise_variant | ends_in_steps ]; fail).
  by injection Hcall.
Qed.

(** What a run of calls that all return leaves in the layer list. *)
Lemma run_calls_Return (calls : list (Call (A := A))) : ∀ (b b' : Builder (F := F)),
  run_calls calls b = Return b' ->
  ∃ new, layers b' = layers b ++ new
         ∧ Forall2 made_by (List.filter (fun c => negb (is_add_dropout c)) calls) new.
Proof.
  induction calls as [|c rest IH]; intros b b' Hrun; simpl in Hrun.
  - injection Hrun as <-. exists []. by rewrite app_nil_r.
  - destruct (run_call c b) as [b1|] eqn:Hcall; [|done].
    apply run_call_Return in Hcall.
    destruct (IH _ _ Hrun) as (new & Hnew & Hmade).
    simpl. destruct (is_add_dropout c); simpl.
    + subst b1. by exists new.
    + destruct Hcall as (l & -> & Hl).
      exists (l :: new). split.
      * by rewrite Hnew, layers_with_layer, <- app_assoc.
      * by constructor.
Qed.

(** C8 (amended): for every sequence of layer factory calls that all
    return without error, the layer list is the list before the calls
    followed by one layer for each call other than [add_dropout], which
    appends nothing; these layers are in call order, and each has the
    name given to its call and exactly one populated parameter variant,
    the one of the operation that created it.  On a document that had no
    layers the list has as many layers as there were calls other than
    [add_dropout]. *)
Theorem layers_after_calls (calls : list (Call (A := A))) (b b' : Builder (F := F)) :
  run_calls calls b = Return b' ->
  ∃ new, layers b' = layers b ++ new
         ∧ Forall2 made_by (List.filter (fun c => negb (is_add_dropout c)) calls) new
         ∧ (layers b = [] ->
            length (layers b')
            = length calls - length (List.filter is_add_dropout calls)).
Proof.
  intros Hrun. destruct (run_calls_Return _ _ _ Hrun) as (new & Hnew & Hmade).
  exists new. split_and!; [done | done |].
  intros Hempty. rewrite Hnew, Hempty. simpl.
  rewrite <- (Forall2_length _ _ _ Hmade).
  clear. induction calls as [|c rest IH]; [done|].
  simpl. destruct (is_add_dropout c); simpl; [|rewrite IH].
  - rewrite IH. pose proof (List.filter_length_le is_add_dropout rest).
    pose proof (List.filter_length_le (fun c => negb (is_add_dropout c)) rest). lia.
  - pose proof (List.filter_length_le is_add_dropout rest). lia.
Qed.

(** *** Bias and peephole vectors *)

Lemma slice_split {X} (l : list X) (i j k : nat) :
  i <= j -> j <= k -> slice l i j ++ slice l j k = slice l i k.
Proof.
  intros Hij Hjk. unfold slice.
  replace (drop j l) with (drop (j - i) (drop i l))
    by (rewrite drop_drop; f_equal; lia).
  rewrite take_take_drop. f_equal. lia.
Qed.

Lemma slice_all {X} (l : list X) n : n = length l -> slice l 0 n = l.
Proof. intros ->. unfold slice. by rewrite drop_0, Nat.sub_0_r, firstn_all. Qed.

Lemma length_flatten_vector (a : ndarray A) n :
  shape a = [n] -> length (Numpy.flatten a) = n.
Proof.
  intros Hshape. unfold Numpy.flatten.
  rewrite length_map, length_indices, Hshape. simpl. lia.
Qed.

(** The blocks of a vector for [k] gates, one after the other, are the
    vector. *)
Lemma vector_blocks_3 (a : ndarray A) h :
  shape a = [3 * h] ->
  vector_block a 0 h ++ vector_block a 1 h ++ vector_block a 2 h = floats a.
Proof.
  intros Hshape. unfold vector_block, floats.
  rewrite <- !map_app, !slice_split by lia.
  by rewrite slice_all by (rewrite (length_flatten_vector _ _ Hshape); lia).
Qed.

Lemma vector_blocks_4 (a : ndarray A) h :
  shape a = [4 * h] ->
  vector_block a 0 h ++ vector_block a 1 h ++ vector_block a 2 h
  ++ vector_block a 3 h = floats a.
Proof.
  intros Hshape. unfold vector_block, floats.
  rewrite <- !map_app, !slice_split by lia.
  by rewrite slice_all by (rewrite (length_flatten_vector _ _ Hshape); lia).
Qed.

Lemma map_indices_1 {Y} (f : list nat -> Y) n :
  map f (indices [n]) = map (fun i => f [i]) (seq 0 n).
Proof. rewrite map_indices_cons. simpl. by rewrite <- map_as_bind. Qed.

Lemma map_seq_shift {Y} (f : nat -> Y) i n :
  map f (seq i n) = map (fun r => f (i + r)) (seq 0 n).
Proof.
  rewrite <- (Nat.add_0_r i) at 1. rewrite <- fmap_add_seq.
  change (map f (Nat.add i <$> seq 0 n)) with (f <$> (Nat.add i <$> seq 0 n)).
  by rewrite <- list_fmap_compose.
Qed.

(** What [gate_vector] yields on a vector for [k] gates. *)
Lemma run_gate_vector_block {St Y} (a : ndarray A) k g h
    (cont : list F -> Fill St Y) (s : St) :
  shape a = [k * h] -> g < k ->
  (gate_vector (Some a) g h ≫= cont) s = cont (vector_block a g h) s.
Proof.
  intros Hshape Hg. unfold gate_vector, getitem. rewrite run_assoc, run_try_Some.
  rewrite Hshape.
  cbn [getitem_shape fmap option_fmap option_map mbind option_bind].
  rewrite !Nat.min_l by nia.
  replace ((g + 1) * h - g * h) with h by nia.
  rewrite run_assoc, run_try_Some, run_ret'.
  f_equal. unfold vector_block, floats, Numpy.flatten, slice. rewrite Hshape.
  cbn [shape item]. f_equal.
  rewrite !map_indices_1, drop_map_seq, firstn_map, take_seq.
  rewrite Nat.min_l by nia.
  replace ((g + 1) * h - g * h) with h by nia.
  by rewrite (map_seq_shift _ (g * h)).
Qed.

Lemma present_true (v : option (ndarray A)) :
  present v = true -> ∃ a, v = Some a ∧ stored_vector v = floats a.
Proof.
  destruct v as [a|]; [|done]. simpl. intros ->. by exists a.
Qed.

Lemma present_false (v : option (ndarray A)) :
  present v = false -> stored_vector v = [].
Proof. destruct v as [a|]; [|done]. simpl. by intros ->. Qed.

(** Splits on whether a vector argument is written, naming the array when
    it is. *)
Ltac case_present v :=
  let Hpresent := fresh "Hpresent" in
  let Hstored := fresh "Hstored" in
  destruct (present v) eqn:Hpresent;
  [ let a := fresh "a" in
    destruct (present_true _ Hpresent) as (a & -> & Hstored)
  | pose proof (present_false _ Hpresent) as Hstored ];
  rewrite Hstored; clear Hstored.

(** As [run_recurrent], with the vector slices computed. *)
Ltac run_recurrent_exact k :=
  repeat
    (first
       [ rewrite run_modify | rewrite run_extend
       | rewrite run_ret | rewrite run_ret' | rewrite run_try_Some
       | rewrite run_when_true | rewrite run_when_false
       | rewrite run_assoc
       | progress cbn [when]
       | rewrite (run_gate_block _ k) by (done || lia)
       | rewrite (run_gate_vector_block _ 4) by (done || lia)
       | rewrite (run_gate_vector_block _ 3) by (done || lia)
       | match goal with
         | Hrun : ∀ St Y cont s, (_set_recurrent_activation _ ≫= cont) s = _ |- _ =>
             rewrite Hrun
         end ];
     norm_state).

(** X26: [add_vanilla_rnn] leaves an absent or all-zero bias out, flag
    and values, and stores any other bias as it is. *)
Lemma add_vanilla_rnn_bias (name : string) (W_h W_x : ndarray A)
    (bias : option (ndarray A)) (activation : string) (hidden_size input_size : nat)
    (input_names output_names : list string) (output_all reverse_input : bool) doc :
  activation ∈ recurrent_activations ->
  ∃ p, add_vanilla_rnn name W_h W_x bias activation hidden_size input_size
         input_names output_names output_all reverse_input doc
       = Return (with_layer {| layer_name := name;
                               layer_input := input_names;
                               layer_output := output_names;
                               layer_params := simpleRecurrent p |} doc)
       ∧ rnn_hasBiasVector p = present bias
       ∧ rnn_biasVector p = stored_vector bias.
Proof.
  intros Hact. destruct (run_recurrent_activation _ Hact) as [act Hrun].
  unfold add_vanilla_rnn, if_present.
  destruct bias as [a|]; [destruct (any a) eqn:Hany|];
    cbn [present stored_vector]; rewrite ?Hany;
    (eexists; split;
     [ apply add_layer_Return;
       repeat first [ rewrite run_modify | rewrite run_extend | rewrite run_when_true
                    | rewrite run_when_false | rewrite run_assoc | rewrite run_try_Some
                    | rewrite Hrun | progress cbn [when] ];
       reflexivity
     | by split ]).
Qed.

(** X27: [add_gru] does the same with a bias for its three gates: an
    absent or all-zero bias leaves the flag and the three vectors unset,
    any other bias is stored in three blocks that make up the vector. *)
Lemma add_gru_bias (name : string) (W_h W_x : ndarray A) (bias : option (ndarray A))
    (activation inner_activation : string) (hidden_size input_size : nat)
    (input_names output_names : list string) (output_all reverse_input : bool) doc :
  gate_stacked 3 hidden_size W_x -> gate_stacked 3 hidden_size W_h ->
  activation ∈ recurrent_activations -> inner_activation ∈ recurrent_activations ->
  gate_vector_shaped 3 hidden_size bias ->
  ∃ p, add_gru name W_h W_x bias activation inner_activation hidden_size input_size
         input_names output_names output_all reverse_input doc
       = Return (with_layer {| layer_name := name;
                               layer_input := input_names;
                               layer_output := output_names;
                               layer_params := gru p |} doc)
       ∧ gru_hasBiasVectors p = present bias
       ∧ gru_updateGateBiasVector p ++ gru_resetGateBiasVector p
         ++ gru_outputGateBiasVector p = stored_vector bias.
Proof.
  intros Hx Hh Hact Hinner Hbias.
  destruct (run_recurrent_activation _ Hact) as [act_g Hg].
  destruct (run_recurrent_activation _ Hinner) as [act_f Hf].
  unfold add_gru, if_present.
  destruct bias as [a|]; [destruct (any a) eqn:Hany|];
    cbn [present stored_vector gate_vector_shaped] in *; rewrite ?Hany;
    (eexists; split;
     [ apply add_layer_Return; run_recurrent_exact 3; reflexivity
     | split; [done|]; norm_state; by rewrite ?vector_blocks_3 ]).
Qed.

(** X28: [add_unilstm] does the same with its bias and its peephole
    vector, each tested on its own. *)
Lemma add_unilstm_bias_peephole (name : string) (hidden_size input_size : nat)
    (input_names output_names : list string) (W_h W_x : ndarray A)
    (inner_activation cell_state_update_activation output_activation : string)
    (bias peep : option (ndarray A))
    (output_all forget_bias coupled_input_forget_gate : bool)
    (cell_clip_threshold : A) (reverse_input : bool) doc :
  gate_stacked 4 hidden_size W_x -> gate_stacked 4 hidden_size W_h ->
  Forall (fun a => a ∈ recurrent_activations)
    [inner_activation; cell_state_update_activation; output_activation] ->
  gate_vector_shaped 4 hidden_size bias -> gate_vector_shaped 3 hidden_size peep ->
  ∃ p, add_unilstm name hidden_size input_size input_names output_names W_h W_x
         inner_activation cell_state_update_activation output_activation
         bias peep output_all forget_bias coupled_input_forget_gate
         cell_clip_threshold reverse_input doc
       = Return (with_layer {| layer_name := name;
                               layer_input := input_names;
                               layer_output := output_names;
                               layer_params := uniDirectionalLSTM p |} doc)
       ∧ lstm_hasBiasVectors (uni_params p) = present bias
       ∧ lstm_hasPeepholeVectors (uni_params p) = present peep
       ∧ lstm_bias_vectors (uni_weightParams p) = stored_vector bias
       ∧ lstm_peephole_vectors (uni_weightParams p) = stored_vector peep.
Proof.
  intros Hx Hh Hact Hbias Hpeep.
  apply Forall_cons in Hact as [Hi Hact]. apply Forall_cons in Hact as [Hc Hact].
  apply Forall_cons in Hact as [Ho _].
  destruct (run_recurrent_activation _ Hi) as [act_i Hact_i].
  destruct (run_recurrent_activation _ Hc) as [act_c Hact_c].
  destruct (run_recurrent_activation _ Ho) as [act_o Hact_o].
  unfold add_unilstm, if_present, write_lstm_activations, write_lstm_matrices,
    write_lstm_bias, write_lstm_peephole, lstm_bias_vectors, lstm_peephole_vectors.
  case_present bias; case_present peep; cbn [gate_vector_shaped] in *;
    (eexists; split;
     [ apply add_layer_Return; run_recurrent_exact 4; reflexivity
     | norm_state; rewrite ?vector_blocks_4, ?vector_blocks_3 by done;
       by split_and! ]).
Qed.


(** *** Image preprocessing *)

Lemma as_image_ready image_input_names is_bgr input_ :
  image_ready image_input_names input_ ->
  is_in (feature_name input_) image_input_names = true ->
  ∃ image, as_image is_bgr input_ = Some image
           ∧ image_input image_input_names is_bgr input_ image.
Proof.
  intros Hready Hin. specialize (Hready Hin).
  unfold as_image, image_input.
  destruct input_ as [name type_]; simpl in *. rewrite Hin.
  destruct type_ as [| | | | | array_shape dataType |];
    try (by eexists).
  destruct (Hready _ _ eq_refl) as (channels & height & width & -> & [-> | ->]);
    by eexists.
Qed.

Lemma image_input_not_named image_input_names is_bgr input_ :
  is_in (feature_name input_) image_input_names = false ->
  image_input image_input_names is_bgr input_ input_.
Proof.
  intros Hin. unfold image_input. rewrite Hin. split; [done|].
  by destruct (feature_type input_) as [| | | | | [|? [|? [|? [|]]]] ? |].
Qed.



Lemma as_image_name is_bgr input_ image :
  as_image is_bgr input_ = Some image -> feature_name image = feature_name input_.
Proof.
  unfold as_image. intros Himage.
  destruct (feature_type input_) as [| | | | | [|c [|h [|w [|]]]] ? |];
    repeat case_match; by simplify_eq.
Qed.

Lemma add_image_inputs_names image_input_names is_bgr inputs :
  feature_name <$> (add_image_inputs image_input_names is_bgr inputs).2
  = feature_name <$> inputs.
Proof.
  induction inputs as [|input_ rest IH]; [done|]. simpl.
  destruct (add_image_inputs image_input_names is_bgr rest) as [ok rest'].
  cbn [snd] in IH.
  destruct (is_in (feature_name input_) image_input_names);
    [|cbn [snd]; rewrite !fmap_cons; by f_equal].
  destruct (as_image is_bgr input_) as [image|] eqn:Himage; [|done].
  apply as_image_name in Himage. cbn [snd]. rewrite !fmap_cons. by f_equal.
Qed.

(** X2: whatever its arguments and however it ends,
    [set_pre_processing_parameters] keeps the number, the order and the
    names of the inputs, leaves the outputs, the layers, the class labels
    and the predicted names alone, and appends at most one preprocessing
    entry. *)
Theorem set_pre_processing_parameters_frame (image_input_names : list string)
    (is_bgr : bool) (red_bias green_bias blue_bias gray_bias image_scale : A)
    (n : Network (F := F)) :
  let n' := network_of (set_pre_processing_parameters image_input_names is_bgr
                          red_bias green_bias blue_bias gray_bias image_scale n) in
  feature_name <$> description_input (document n')
  = feature_name <$> description_input (document n)
  ∧ set_description_input (description_input (document n)) (document n') = document n
  ∧ ∃ added, preprocessing n' = preprocessing n ++ added ∧ length added <= 1.
Proof.
  unfold set_pre_processing_parameters.
  destruct image_input_names as [|name names]; cbn [network_of].
  - split; [done|]. split; [apply set_description_input_id|].
    exists []. rewrite app_nil_r. split; [done | simpl; lia].
  - pose proof (add_image_inputs_names (name :: names) is_bgr
                  (description_input (document n))) as Hnames.
    destruct (add_image_inputs (name :: names) is_bgr (description_input (document n)))
      as [[|] inputs']; cbn [snd network_of document preprocessing] in *;
      (split; [by rewrite description_input_set|]);
      (split; [by rewrite set_description_input_twice, set_description_input_id|]);
      (eexists; split; [reflexivity | simpl; lia]).
Qed.

Lemma add_image_inputs_stops image_input_names is_bgr good bad rest :
  Forall (image_ready image_input_names) good ->
  is_in (feature_name bad) image_input_names = true ->
  as_image is_bgr bad = None ->
  ∃ good', add_image_inputs image_input_names is_bgr (good ++ bad :: rest)
           = (false, good' ++ bad :: rest)
           ∧ Forall2 (image_input image_input_names is_bgr) good good'.
Proof.
  intros Hgood Hin Hbad.
  induction Hgood as [|input_ good Hready _ (good' & Hrun & Himages)]; simpl.
  - exists []. by rewrite Hin, Hbad.
  - rewrite Hrun.
    destruct (is_in (feature_name input_) image_input_names) eqn:Hnamed.
    + destruct (as_image_ready _ is_bgr _ Hready Hnamed) as (image & -> & Himage).
      exists (image :: good'). split; [done|]. by constructor.
    + exists (input_ :: good'). split; [done|]. constructor; [|done].
      by apply image_input_not_named.
Qed.

(** X3: when a named input is an array whose shape is not (1, height,
    width) or (3, height, width), [set_pre_processing_parameters] raises
    ValueError; by then an empty preprocessing entry is appended and the
    inputs before that one are converted, while that input and those
    after it are as they were. *)
Theorem set_pre_processing_parameters_bad_shape (image_input_names : list string)
    (is_bgr : bool) (red_bias green_bias blue_bias gray_bias image_scale : A)
    (n : Network (F := F)) (good rest : list FeatureDescription)
    (bad : FeatureDescription) (array_shape : list Z) (dataType : ArrayDataType) :
  description_input (document n) = good ++ bad :: rest ->
  Forall (image_ready image_input_names) good ->
  is_in (feature_name bad) image_input_names = true ->
  feature_type bad = multiArrayType array_shape dataType ->
  (∀ height width, array_shape ≠ [1; height; width]%Z
                   ∧ array_shape ≠ [3; height; width]%Z) ->
  ∃ good',
    set_pre_processing_parameters image_input_names is_bgr red_bias green_bias
      blue_bias gray_bias image_scale n
    = Raised ValueError
        {| document := set_description_input (good' ++ bad :: rest) (document n);
           preprocessing := preprocessing n ++ [PreprocessorUnset] |}
    ∧ Forall2 (image_input image_input_names is_bgr) good good'.
Proof.
  intros Hinputs Hgood Hin Htype Hshape.
  assert (as_image is_bgr bad = None) as Hbad.
  { unfold as_image. rewrite Htype.
    destruct array_shape as [|c [|h [|w [|]]]]; try done.
    destruct (Z.eqb_spec c 1) as [-> | _]; [by destruct (Hshape h w)|].
    destruct (Z.eqb_spec c 3) as [-> | _]; [by destruct (Hshape h w)|]. done. }
  destruct (add_image_inputs_stops _ is_bgr _ _ rest Hgood Hin Hbad)
    as (good' & Hrun & Himages).
  exists good'. split; [|done].
  unfold set_pre_processing_parameters.
  destruct image_input_names as [|name names]; [done|].
  by rewrite Hinputs, Hrun.
Qed.




(** *** The interface, beyond the shapes of one call *)

Lemma write_shapes_nil_features (shapes : list (list Z)) : write_shapes shapes [] = [].
Proof. by destruct shapes. Qed.

Lemma write_shapes_names shapes (features : list FeatureDescription) :
  feature_name <$> write_shapes shapes features = feature_name <$> features.
Proof.
  revert features. induction shapes as [|shp shapes IH]; intros [|f features];
    try done.
  cbn [write_shapes]. by rewrite !fmap_cons, IH.
Qed.

Lemma write_shapes_again shapes1 shapes2 (features : list FeatureDescription) :
  length shapes1 <= length shapes2 ->
  write_shapes shapes2 (write_shapes shapes1 features) = write_shapes shapes2 features.
Proof.
  revert shapes2 features.
  induction shapes1 as [|shp1 shapes1 IH]; intros shapes2 features Hlen; [done|].
  destruct shapes2 as [|shp2 shapes2]; [simpl in Hlen; lia|].
  destruct features as [|f features]; [done|].
  simpl in *. f_equal. apply IH. lia.
Qed.

(** The loop of [set_output], however many shapes it is given. *)
Lemma set_output_from_any output_dims : ∀ idx b,
  idx <= length (description_output b) ->
  set_output_from idx output_dims b
  = (if decide (idx + length output_dims <= length (description_output b))
     then Return else Raise IndexError)
      (set_description_output
         (take idx (description_output b)
          ++ write_shapes output_dims (drop idx (description_output b))) b).
Proof.
  induction output_dims as [|dim rest IH]; intros idx b Hidx; simpl.
  - rewrite decide_True by lia.
    destruct (drop idx (description_output b)) eqn:Hd;
      rewrite <- Hd, take_drop; by rewrite set_description_output_id.
  - destruct (description_output b !! idx) as [f|] eqn:Hf.
    + assert (idx < length (description_output b)) by (by eapply lookup_lt_Some).
      rewrite IH by (rewrite description_output_set, length_insert; lia).
      rewrite description_output_set, set_description_output_twice, length_insert.
      rewrite (write_shapes_step _ _ _ _ _ Hf).
      by repeat case_decide; try lia.
    + apply lookup_ge_None in Hf.
      rewrite decide_False by lia.
      rewrite drop_ge, take_ge by lia. simpl.
      by rewrite app_nil_r, set_description_output_id.
Qed.

(** The loop of [set_input] on shapes of supported rank. *)
Lemma set_input_from_any input_dims : ∀ idx b,
  Forall supported_rank input_dims ->
  idx <= length (description_input b) ->
  set_input_from idx input_dims b
  = (if decide (idx + length input_dims <= length (description_input b))
     then Return else Raise IndexError)
      (set_description_input
         (take idx (description_input b)
          ++ write_shapes (map normalize_shape input_dims)
               (drop idx (description_input b))) b).
Proof.
  induction input_dims as [|dim rest IH]; intros idx b Hrank Hidx; simpl.
  - rewrite decide_True by lia.
    destruct (drop idx (description_input b)) eqn:Hd;
      rewrite <- Hd, take_drop; by rewrite set_description_input_id.
  - apply Forall_cons in Hrank as [Hdim Hrest].
    rewrite (input_shape_supported _ Hdim).
    destruct (description_input b !! idx) as [f|] eqn:Hf.
    + assert (idx < length (description_input b)) by (by eapply lookup_lt_Some).
      rewrite IH by (done || rewrite description_input_set, length_insert; lia).
      rewrite description_input_set, set_description_input_twice, length_insert.
      rewrite (write_shapes_step _ _ _ _ _ Hf).
      by repeat case_decide; try lia.
    + apply lookup_ge_None in Hf.
      rewrite decide_False by lia.
      rewrite drop_ge, take_ge by lia. simpl.
      by rewrite app_nil_r, set_description_input_id.
Qed.

(** X5: given more shapes than the interface has slots, [set_output]
    raises IndexError, and so does [set_input] when the shapes have
    supported ranks; by then every slot has been written with the shape at
    its position. *)
Theorem set_input_set_output_too_many_shapes
    (names : list string) (dims : list (list Z)) (b : Builder (F := F)) :
  (length (description_output b) < length dims ->
   set_output names dims b
   = Raise IndexError
       (set_description_output (write_shapes dims (description_output b)) b))
  ∧ (length (description_input b) < length dims -> Forall supported_rank dims ->
     set_input names dims b
     = Raise IndexError
         (set_description_input
            (write_shapes (map normalize_shape dims) (description_input b)) b)).
Proof.
  unfold set_input, set_output. split.
  - intros Hlen. rewrite set_output_from_any by lia.
    by rewrite decide_False by (simpl; lia).
  - intros Hlen Hrank. rewrite set_input_from_any by (done || lia).
    by rewrite decide_False by (simpl; lia).
Qed.

Lemma set_input_from_stops good bad rest : ∀ idx b,
  Forall supported_rank good -> ¬ supported_rank bad ->
  idx + length good <= length (description_input b) ->
  set_input_from idx (good ++ bad :: rest) b
  = Raise RuntimeError
      (set_description_input
         (take idx (description_input b)
          ++ write_shapes (map normalize_shape good)
               (drop idx (description_input b))) b).
Proof.
  induction good as [|dim good IH]; intros idx b Hgood Hbad Hlen; simpl in *.
  - rewrite (input_shape_unsupported _ Hbad).
    destruct (drop idx (description_input b)) eqn:Hd;
      rewrite <- Hd, take_drop; by rewrite set_description_input_id.
  - apply Forall_cons in Hgood as [Hdim Hgood].
    rewrite (input_shape_supported _ Hdim).
    destruct (lookup_lt_is_Some_2 (description_input b) idx) as [f Hf]; [lia|].
    rewrite Hf, IH; [| done | done | rewrite description_input_set, length_insert; lia].
    rewrite description_input_set, set_description_input_twice.
    by rewrite (write_shapes_step _ _ _ _ _ Hf).
Qed.

(** X6: [set_input] stops at the first shape of unsupported rank with
    RuntimeError: the slots before it hold their new shapes, the slot at
    its position and the slots after it are as they were, and the shapes
    that follow it are never looked at. *)
Theorem set_input_stops_at_unsupported_rank (names : list string)
    (good rest : list (list Z)) (bad : list Z) (b : Builder (F := F)) :
  Forall supported_rank good -> ¬ supported_rank bad ->
  length good <= length (description_input b) ->
  set_input names (good ++ bad :: rest) b
  = Raise RuntimeError
      (set_description_input
         (write_shapes (map normalize_shape good) (description_input b)) b).
Proof.
  intros Hgood Hbad Hlen. unfold set_input.
  by rewrite set_input_from_stops.
Qed.

(** X7: the last write wins.  A call of [set_input] after another one,
    with at least as many shapes (of supported rank, and no more than
    there are slots), leaves the document that this call alone leaves;
    the same holds of [set_output]. *)
Theorem set_input_set_output_last_write_wins
    (names1 names2 : list string) (dims1 dims2 : list (list Z)) (b : Builder (F := F)) :
  length dims1 <= length dims2 ->
  (Forall supported_rank dims1 -> Forall supported_rank dims2 ->
   length dims2 <= length (description_input b) ->
   ∃ b1, set_input names1 dims1 b = Return b1
         ∧ set_input names2 dims2 b1 = set_input names2 dims2 b)
  ∧ (length dims2 <= length (description_output b) ->
     ∃ b1, set_output names1 dims1 b = Return b1
           ∧ set_output names2 dims2 b1 = set_output names2 dims2 b).
Proof.
  intros Hlen. unfold set_input, set_output. split.
  - intros Hrank1 Hrank2 Hslots.
    exists (set_description_input
              (write_shapes (map normalize_shape dims1) (description_input b)) b).
    split.
    + by rewrite set_input_from_supported by (done || lia).
    + assert (length (write_shapes (map normalize_shape dims1) (description_input b))
              = length (description_input b)) as Hsame.
      { rewrite <- (length_fmap feature_name), write_shapes_names.
        by rewrite length_fmap. }
      rewrite (set_input_from_supported dims2 0 b) by (done || simpl; lia).
      rewrite set_input_from_supported;
        [| done | rewrite description_input_set, Hsame; simpl; lia].
      rewrite !drop_0, !take_0, !app_nil_l.
      rewrite description_input_set, set_description_input_twice.
      by rewrite write_shapes_again by (rewrite !length_map; lia).
  - intros Hslots.
    exists (set_description_output (write_shapes dims1 (description_output b)) b).
    split.
    + by rewrite set_output_from_writes by lia.
    + assert (length (write_shapes dims1 (description_output b))
              = length (description_output b)) as Hsame.
      { rewrite <- (length_fmap feature_name), write_shapes_names.
        by rewrite length_fmap. }
      rewrite (set_output_from_writes dims2 0 b) by (simpl; lia).
      rewrite set_output_from_writes
        by (rewrite description_output_set, Hsame; simpl; lia).
      rewrite !drop_0, !take_0, !app_nil_l.
      rewrite description_output_set, set_description_output_twice.
      by rewrite write_shapes_again by lia.
Qed.

Lemma insert_array_type_names (features : list FeatureDescription) idx shp f :
  features !! idx = Some f ->
  feature_name <$> <[idx := write_array_type shp f]> features = feature_name <$> features.
Proof.
  intros Hf. rewrite list_fmap_insert. apply list_insert_id.
  by rewrite list_lookup_fmap, Hf.
Qed.

Lemma set_input_from_names input_dims : ∀ idx b,
  ∃ inputs', final (set_input_from idx input_dims b) = set_description_input inputs' b
             ∧ feature_name <$> inputs' = feature_name <$> description_input b.
Proof.
  induction input_dims as [|dim rest IH]; intros idx b; simpl.
  - exists (description_input b). by rewrite set_description_input_id.
  - destruct (input_shape dim) as [shp|];
      [|exists (description_input b); by rewrite set_description_input_id].
    destruct (description_input b !! idx) as [f|] eqn:Hf;
      [|exists (description_input b); by rewrite set_description_input_id].
    destruct (IH (S idx) (set_description_input
                            (<[idx := write_array_type shp f]> (description_input b)) b))
      as (inputs' & -> & Hnames).
    exists inputs'. rewrite set_description_input_twice. split; [done|].
    by rewrite Hnames, description_input_set, insert_array_type_names.
Qed.

Lemma set_output_from_names output_dims : ∀ idx b,
  ∃ outputs', final (set_output_from idx output_dims b) = set_description_output outputs' b
              ∧ feature_name <$> outputs' = feature_name <$> description_output b.
Proof.
  induction output_dims as [|dim rest IH]; intros idx b; simpl.
  - exists (description_output b). by rewrite set_description_output_id.
  - destruct (description_output b !! idx) as [f|] eqn:Hf;
      [|exists (description_output b); by rewrite set_description_output_id].
    destruct (IH (S idx) (set_description_output
                            (<[idx := write_array_type dim f]> (description_output b)) b))
      as (outputs' & -> & Hnames).
    exists outputs'. rewrite set_description_output_twice. split; [done|].
    by rewrite Hnames, description_output_set, insert_array_type_names.
Qed.

(** X8: however they end, [set_input] changes nothing but the input
    slots and [set_output] nothing but the output slots, and neither adds,
    removes, reorders or renames a slot: only types are rewritten. *)
Theorem set_input_set_output_keep_slots
    (names : list string) (dims : list (list Z)) (b : Builder (F := F)) :
  (∃ inputs', final (set_input names dims b) = set_description_input inputs' b
              ∧ feature_name <$> inputs' = feature_name <$> description_input b)
  ∧ (∃ outputs', final (set_output names dims b) = set_description_output outputs' b
                 ∧ feature_name <$> outputs' = feature_name <$> description_output b).
Proof. split; [apply set_input_from_names | apply set_output_from_names]. Qed.

(** *** Class labels *)

(** The labels of the integer vector, empty when another member of the
    [oneof] is set. *)
Lemma append_all_int64 (zs : list Z) : ∀ b,
  append_all append_int64ClassLabel (PyInt <$> zs) b
  = Return (match zs with
            | [] => b
            | _ :: _ =>
                set_classLabels
                  (int64ClassLabels
                     (match classLabels b with
                      | int64ClassLabels v => v
                      | _ => []
                      end ++ zs)) b
            end).
Proof.
  induction zs as [|z zs IH]; intros b; [done|].
  rewrite fmap_cons. cbn [append_all append_int64ClassLabel]. rewrite IH.
  destruct zs as [|z' zs]; destruct b as [? ? ? ? ? ? labels]; destruct labels;
    simpl; by rewrite <- ?app_assoc.
Qed.

Lemma append_all_string (ss : list string) : ∀ b,
  append_all append_stringClassLabel (PyStr <$> ss) b
  = Return (match ss with
            | [] => b
            | _ :: _ =>
                set_classLabels
                  (stringClassLabels
                     (match classLabels b with
                      | stringClassLabels v => v
                      | _ => []
                      end ++ ss)) b
            end).
Proof.
  induction ss as [|s ss IH]; intros b; [done|].
  rewrite fmap_cons. cbn [append_all append_stringClassLabel]. rewrite IH.
  destruct ss as [|s' ss]; destruct b as [? ? ? ? ? ? labels]; destruct labels;
    simpl; by rewrite <- ?app_assoc.
Qed.

Lemma insert_last_output {X} (first : X) (rest : list X) (x y : X) :
  <[length (first :: rest ++ [x]) - 1 := y]> (first :: rest ++ [x]) = first :: rest ++ [y].
Proof.
  replace (length (first :: rest ++ [x]) - 1) with (length (first :: rest) + 0)
    by (simpl; rewrite length_app; simpl; lia).
  exact (insert_app_r (first :: rest) [x] 0 y).
Qed.

Lemma append_all_app append (l1 l2 : list PyValue) : ∀ b,
  append_all append (l1 ++ l2) b
  = match append_all append l1 b with
    | Return b' => append_all append l2 b'
    | Raise e b' => Raise e b'
    end.
Proof.
  induction l1 as [|c l1 IH]; intros b; [done|].
  simpl. destruct (append c b) as [b'|e b']; [apply IH | done].
Qed.

(** With a first label that is an integer, on a classifier document:
    the document as it is when the labels are appended. *)
Lemma set_class_labels_int64_run (z : Z) (others : list PyValue)
    (predicted_feature_name : string) (b : Builder (F := F))
    (probOutput : FeatureDescription) (rest : list FeatureDescription) :
  nn_mode b = classifier ->
  description_output b = probOutput :: rest ->
  set_class_labels (PyInt z :: others) predicted_feature_name b
  = append_all append_int64ClassLabel (PyInt z :: others)
      {| description_input := description_input b;
         description_output :=
           {| feature_name := feature_name probOutput;
              feature_type := dictionaryType int64KeyType |}
           :: rest
           ++ [ {| feature_name := predicted_feature_name;
                   feature_type := int64Type |} ];
         predictedFeatureName := predicted_feature_name;
         predictedProbabilitiesName := feature_name probOutput;
         nn_mode := classifier;
         layers := layers b;
         classLabels := match classLabels b with
                        | int64ClassLabels _ => LabelsUnset
                        | labels => labels
                        end |}.
Proof.
  intros Hmode Hout.
  destruct b as [inputs outputs pfn ppn mode lyrs labels]; simpl in *; subst.
  unfold set_class_labels, set_probOutput_type, ClearField_int64ClassLabels.
  destruct labels; cbn -[append_all length insert Nat.sub];
    by rewrite insert_last_output.
Qed.

Lemma set_class_labels_string_run (s : string) (others : list PyValue)
    (predicted_feature_name : string) (b : Builder (F := F))
    (probOutput : FeatureDescription) (rest : list FeatureDescription) :
  nn_mode b = classifier ->
  description_output b = probOutput :: rest ->
  set_class_labels (PyStr s :: others) predicted_feature_name b
  = append_all append_stringClassLabel (PyStr s :: others)
      {| description_input := description_input b;
         description_output :=
           {| feature_name := feature_name probOutput;
              feature_type := dictionaryType stringKeyType |}
           :: rest
           ++ [ {| feature_name := predicted_feature_name;
                   feature_type := stringType |} ];
         predictedFeatureName := predicted_feature_name;
         predictedProbabilitiesName := feature_name probOutput;
         nn_mode := classifier;
         layers := layers b;
         classLabels := match classLabels b with
                        | stringClassLabels _ => LabelsUnset
                        | labels => labels
                        end |}.
Proof.
  intros Hmode Hout.
  destruct b as [inputs outputs pfn ppn mode lyrs labels]; simpl in *; subst.
  unfold set_class_labels, set_probOutput_type, ClearField_stringClassLabels.
  destruct labels; cbn -[append_all length insert Nat.sub];
    by rewrite insert_last_output.
Qed.

(** X9: on a classifier document with at least one output, a non-empty
    list of integer labels (or of string labels) makes [set_class_labels]
    return with the first output a dictionary keyed by that type, one new
    output of that type under the predicted feature name at the end of
    the outputs, the two predicted names recorded, and the label vector
    equal to the list, whatever labels were there before; inputs and
    layers are untouched. *)
Theorem set_class_labels_homogeneous (predicted_feature_name : string)
    (b : Builder (F := F)) (probOutput : FeatureDescription)
    (rest : list FeatureDescription) :
  nn_mode b = classifier ->
  description_output b = probOutput :: rest ->
  (∀ z zs,
     set_class_labels (PyInt <$> z :: zs) predicted_feature_name b
     = Return {| description_input := description_input b;
                 description_output :=
                   {| feature_name := feature_name probOutput;
                      feature_type := dictionaryType int64KeyType |}
                   :: rest
                   ++ [ {| feature_name := predicted_feature_name;
                           feature_type := int64Type |} ];
                 predictedFeatureName := predicted_feature_name;
                 predictedProbabilitiesName := feature_name probOutput;
                 nn_mode := classifier;
                 layers := layers b;
                 classLabels := int64ClassLabels (z :: zs) |})
  ∧ (∀ s ss,
       set_class_labels (PyStr <$> s :: ss) predicted_feature_name b
       = Return {| description_input := description_input b;
                   description_output :=
                     {| feature_name := feature_name probOutput;
                        feature_type := dictionaryType stringKeyType |}
                     :: rest
                     ++ [ {| feature_name := predicted_feature_name;
                             feature_type := stringType |} ];
                   predictedFeatureName := predicted_feature_name;
                   predictedProbabilitiesName := feature_name probOutput;
                   nn_mode := classifier;
                   layers := layers b;
                   classLabels := stringClassLabels (s :: ss) |}).
Proof.
  intros Hmode Hout. split.
  - intros z zs. rewrite fmap_cons.
    rewrite (set_class_labels_int64_run _ _ _ _ _ _ Hmode Hout).
    change (PyInt z :: _) with (PyInt <$> z :: zs).
    rewrite append_all_int64. by destruct (classLabels b).
  - intros s ss. rewrite fmap_cons.
    rewrite (set_class_labels_string_run _ _ _ _ _ _ Hmode Hout).
    change (PyStr s :: _) with (PyStr <$> s :: ss).
    rewrite append_all_string. by destruct (classLabels b).
Qed.

(** X10: the labels are type-checked one by one as they are appended, so
    a list that starts with integers (or with strings) and then holds a
    value of another type raises TypeError with the document already
    rewritten for the first type: dictionary output, predicted names, the
    new output, and the labels before the offending one stored; the
    values after it are never looked at. *)
Theorem set_class_labels_stops_at_other_type (predicted_feature_name : string)
    (b : Builder (F := F)) (probOutput : FeatureDescription)
    (rest : list FeatureDescription) (c : PyValue) (more : list PyValue) :
  nn_mode b = classifier ->
  description_output b = probOutput :: rest ->
  (∀ z zs,
     type c ≠ py_int ->
     set_class_labels ((PyInt <$> z :: zs) ++ c :: more) predicted_feature_name b
     = Raise TypeError
         {| description_input := description_input b;
            description_output :=
              {| feature_name := feature_name probOutput;
                 feature_type := dictionaryType int64KeyType |}
              :: rest
              ++ [ {| feature_name := predicted_feature_name;
                      feature_type := int64Type |} ];
            predictedFeatureName := predicted_feature_name;
            predictedProbabilitiesName := feature_name probOutput;
            nn_mode := classifier;
            layers := layers b;
            classLabels := int64ClassLabels (z :: zs) |})
  ∧ (∀ s ss,
       type c ≠ py_str ->
       set_class_labels ((PyStr <$> s :: ss) ++ c :: more) predicted_feature_name b
       = Raise TypeError
           {| description_input := description_input b;
              description_output :=
                {| feature_name := feature_name probOutput;
                   feature_type := dictionaryType stringKeyType |}
                :: rest
                ++ [ {| feature_name := predicted_feature_name;
                        feature_type := stringType |} ];
              predictedFeatureName := predicted_feature_name;
              predictedProbabilitiesName := feature_name probOutput;
              nn_mode := classifier;
              layers := layers b;
              classLabels := stringClassLabels (s :: ss) |}).
Proof.
  intros Hmode Hout. split.
  - intros z zs Hc. rewrite fmap_cons. cbn [app].
    rewrite (set_class_labels_int64_run _ _ _ _ _ _ Hmode Hout).
    change (PyInt z :: (PyInt <$> zs) ++ c :: more)
      with ((PyInt <$> z :: zs) ++ c :: more).
    rewrite append_all_app, append_all_int64.
    destruct c; try done; by destruct (classLabels b).
  - intros s ss Hc. rewrite fmap_cons. cbn [app].
    rewrite (set_class_labels_string_run _ _ _ _ _ _ Hmode Hout).
    change (PyStr s :: (PyStr <$> ss) ++ c :: more)
      with ((PyStr <$> s :: ss) ++ c :: more).
    rewrite append_all_app, append_all_string.
    destruct c; try done; by destruct (classLabels b).
Qed.


(** *** Tags *)

(** X12: a tag the method does not know is found after the layer record
    was added: [add_activation] raises TypeError, [add_flatten]
    NotImplementedError and [add_pooling] ValueError, and each leaves a
    layer with the names of the call and no parameter variant at the end
    of the layer list. *)
Theorem unknown_tag_leaves_empty_layer (name input_name output_name : string)
    (b : Builder (F := F)) :
  let left_behind := with_layer (empty_layer name [input_name] [output_name]) b in
  (∀ non_linearity params,
     non_linearity ∉ non_linearities ->
     add_activation name non_linearity input_name output_name params b
     = Raise TypeError left_behind)
  ∧ (∀ mode,
       mode ≠ 0%Z -> mode ≠ 1%Z ->
       add_flatten mode name input_name output_name b
       = Raise NotImplementedError left_behind)
  ∧ (∀ height width stride_height stride_width layer_type padding_type
       exclude_pad_area is_global,
       layer_type ∉ pooling_types ->
       add_pooling name height width stride_height stride_width layer_type
         padding_type exclude_pad_area is_global input_name output_name b
       = Raise ValueError left_behind).
Proof.
  intros left_behind. split_and!.
  - unfold non_linearities. intros non_linearity params Hname.
    unfold add_activation, add_layer.
    repeat (rewrite String_eqb_neq; [| intros ->; apply Hname; rewrite !elem_of_cons; tauto]).
    reflexivity.
  - intros mode H0 H1. unfold add_flatten, add_layer.
    destruct (Z.eqb_spec mode 0); [done|]. destruct (Z.eqb_spec mode 1); [done|].
    reflexivity.
  - unfold pooling_types. intros ? ? ? ? layer_type ? ? ? Hname.
    unfold add_pooling, add_layer, PoolingType_Value.
    rewrite !(String_eqb_neq layer_type)
      by (intros ->; apply Hname; rewrite !elem_of_cons; tauto).
    reflexivity.
Qed.

(** X13: two tags are not checked at all.  [add_reshape] takes every
    mode: 0 is CHANNEL_FIRST and any other number CHANNEL_LAST.
    [add_pooling] with a known pooling type takes every padding type: a
    name other than 'VALID' and 'SAME' leaves the padding of the layer
    unset, and the call returns. *)
Theorem unchecked_tags (name input_name output_name : string) (b : Builder (F := F)) :
  (∀ target_shape mode,
     add_reshape name input_name output_name target_shape mode b
     = Return (with_layer
                 {| layer_name := name;
                    layer_input := [input_name];
                    layer_output := [output_name];
                    layer_params :=
                      reshape target_shape
                        (if Z.eqb mode 0 then RESHAPE_CHANNEL_FIRST
                         else RESHAPE_CHANNEL_LAST) |} b))
  ∧ (∀ height width stride_height stride_width layer_type padding_type
       exclude_pad_area is_global,
       layer_type ∈ pooling_types ->
       padding_type ≠ "VALID" -> padding_type ≠ "SAME" ->
       ∃ p, add_pooling name height width stride_height stride_width layer_type
              padding_type exclude_pad_area is_global input_name output_name b
            = Return (with_layer {| layer_name := name;
                                    layer_input := [input_name];
                                    layer_output := [output_name];
                                    layer_params := pooling p |} b)
            ∧ PoolingType_Value layer_type = Some (pool_type p)
            ∧ pool_padding p = PaddingUnset
            ∧ pool_kernelSize p = [height; width]
            ∧ pool_stride p = [stride_height; stride_width]).
Proof.
  split.
  - intros target_shape mode. unfold add_reshape, add_layer.
    by destruct (Z.eqb mode 0).
  - unfold pooling_types.
    intros height width stride_height stride_width layer_type padding_type
      exclude_pad_area is_global Htype Hvalid Hsame.
    unfold add_pooling, add_layer.
    rewrite (String_eqb_neq _ _ Hvalid), (String_eqb_neq _ _ Hsame).
    repeat (apply elem_of_cons in Htype as [-> | Htype]);
      try (eexists; split; [reflexivity | by split_and!]).
    by apply elem_of_nil in Htype.
Qed.

(** *** Activation parameters *)

(** X14: without parameters ([params] is None) [add_activation] falls
    back on constants for four of the parametrised kinds: (0, 0) for
    SCALED_TANH, (0.2, 0.5) for SIGMOID_HARD, 0.3 for LEAKYRELU and 1 for
    THRESHOLDEDRELU.  The other three have no fallback: PRELU raises
    AttributeError, ELU and PARAMETRICSOFTPLUS raise TypeError, each
    leaving a layer without a parameter variant behind. *)
Theorem add_activation_without_params (name input_name output_name : string)
    (b : Builder (F := F)) :
  let call non_linearity :=
    add_activation name non_linearity input_name output_name params_None b in
  let added a := Return (with_layer {| layer_name := name;
                                       layer_input := [input_name];
                                       layer_output := [output_name];
                                       layer_params := activation a |} b) in
  let failed e := Raise e (with_layer (empty_layer name [input_name] [output_name]) b) in
  call "SCALED_TANH" = added (scaledTanh (literal 0.0) (literal 0.0))
  ∧ call "SIGMOID_HARD" = added (sigmoidHard (literal 0.2) (literal 0.5))
  ∧ call "LEAKYRELU" = added (leakyReLU (literal 0.3))
  ∧ call "THRESHOLDEDRELU" = added (thresholdedReLU (literal 1.0))
  ∧ call "PRELU" = failed AttributeError
  ∧ call "ELU" = failed TypeError
  ∧ call "PARAMETRICSOFTPLUS" = failed TypeError.
Proof. by split_and!. Qed.

(** X15: with a list of numbers as [params], SIGMOID_HARD and SCALED_TANH
    take its first two elements and LEAKYRELU its first, whatever
    follows them.  A list too short for two elements raises IndexError,
    and by then SCALED_TANH has set its (empty) message in the layer
    while SIGMOID_HARD has set nothing.  ELU and THRESHOLDEDRELU convert
    [params] itself by [float] and PRELU calls its [flatten], so for
    them every list fails, with TypeError and AttributeError. *)
Theorem add_activation_list_params (name input_name output_name : string)
    (xs : list A) (b : Builder (F := F)) :
  let call non_linearity :=
    add_activation name non_linearity input_name output_name (params_list xs) b in
  let layer p := with_layer {| layer_name := name;
                               layer_input := [input_name];
                               layer_output := [output_name];
                               layer_params := p |} b in
  (∀ alpha rest,
     xs = alpha :: rest ->
     call "LEAKYRELU" = Return (layer (activation (leakyReLU (float alpha)))))
  ∧ (∀ alpha beta rest,
       xs = alpha :: beta :: rest ->
       call "SIGMOID_HARD"
       = Return (layer (activation (sigmoidHard (float alpha) (float beta))))
       ∧ call "SCALED_TANH"
         = Return (layer (activation (scaledTanh (float alpha) (float beta)))))
  ∧ (length xs < 2 ->
     call "SIGMOID_HARD" = Raise IndexError (layer LayerUnset)
     ∧ call "SCALED_TANH"
       = Raise IndexError (layer (activation (scaledTanh (literal 0) (literal 0)))))
  ∧ call "ELU" = Raise TypeError (layer LayerUnset)
  ∧ call "THRESHOLDEDRELU" = Raise TypeError (layer LayerUnset)
  ∧ call "PRELU" = Raise AttributeError (layer LayerUnset).
Proof.
  intros call layer. split_and!; try done.
  - by intros alpha rest ->.
  - by intros alpha beta rest ->.
  - intros Hlen. destruct xs as [|alpha [|beta rest]]; simpl in Hlen; try lia; done.
Qed.

(** *** Dense layers *)

(** X16: [add_inner_product] and [add_embedding] store the weights as
    the flattened [W], whatever [nB] and [nC] say, and read [Wb] only
    when [has_bias] is set: without the flag the call returns with an
    empty bias whatever [Wb] is, with the flag and an array it stores
    the flattened array, and with the flag and no array it raises
    AttributeError after the sizes, the flag and the weights were
    written. *)
Theorem dense_layers_bias_flag (name : string) (W : ndarray A) (nB nC : nat)
    (input_name output_name : string) (b : Builder (F := F)) :
  let layer p := with_layer {| layer_name := name;
                               layer_input := [input_name];
                               layer_output := [output_name];
                               layer_params := p |} b in
  let ip has_bias bias :=
    innerProduct {| ip_inputChannels := nB; ip_outputChannels := nC;
                    ip_hasBias := has_bias; ip_weights := floats W;
                    ip_bias := bias |} in
  let emb has_bias bias :=
    embedding {| emb_inputDim := nB; emb_outputChannels := nC;
                 emb_hasBias := has_bias; emb_weights := floats W;
                 emb_bias := bias |} in
  (∀ Wb, add_inner_product name W Wb nB nC false input_name output_name b
         = Return (layer (ip false []))
         ∧ add_embedding name W Wb nB nC false input_name output_name b
           = Return (layer (emb false [])))
  ∧ (∀ Wb, add_inner_product name W (Some Wb) nB nC true input_name output_name b
           = Return (layer (ip true (floats Wb)))
           ∧ add_embedding name W (Some Wb) nB nC true input_name output_name b
             = Return (layer (emb true (floats Wb))))
  ∧ add_inner_product name W None nB nC true input_name output_name b
    = Raise AttributeError (layer (ip true []))
  ∧ add_embedding name W None nB nC true input_name output_name b
    = Raise AttributeError (layer (emb true [])).
Proof. by split_and!. Qed.

(** *** Declared and actual sizes of a convolution *)

Lemma add_layer_raises {St} name input output (variant : St -> LayerParams (F := F))
    init body b e :
  (body init).1 = inl e ->
  add_layer name input output variant init body b
  = Raise e (final (add_layer name input output variant init body b)).
Proof. unfold add_layer. destruct (body init) as [[e'|x] p]; [|done]. by intros [= ->]. Qed.

(** The copy loop for any count: it stops with IndexError at the end of
    [Wt]. *)
Lemma copy_weights_loop_any (Wt : list A) n : ∀ i (p : ConvolutionLayerParams (F := F)),
  i <= length Wt ->
  for_each (seq i n) (fun idx =>
    x ← try IndexError (Wt !! idx);
    extend conv_weights set_conv_weights [float x]) p
  = (if decide (i + n <= length Wt) then inr tt else inl IndexError,
     set_conv_weights (conv_weights p ++ map float (take n (drop i Wt))) p).
Proof.
  induction n as [|n IH]; intros i p Hlen.
  - rewrite decide_True by lia. simpl. unfold mret, Fill_ret, ret.
    by rewrite app_nil_r, set_conv_weights_id.
  - cbn [seq for_each]. unfold bind at 1. unfold mbind, Fill_bind, bind at 1.
    destruct (decide (i < length Wt)) as [Hi|Hi].
    + destruct (lookup_lt_is_Some_2 Wt i Hi) as [x Hx].
      rewrite Hx. cbn [try ret extend modify].
      rewrite IH by lia.
      rewrite conv_weights_set, set_conv_weights_twice.
      rewrite (drop_S _ _ _ Hx). cbn [take map].
      rewrite <- app_assoc.
      by destruct (decide (S i + n <= length Wt)), (decide (i + S n <= length Wt));
        try lia.
    + rewrite (lookup_ge_None_2 Wt i) by lia. cbn [try raise].
      rewrite decide_False by lia.
      rewrite drop_ge by lia. cbn [take map].
      by rewrite app_nil_r, set_conv_weights_id.
Qed.

(** Runs [add_convolution] up to the end of the weight copy. *)
Ltac run_convolution Hshape :=
  cbn [negb String.eqb Ascii.eqb Bool.eqb];
  run_fill;
  rewrite ?(flatten_transpose_conv _ _ _ _ _ Hshape),
          ?(flatten_transpose_deconv _ _ _ _ _ Hshape), run_try_Some;
  rewrite run_bind; unfold for_xrange;
  rewrite copy_weights_loop_any by lia;
  rewrite drop_0, Nat.add_0_l,
          ?length_flattened_Cout_Cin_H_W, ?length_flattened_Cin_Cout_H_W.

(** X17: [add_convolution] does not compare the sizes it is given with
    the weight tensor.  For a tensor of shape (H, W, Cin, Cout) and any
    [kernelChannels], [outputChannels], [height] and [width], with
    product [n], the stored weights are the first [n] elements of the
    transposed and flattened tensor: a smaller [n] cuts the weights short
    and the call goes on, a larger [n] stores the whole tensor and raises
    IndexError before a bias is written. *)
Theorem add_convolution_declared_sizes (name : string)
    (H_ W_ Cin Cout kernelChannels outputChannels height width : nat)
    (stride_height stride_width : nat)
    (borderMode : string) (groups : nat) (W : ndarray A) (bias : option (ndarray A))
    (has_bias is_deconv : bool) (output_shape : option (list nat))
    (input_name output_name : string) (b : Builder (F := F)) :
  shape W = [H_; W_; Cin; Cout] ->
  borderMode = "valid" ∨ borderMode = "same" ->
  let n := outputChannels * kernelChannels * height * width in
  let Wt := if is_deconv then flattened_Cin_Cout_H_W W H_ W_ Cin Cout
            else flattened_Cout_Cin_H_W W H_ W_ Cin Cout in
  let outcome :=
    add_convolution name kernelChannels outputChannels height width
      stride_height stride_width borderMode groups W bias has_bias is_deconv
      output_shape input_name output_name b in
  ∃ p, final outcome
       = with_layer {| layer_name := name;
                       layer_input := [input_name];
                       layer_output := [output_name];
                       layer_params := convolution p |} b
       ∧ conv_weights p = map float (take n Wt)
       ∧ (Cout * Cin * H_ * W_ < n ->
          outcome = Raise IndexError (final outcome) ∧ conv_bias p = [])
       ∧ (n <= Cout * Cin * H_ * W_ -> has_bias = false ->
          outcome = Return (final outcome) ∧ conv_bias p = []).
Proof.
  intros Hshape Hborder n Wt outcome. subst outcome Wt.
  unfold add_convolution.
  eexists. split; [apply final_add_layer|].
  split_and!.
  - destruct Hborder as [-> | ->], is_deconv; run_convolution Hshape;
      (destruct (decide (_ <= _));
       [ destruct has_bias; cbn [when];
         [unfold for_xrange; rewrite copy_bias_loop_weights | cbn [snd ret mret Fill_ret]]
       | cbn [snd] ]);
      by rewrite conv_weights_set.
  - intros Hmore. split.
    + apply add_layer_raises.
      destruct Hborder as [-> | ->], is_deconv; run_convolution Hshape;
        by rewrite decide_False by (fold n; lia).
    + destruct Hborder as [-> | ->], is_deconv; run_convolution Hshape;
        by rewrite decide_False by (fold n; lia).
  - intros Hless ->. split.
    + apply add_layer_returns.
      destruct Hborder as [-> | ->], is_deconv; run_convolution Hshape;
        by rewrite decide_True by (fold n; lia).
    + destruct Hborder as [-> | ->], is_deconv; run_convolution Hshape;
        by rewrite decide_True by (fold n; lia).
Qed.

(** *** The bias of a convolution *)

Lemma flatten_vector_lookup (v : ndarray A) k f :
  shape v = [k] ->
  Numpy.flatten v !! f = if decide (f < k) then Some (item v [f]) else None.
Proof.
  intros Hshape. unfold Numpy.flatten. rewrite Hshape, map_indices_1.
  change (map ?g ?l) with (g <$> l).
  rewrite list_lookup_fmap.
  destruct (decide (f < k)) as [Hf|Hf].
  - by rewrite lookup_seq_lt.
  - by rewrite lookup_seq_ge by lia.
Qed.

(** [float(b[f])] on a vector. *)
Lemma float_at_vector {St} (v : ndarray A) k f (p : St) :
  shape v = [k] ->
  float_at (Some v) f p
  = match Numpy.flatten v !! f with
    | Some x => (inr (float x), p)
    | None => (inl IndexError, p)
    end.
Proof.
  intros Hshape. rewrite (flatten_vector_lookup _ _ _ Hshape).
  unfold float_at, getitem. rewrite run_try_Some, Hshape.
  cbn [getitem_shape]. destruct (decide (f < k)) as [Hf|Hf].
  - apply Nat.ltb_lt in Hf as ->. reflexivity.
  - apply Nat.ltb_nlt in Hf as ->. reflexivity.
Qed.

Lemma set_conv_bias_twice v1 v2 (p : ConvolutionLayerParams (F := F)) :
  set_conv_bias v2 (set_conv_bias v1 p) = set_conv_bias v2 p.
Proof. by destruct p. Qed.

Lemma conv_bias_set v (p : ConvolutionLayerParams (F := F)) :
  conv_bias (set_conv_bias v p) = v.
Proof. by destruct p. Qed.

Lemma set_conv_bias_id (p : ConvolutionLayerParams (F := F)) :
  set_conv_bias (conv_bias p) p = p.
Proof. by destruct p. Qed.

(** The loop that copies a bias vector, for any count: it stops with
    IndexError at the end of the vector. *)
Lemma copy_bias_loop_vector (v : ndarray A) k n :
  shape v = [k] ->
  ∀ i (p : ConvolutionLayerParams (F := F)),
    i <= k ->
    for_each (seq i n) (fun f =>
      x ← float_at (Some v) f;
      extend conv_bias set_conv_bias [x]) p
    = (if decide (i + n <= k) then inr tt else inl IndexError,
       set_conv_bias (conv_bias p ++ map float (take n (drop i (Numpy.flatten v)))) p).
Proof.
  intros Hshape. pose proof (length_flatten_vector _ _ Hshape) as Hk.
  induction n as [|n IH]; intros i p Hlen.
  - rewrite decide_True by lia. simpl. unfold mret, Fill_ret, ret.
    by rewrite app_nil_r, set_conv_bias_id.
  - cbn [seq for_each]. unfold bind at 1. unfold mbind, Fill_bind, bind at 1.
    rewrite (float_at_vector _ _ _ _ Hshape).
    destruct (decide (i < k)) as [Hi|Hi].
    + destruct (lookup_lt_is_Some_2 (Numpy.flatten v) i) as [x Hx]; [lia|].
      rewrite Hx. cbn [extend modify].
      rewrite IH by lia.
      rewrite conv_bias_set, set_conv_bias_twice.
      rewrite (drop_S _ _ _ Hx). cbn [take map].
      rewrite <- app_assoc.
      by destruct (decide (S i + n <= k)), (decide (i + S n <= k)); try lia.
    + rewrite (lookup_ge_None_2 (Numpy.flatten v) i) by lia.
      rewrite decide_False by lia.
      rewrite drop_ge by lia. cbn [take map].
      by rewrite app_nil_r, set_conv_bias_id.
Qed.

(** The loop that copies the bias changes the bias only. *)
Lemma copy_bias_loop_frame (b : option (ndarray A)) l : ∀ (p : ConvolutionLayerParams (F := F)),
  ∃ v, (for_each l (fun f =>
          x ← float_at b f;
          extend conv_bias set_conv_bias [x]) p).2
       = set_conv_bias v p.
Proof.
  induction l as [|f l IH]; intros p.
  - exists (conv_bias p). by rewrite set_conv_bias_id.
  - cbn [for_each]. unfold bind at 1. unfold mbind, Fill_bind, bind at 1.
    pose proof (float_at_state b f p) as Hp.
    destruct (float_at b f p) as [[e|x] p']; simpl in Hp; subst p'.
    + exists (conv_bias p). by rewrite set_conv_bias_id.
    + cbn [extend modify]. destruct (IH (set_conv_bias (conv_bias p ++ [x]) p)) as [v Hv].
      exists v. rewrite <- (set_conv_bias_twice (conv_bias p ++ [x]) v p). exact Hv.
Qed.

(** Brings the convolution message being filled back to its fields. *)
Ltac norm_conv :=
  cbn [fst snd conv_bias conv_hasBias conv_weights set_conv_bias set_conv_hasBias
       set_conv_weights set_conv_nGroups set_conv_padding set_conv_stride
       set_conv_kernelSize set_conv_kernelChannels set_conv_outputChannels
       set_conv_outputShape set_conv_isDeconvolution conv_default app].

(** X18: with [has_bias] set and sizes that match the weight tensor,
    [add_convolution] reads [outputChannels] elements of the bias one by
    one, after the weights are stored.  A vector at least that long gives
    its first [outputChannels] elements as the bias, and the call
    returns; a shorter one is stored whole, and then IndexError is
    raised; without a bias argument the call raises TypeError, unless
    there is no output channel to read it for. *)
Theorem add_convolution_bias (name : string)
    (H_ W_ Cin Cout stride_height stride_width : nat)
    (borderMode : string) (groups : nat) (W : ndarray A) (bias : option (ndarray A))
    (is_deconv : bool) (output_shape : option (list nat))
    (input_name output_name : string) (b : Builder (F := F)) :
  shape W = [H_; W_; Cin; Cout] ->
  borderMode = "valid" ∨ borderMode = "same" ->
  let outcome :=
    add_convolution name Cin Cout H_ W_ stride_height stride_width borderMode
      groups W bias true is_deconv output_shape input_name output_name b in
  ∃ p, final outcome
       = with_layer {| layer_name := name;
                       layer_input := [input_name];
                       layer_output := [output_name];
                       layer_params := convolution p |} b
       ∧ conv_hasBias p = true
       ∧ (∀ v k, bias = Some v -> shape v = [k] ->
                 conv_bias p = map float (take Cout (Numpy.flatten v))
                 ∧ outcome = (if decide (Cout <= k) then Return (final outcome)
                              else Raise IndexError (final outcome)))
       ∧ (bias = None ->
          conv_bias p = []
          ∧ outcome = (if decide (Cout = 0) then Return (final outcome)
                       else Raise TypeError (final outcome))).
Proof.
  intros Hshape Hborder outcome. subst outcome.
  unfold add_convolution.
  eexists. split; [apply final_add_layer|].
  split_and!.
  - destruct Hborder as [-> | ->], is_deconv; run_convolution Hshape;
      rewrite decide_True by lia; cbn [when]; unfold for_xrange;
      match goal with
      | |- context [for_each ?l ?body ?p] =>
          destruct (copy_bias_loop_frame bias l p) as [v ->]
      end; reflexivity.
  - intros v k -> Hv. split.
    + destruct Hborder as [-> | ->], is_deconv; run_convolution Hshape;
        rewrite decide_True by lia; cbn [when]; unfold for_xrange;
        rewrite (copy_bias_loop_vector v k Cout Hv) by lia;
        rewrite drop_0; norm_conv; reflexivity.
    + destruct (decide (Cout <= k)) as [Hk|Hk];
        [apply add_layer_returns | apply add_layer_raises];
        destruct Hborder as [-> | ->], is_deconv; run_convolution Hshape;
        rewrite decide_True by lia; cbn [when]; unfold for_xrange;
        rewrite (copy_bias_loop_vector v k Cout Hv) by lia; norm_conv;
        by first [rewrite decide_True by lia | rewrite decide_False by lia].
  - intros ->. split.
    + destruct Hborder as [-> | ->], is_deconv; run_convolution Hshape;
        rewrite decide_True by lia; cbn [when]; unfold for_xrange;
        by destruct Cout.
    + destruct (decide (Cout = 0)) as [Hk|Hk];
        [apply add_layer_returns | apply add_layer_raises];
        destruct Hborder as [-> | ->], is_deconv; run_convolution Hshape;
        rewrite decide_True by lia; cbn [when]; unfold for_xrange;
        destruct Cout; try done; lia.
Qed.

(** *** Activation names of the recurrent layers *)

Lemma add_layer_Raise {St} name input output (variant : St -> LayerParams (F := F))
    init body b e p :
  body init = (inl e, p) ->
  add_layer name input output variant init body b
  = Raise e (with_layer {| layer_name := name;
                           layer_input := input;
                           layer_output := output;
                           layer_params := variant p |} b).
Proof. unfold add_layer. by intros ->. Qed.

(** An activation name sets the activation message, or is refused with
    TypeError. *)
Lemma run_recurrent_activation_cases (activation : string) :
  (activation ∈ recurrent_activations
   ∧ ∃ act, ∀ St Y (k : ActivationParams (F := F) -> Fill St Y) (s : St),
       (_set_recurrent_activation activation ≫= k) s = k act s)
  ∨ ((activation ∉ recurrent_activations)
     ∧ ∀ St Y (k : ActivationParams (F := F) -> Fill St Y) (s : St),
         (_set_recurrent_activation activation ≫= k) s = (inl TypeError, s)).
Proof.
  destruct (decide (activation ∈ recurrent_activations)) as [Hact|Hact].
  - left. split; [done|]. by apply run_recurrent_activation.
  - right. split; [done|]. intros St Y k s.
    unfold recurrent_activations in Hact. unfold _set_recurrent_activation.
    rewrite !(String_eqb_neq activation)
      by (intros ->; apply Hact; rewrite !elem_of_cons; tauto).
    reflexivity.
Qed.

(** Runs a recurrent layer's statements up to a refused activation. *)
Ltac run_to_activation :=
  repeat
    (first
       [ rewrite run_modify | rewrite run_extend
       | rewrite run_ret | rewrite run_ret'
       | rewrite run_when_true | rewrite run_when_false
       | rewrite run_assoc
       | progress cbn [when]
       | match goal with
         | Hrun : ∀ St Y cont s, (_set_recurrent_activation _ ≫= cont) s = _ |- _ =>
             rewrite Hrun
         end ];
     norm_state).

(** X19: the recurrent builders look at the activation names after the
    sizes and flags are assigned and before any weight is read.  With a
    name [_set_recurrent_activation] does not know, [add_vanilla_rnn],
    [add_gru], [add_unilstm] and [add_bidirlstm] raise TypeError and
    leave a layer of their kind that holds the sizes and no weight
    matrix, whatever the weight arguments are. *)
Theorem recurrent_unknown_activation (name : string) (hidden_size input_size : nat)
    (input_names output_names : list string)
    (W_h W_x W_h_back W_x_back : ndarray A)
    (bias bias_back peep peep_back : option (ndarray A))
    (output_all reverse_input forget_bias coupled_input_forget_gate : bool)
    (cell_clip_threshold : A) (b : Builder (F := F)) :
  let layer p := with_layer {| layer_name := name;
                               layer_input := input_names;
                               layer_output := output_names;
                               layer_params := p |} b in
  (∀ activation,
     activation ∉ recurrent_activations ->
     ∃ p, add_vanilla_rnn name W_h W_x bias activation hidden_size input_size
            input_names output_names output_all reverse_input b
          = Raise TypeError (layer (simpleRecurrent p))
          ∧ rnn_inputVectorSize p = input_size
          ∧ rnn_outputVectorSize p = hidden_size
          ∧ rnn_weightMatrix p = [] ∧ rnn_recursionMatrix p = []
          ∧ rnn_biasVector p = [])
  ∧ (∀ activation inner_activation,
       ¬ (inner_activation ∈ recurrent_activations
          ∧ activation ∈ recurrent_activations) ->
       ∃ p, add_gru name W_h W_x bias activation inner_activation hidden_size
              input_size input_names output_names output_all reverse_input b
            = Raise TypeError (layer (gru p))
            ∧ gru_inputVectorSize p = input_size
            ∧ gru_outputVectorSize p = hidden_size
            ∧ gru_updateGateWeightMatrix p = []
            ∧ gru_resetGateWeightMatrix p = []
            ∧ gru_outputGateWeightMatrix p = []
            ∧ gru_updateGateRecursionMatrix p = []
            ∧ gru_resetGateRecursionMatrix p = []
            ∧ gru_outputGateRecursionMatrix p = [])
  ∧ (∀ inner_activation cell_state_update_activation output_activation,
       ¬ Forall (fun a => a ∈ recurrent_activations)
           [inner_activation; cell_state_update_activation; output_activation] ->
       (∃ p, add_unilstm name hidden_size input_size input_names output_names
               W_h W_x inner_activation cell_state_update_activation
               output_activation bias peep output_all forget_bias
               coupled_input_forget_gate cell_clip_threshold reverse_input b
             = Raise TypeError (layer (uniDirectionalLSTM p))
             ∧ uni_inputVectorSize p = input_size
             ∧ uni_outputVectorSize p = hidden_size
             ∧ uni_weightParams p = w_default)
       ∧ (∃ p, add_bidirlstm name hidden_size input_size input_names output_names
                 W_h W_x W_h_back W_x_back inner_activation
                 cell_state_update_activation output_activation
                 bias bias_back peep peep_back output_all forget_bias
                 coupled_input_forget_gate cell_clip_threshold b
               = Raise TypeError (layer (biDirectionalLSTM p))
               ∧ bi_inputVectorSize p = input_size
               ∧ bi_outputVectorSize p = hidden_size
               ∧ bi_weightParams p = [w_default; w_default])).
Proof.
  intros layer. subst layer. split_and!.
  - intros activation Hact.
    destruct (run_recurrent_activation_cases activation) as [[? _]|[_ Hraise]]; [done|].
    unfold add_vanilla_rnn, if_present.
    destruct (present bias);
      (eexists; split;
       [ apply add_layer_Raise; run_to_activation; reflexivity | by split_and! ]).
  - intros activation inner_activation Hact.
    unfold add_gru, if_present.
    destruct (run_recurrent_activation_cases inner_activation)
      as [[Hf [act_f Hrun_f]]|[_ Hraise_f]];
      [destruct (run_recurrent_activation_cases activation)
         as [[Hg _]|[_ Hraise_g]]; [by destruct Hact|] |];
      destruct (present bias);
      (eexists; split;
       [ apply add_layer_Raise; run_to_activation; reflexivity | by split_and! ]).
  - intros inner_activation cell_state_update_activation output_activation Hact.
    rewrite !Forall_cons in Hact.
    unfold add_unilstm, add_bidirlstm, if_present, write_lstm_activations.
    destruct (run_recurrent_activation_cases inner_activation)
      as [[Hi [act_i Hrun_i]]|[_ Hraise_i]];
      [destruct (run_recurrent_activation_cases cell_state_update_activation)
         as [[Hc [act_c Hrun_c]]|[_ Hraise_c]];
       [destruct (run_recurrent_activation_cases output_activation)
          as [[Ho _]|[_ Hraise_o]];
        [exfalso; apply Hact; by split_and! |] |] |];
      destruct (present bias), (present peep);
      (split;
       (eexists; split;
        [ apply add_layer_Raise; run_to_activation; reflexivity | by split_and! ])).
Qed.

(** *** Gate blocks of a tensor of any height *)

Lemma gate_rows_clipped (W : ndarray A) n0 n1 rows cols g h :
  shape W = [n0; n1; rows; cols] ->
  gate_rows W g h
  = r ← seq 0 (((g + 1) * h) `min` rows - (g * h) `min` rows);
    c ← seq 0 cols; [float (item W [0; 0; g * h + r; c])].
Proof.
  intros Hshape. unfold gate_rows, matrix_rows, slice. rewrite Hshape.
  cbn [nth].
  rewrite drop_map_seq, firstn_map, take_seq.
  replace (((g + 1) * h - g * h) `min` (rows - g * h))
    with (((g + 1) * h) `min` rows - (g * h) `min` rows) by nia.
  rewrite concat_map, map_map, <- flat_map_concat_map, flat_map_bind.
  rewrite bind_seq_shift. apply bind_ext; intros r.
  by rewrite map_map, map_as_bind.
Qed.

Lemma length_gate_rows (W : ndarray A) n0 n1 rows cols g h :
  shape W = [n0; n1; rows; cols] ->
  length (gate_rows W g h)
  = (((g + 1) * h) `min` rows - (g * h) `min` rows) * cols.
Proof.
  intros Hshape. rewrite (gate_rows_clipped _ _ _ _ _ _ _ Hshape).
  rewrite (length_bind_const _ _ cols), length_seq; [done|]. intros r.
  rewrite (length_bind_const _ _ 1), length_seq; [lia|]. done.
Qed.

(** What [gate_block] yields on a tensor with four axes. *)
Lemma run_gate_block_any {St Y} (W : ndarray A) n0 n1 rows cols g h
    (cont : list F -> Fill St Y) (s : St) :
  shape W = [S n0; S n1; rows; cols] ->
  (gate_block W g h ≫= cont) s = cont (gate_rows W g h) s.
Proof.
  intros Hshape.
  rewrite (gate_rows_clipped _ _ _ _ _ _ _ Hshape).
  unfold gate_block, getitem. rewrite Hshape.
  cbn [getitem_shape Nat.ltb Nat.leb fmap option_fmap option_map mbind option_bind].
  rewrite run_bind. cbn [try ret mret Fill_ret mbind Fill_bind bind].
  f_equal. unfold floats, Numpy.flatten. cbn [shape item].
  rewrite map_map, map_indices_cons. apply bind_ext; intros r.
  rewrite map_indices_cons. apply bind_ext; intros c.
  reflexivity.
Qed.

(** What [gate_block] does on a tensor with fewer axes than indices. *)
Lemma run_gate_block_rank {St Y} (W : ndarray A) g h
    (cont : list F -> Fill St Y) (s : St) :
  length (shape W) < 4 ->
  (gate_block W g h ≫= cont) s = (inl IndexError, s).
Proof.
  intros Hrank. unfold gate_block, getitem.
  destruct (shape W) as [|n0 [|n1 [|n2 [|n3 rest]]]]; simpl in Hrank; try lia;
    cbn [getitem_shape fmap option_fmap option_map mbind option_bind];
    repeat case_match; reflexivity.
Qed.

(** X20: [add_gru] does not compare the height of the weight tensors
    with [3 * hidden_size]: the slices are clipped to the tensor, as
    numpy clips them.  For tensors with four axes of any height, known
    activations, and no bias to store, the call returns, and the block of
    gate [g] holds the rows [g*h:(g+1)*h] that exist: fewer than
    [hidden_size] rows, or none, when the tensor is short, while rows
    beyond [3 * hidden_size] are dropped.  A first tensor with fewer than
    four axes raises IndexError once the activations are set, and no
    matrix is stored. *)
Theorem add_gru_unchecked_height (name : string) (W_h W_x : ndarray A)
    (bias : option (ndarray A)) (activation inner_activation : string)
    (hidden_size input_size : nat) (input_names output_names : list string)
    (output_all reverse_input : bool) (b : Builder (F := F)) :
  activation ∈ recurrent_activations ->
  inner_activation ∈ recurrent_activations ->
  let outcome :=
    add_gru name W_h W_x bias activation inner_activation hidden_size input_size
      input_names output_names output_all reverse_input b in
  let layer p := with_layer {| layer_name := name;
                               layer_input := input_names;
                               layer_output := output_names;
                               layer_params := gru p |} b in
  (∀ n0 n1 rows_x cols_x m0 m1 rows_h cols_h,
     shape W_x = [S n0; S n1; rows_x; cols_x] ->
     shape W_h = [S m0; S m1; rows_h; cols_h] ->
     present bias = false ->
     ∃ p, outcome = Return (layer p)
          ∧ gru_gate_order p W_x W_h hidden_size
          ∧ (∀ g, length (gate_rows W_x g hidden_size)
                  = (((g + 1) * hidden_size) `min` rows_x
                     - (g * hidden_size) `min` rows_x) * cols_x))
  ∧ (length (shape W_x) < 4 ->
     ∃ p, outcome = Raise IndexError (layer p)
          ∧ length (gru_activations p) = 2
          ∧ gru_updateGateWeightMatrix p = []
          ∧ gru_updateGateRecursionMatrix p = []).
Proof.
  intros Hact Hinner outcome layer. subst outcome layer.
  destruct (run_recurrent_activation _ Hact) as [act_g Hg].
  destruct (run_recurrent_activation _ Hinner) as [act_f Hf].
  unfold add_gru, if_present. split.
  - intros n0 n1 rows_x cols_x m0 m1 rows_h cols_h Hx Hh ->.
    eexists. split_and!.
    + apply add_layer_Return.
      repeat
        (first
           [ rewrite run_modify | rewrite run_extend
           | rewrite run_ret | rewrite run_ret'
           | rewrite run_when_false
           | rewrite run_assoc
           | progress cbn [when]
           | rewrite (run_gate_block_any W_x _ _ _ _ _ _ _ _ Hx)
           | rewrite (run_gate_block_any W_h _ _ _ _ _ _ _ _ Hh)
           | rewrite Hg | rewrite Hf ];
         norm_state).
      reflexivity.
    + by repeat split.
    + intros g. exact (length_gate_rows W_x _ _ _ _ g hidden_size Hx).
  - intros Hrank.
    destruct (present bias);
      (eexists; split;
       [ apply add_layer_Raise;
         repeat
           (first
              [ rewrite run_modify | rewrite run_extend
              | rewrite run_ret | rewrite run_ret'
              | rewrite run_when_false | rewrite run_when_true
              | rewrite run_assoc
              | progress cbn [when]
              | rewrite (run_gate_block_rank W_x) by done
              | rewrite Hg | rewrite Hf ];
            norm_state);
         reflexivity
       | by split_and! ]).
Qed.

(** *** What a run of calls can change *)

Lemma set_layers_twice l1 l2 b : set_layers l2 (set_layers l1 b) = set_layers l2 b.
Proof. by destruct b. Qed.

Lemma layers_set l b : layers (set_layers l b) = l.
Proof. by destruct b. Qed.

Lemma set_layers_id b : set_layers (layers b) b = b.
Proof. by destruct b. Qed.

(** One call, however it ends: [add_dropout] returns the document as it
    is, every other call leaves one more layer, named as the call says. *)
Lemma run_call_final (c : Call (A := A)) (b : Builder (F := F)) :
  if is_add_dropout c then run_call c b = Return b
  else ∃ l, final (run_call c b) = with_layer l b ∧ layer_name l = call_name c.
Proof.
  destruct c; cbn [run_call is_add_dropout]; try done;
    (eexists; split; [apply final_add_layer | done]).
Qed.

(** X21: a run of factory calls only appends to the layer list, whether
    it runs to its end or stops at an exception: the document it leaves
    is the one before with new layers after the old ones, at most one for
    each call other than [add_dropout], each carrying the name of one of
    the calls; inputs, outputs, labels and the old layers are as before.
    A run that raises has left at least one new layer, the one of the
    call that failed. *)
Theorem run_calls_only_appends (calls : list (Call (A := A))) (b : Builder (F := F)) :
  ∃ new,
    final (run_calls calls b) = set_layers (layers b ++ new) b
    ∧ length new <= length (List.filter (fun c => negb (is_add_dropout c)) calls)
    ∧ Forall (fun l => ∃ c, c ∈ calls ∧ layer_name l = call_name c) new
    ∧ (∀ e b', run_calls calls b = Raise e b' -> new ≠ []).
Proof.
  revert b. induction calls as [|c rest IH]; intros b.
  - exists []. cbn. rewrite app_nil_r, set_layers_id. by split_and!.
  - cbn [run_calls List.filter]. pose proof (run_call_final c b) as Hc.
    destruct (is_add_dropout c) eqn:Hdrop.
    + rewrite Hc. destruct (IH b) as (new & Hfinal & Hlen & Hnames & Hraise).
      exists new. split_and!; [done | done | | done].
      eapply Forall_impl; [exact Hnames|].
      intros l (c' & Hin & Hname). exists c'. split; [by right | done].
    + destruct Hc as (l & Hl & Hname).
      destruct (run_call c b) as [b1|e b1]; cbn [final] in Hl; subst b1.
      * destruct (IH (with_layer l b)) as (new & Hfinal & Hlen & Hnames & Hraise).
        exists (l :: new). split_and!.
        -- rewrite Hfinal. unfold with_layer.
           by rewrite layers_set, set_layers_twice, <- app_assoc.
        -- cbn [negb length]. lia.
        -- constructor; [exists c; split; [by left | done] |].
           eapply Forall_impl; [exact Hnames|].
           intros l' (c' & Hin & Hname'). exists c'. split; [by right | done].
        -- done.
      * exists [l]. split_and!; [done | cbn [negb length]; lia | | done].
        constructor; [|done]. exists c. split; [by left | done].
Qed.

(** *** Optional dependencies *)

Lemma version_lt_not_gt (v w : Deps.StrictVersion) :
  Deps.version_lt v w = true -> Deps.version_gt v w = false.
Proof.
  unfold Deps.version_lt, Deps.version_gt. by destruct (Deps.version_compare v w).
Qed.

(** X22: the Keras flag has no upper bound on the Keras version.  The
    test [not k_ver >= MIN and k_ver <= MAX] negates its first comparison
    only, so it fires for versions below the minimum and for no other:
    [HAS_KERAS_TF] is set exactly when both imports succeed, both version
    strings start with three dotted numbers, Keras is at least 1.2.2,
    TensorFlow at least 1.0.0, and the backend is 'tensorflow'. *)
Theorem keras_gate_has_no_upper_bound (env : Deps.Packages) :
  Deps.HAS_KERAS_TF env = true
  ↔ ∃ k tf_version k_ver tf_ver,
      Deps.keras env = Some k
      ∧ Deps.tensorflow env = Some tf_version
      ∧ Deps.__get_version (Deps.keras_version k) = Some k_ver
      ∧ Deps.__get_version tf_version = Some tf_ver
      ∧ Deps.version_lt k_ver Deps.KERAS_MIN_VERSION = false
      ∧ Deps.version_lt tf_ver Deps.TF_MIN_VERSION = false
      ∧ Deps.backend k = "tensorflow".
Proof.
  unfold Deps.HAS_KERAS_TF, Deps.probe_keras_tf, Deps.version_ge, Deps.version_le.
  split.
  - destruct (Deps.keras env) as [k|]; [|done].
    destruct (Deps.tensorflow env) as [tf_version|]; [|done].
    destruct (Deps.__get_version tf_version) as [tf_ver|] eqn:Htf; [|done].
    destruct (Deps.__get_version (Deps.keras_version k)) as [k_ver|] eqn:Hkv; [|done].
    intros Hflag. exists k, tf_version, k_ver, tf_ver.
    change Deps.KERAS_MAX_VERSION with Deps.KERAS_MIN_VERSION in Hflag.
    destruct (Deps.version_lt k_ver Deps.KERAS_MIN_VERSION) eqn:Hk;
      [rewrite (version_lt_not_gt _ _ Hk) in Hflag|];
      destruct (Deps.version_lt tf_ver Deps.TF_MIN_VERSION) eqn:Ht;
      destruct (Deps.version_gt tf_ver Deps.TF_MAX_VERSION);
      destruct (String.eqb_spec (Deps.backend k) "tensorflow");
      simpl in Hflag; try done.
  - intros (k & tf_version & k_ver & tf_ver & -> & -> & -> & -> & -> & -> & ->).
    by destruct (Deps.version_gt tf_ver Deps.TF_MAX_VERSION).
Qed.

(** X23: when the Keras flag is cleared without a warning, an exception
    was swallowed: an import failed or a version string did not start
    with three dotted numbers; every version or backend that is refused
    is logged.  A TensorFlow version above 1.1.1 is logged too, but does
    not clear the flag. *)
Theorem keras_probe_warnings (env : Deps.Packages) :
  (Deps.HAS_KERAS_TF env = false ∧ (Deps.probe_keras_tf env).2 = []
   ↔ Deps.keras env = None
     ∨ Deps.tensorflow env = None
     ∨ (Deps.tensorflow env ≫= Deps.__get_version) = None
     ∨ (Deps.keras env ≫= λ k, Deps.__get_version (Deps.keras_version k)) = None)
  ∧ (∀ tf_version tf_ver,
       Deps.HAS_KERAS_TF env = true ->
       Deps.tensorflow env = Some tf_version ->
       Deps.__get_version tf_version = Some tf_ver ->
       (Deps.probe_keras_tf env).2
       = if Deps.version_gt tf_ver Deps.TF_MAX_VERSION
         then [Deps.tensorflow_not_known_compatible] else []).
Proof.
  unfold Deps.HAS_KERAS_TF, Deps.probe_keras_tf, Deps.version_ge, Deps.version_le.
  destruct (Deps.keras env) as [k|]; [|split; [split; [by left | done] | done]].
  destruct (Deps.tensorflow env) as [tf_version|];
    [|split; [split; [by right; left | done] | done]].
  cbn [mbind option_bind].
  destruct (Deps.__get_version tf_version) as [tf_ver|] eqn:Htf;
    [|split; [split; [by right; right; left | done] | done]].
  destruct (Deps.__get_version (Deps.keras_version k)) as [k_ver|] eqn:Hkv;
    [|split; [split; [by right; right; right | done] | done]].
  change Deps.KERAS_MAX_VERSION with Deps.KERAS_MIN_VERSION.
  split.
  - split; [|by intros [|[|[|]]]].
    destruct (Deps.version_lt k_ver Deps.KERAS_MIN_VERSION) eqn:Hk;
      [rewrite (version_lt_not_gt _ _ Hk)|];
      destruct (Deps.version_lt tf_ver Deps.TF_MIN_VERSION);
      destruct (Deps.version_gt tf_ver Deps.TF_MAX_VERSION);
      destruct (String.eqb (Deps.backend k) "tensorflow");
      simpl; intros [? ?]; done.
  - intros tf_version' tf_ver' Hflag [= <-] Hparse.
    rewrite Htf in Hparse. injection Hparse as <-. revert Hflag.
    destruct (Deps.version_lt k_ver Deps.KERAS_MIN_VERSION) eqn:Hk;
      [rewrite (version_lt_not_gt _ _ Hk)|];
      destruct (Deps.version_lt tf_ver Deps.TF_MIN_VERSION);
      destruct (Deps.version_gt tf_ver Deps.TF_MAX_VERSION);
      destruct (String.eqb (Deps.backend k) "tensorflow");
      simpl; done.
Qed.

Lemma append_String (c : ascii) (s t : string) :
  (String c s ++ t)%string = String c (s ++ t)%string.
Proof. reflexivity. Qed.

Lemma append_EmptyString (t : string) : (EmptyString ++ t)%string = t.
Proof. reflexivity. Qed.

Lemma append_assoc (s t u : string) : ((s ++ t) ++ u = s ++ (t ++ u))%string.
Proof.
  induction s as [|c s IH]; [done|]. by rewrite !append_String, IH.
Qed.

(** Reading back a printed number. *)
Lemma digits_string_of_uint (d : Decimal.uint) : ∀ acc rest,
  Deps.starts_with_digit rest = false ->
  Deps.digits acc (NilEmpty.string_of_uint d ++ rest)%string
  = (Nat.of_uint_acc d acc, rest).
Proof.
  induction d; intros acc rest Hrest;
    cbn [NilEmpty.string_of_uint Nat.of_uint_acc];
    rewrite ?append_String, ?append_EmptyString.
  all: try (cbn [Deps.digits];
            match goal with
            | |- context [Deps.digit ?c] =>
                let v := eval vm_compute in (Deps.digit c) in
                change (Deps.digit c) with v
            end;
            cbv iota; rewrite IHd by done; rewrite Nat.tail_mul_spec;
            do 2 f_equal; lia).
  destruct rest as [|c rest]; [done|]. cbn [Deps.digits].
  cbn [Deps.starts_with_digit] in Hrest. destruct (Deps.digit c); [|done].
  apply bool_decide_eq_false in Hrest. by destruct Hrest.
Qed.

Lemma number_decimal (n : nat) (rest : string) :
  Deps.starts_with_digit rest = false ->
  Deps.number (Deps.decimal n ++ rest)%string = Some (n, rest).
Proof.
  intros Hrest. unfold Deps.decimal.
  pose proof (Unsigned.of_to n) as Hn. unfold Nat.of_uint in Hn.
  destruct (Nat.to_uint n) as [|d|d|d|d|d|d|d|d|d|d] eqn:Hd;
    cbn [NilEmpty.string_of_uint];
    rewrite ?append_String, ?append_EmptyString; cbn [Deps.number].
  1: { simpl in Hn. subst n. vm_compute in Hd. done. }
  all: match goal with
       | |- context [Deps.digit ?c] =>
           let v := eval vm_compute in (Deps.digit c) in
           change (Deps.digit c) with v
       end; cbv iota;
       rewrite digits_string_of_uint by done;
       cbn [Nat.of_uint_acc] in Hn; rewrite Nat.tail_mul_spec in Hn;
       do 2 f_equal; rewrite <- Hn; f_equal; lia.
Qed.

(** X24: [__get_version] reads back a version printed as three dotted
    numbers, whatever follows them ('1.6.1rc', '1.6.1.dev'), as long as
    it is not one more digit; [__get_sklearn_version] reads the first two
    numbers of it.  A string of two numbers only is refused by
    [__get_version]. *)
Theorem get_version_reads_dotted_prefix (a b c : nat) (suffix : string) :
  Deps.starts_with_digit suffix = false ->
  Deps.__get_version (Deps.dotted (a, b, c) ++ suffix)%string = Some (a, b, c)
  ∧ Deps.__get_sklearn_version (Deps.dotted (a, b, c) ++ suffix)%string = Some (a, b, 0)
  ∧ (Deps.dot suffix = None ->
     Deps.__get_version (Deps.decimal a ++ "." ++ Deps.decimal b ++ suffix)%string = None).
Proof.
  intros Hsuffix.
  unfold Deps.__get_version, Deps.__get_sklearn_version, Deps.dotted.
  rewrite !append_assoc.
  split_and!.
  - rewrite number_decimal by done. cbn [mbind option_bind]; rewrite append_String, append_EmptyString; cbn [Deps.dot mbind option_bind].
    rewrite number_decimal by done. cbn [mbind option_bind]; rewrite append_String, append_EmptyString; cbn [Deps.dot mbind option_bind].
    by rewrite number_decimal by done.
  - rewrite number_decimal by done. cbn [mbind option_bind]; rewrite append_String, append_EmptyString; cbn [Deps.dot mbind option_bind].
    by rewrite number_decimal by done.
  - intros Hdot.
    rewrite number_decimal by done. cbn [mbind option_bind]; rewrite append_String, append_EmptyString; cbn [Deps.dot mbind option_bind].
    rewrite number_decimal by done. cbn [mbind option_bind]. by rewrite Hdot.
Qed.

End Properties.

(** ** The properties on concrete documents *)

(** A 1x2 kernel with two input and three output channels, numbered in
    the caller's layout, is stored with the output channel slowest. *)
Example add_convolution_arange :
  ∃ p, final (add_convolution "conv" 2 3 1 2 1 1 "valid" 1 (arange [1; 2; 2; 3])
                None false false None "data" "probs" (example_builder plain))
       = with_layer {| layer_name := "conv";
                       layer_input := ["data"];
                       layer_output := ["probs"];
                       layer_params := convolution p |} (example_builder plain)
       ∧ conv_weights p
         = map inject_Z [0; 6; 3; 9; 1; 7; 4; 10; 2; 8; 5; 11]%Z.
Proof. vm_compute. eexists. split; reflexivity. Qed.

(** The weight layout of a deconvolution call on the numbered 1x2 kernel. *)
Lemma add_convolution_weight_layout_witness :
  shape (arange [1; 2; 2; 3]) = [1; 2; 2; 3]
  ∧ ∃ p, final (add_convolution "conv" 2 3 1 2 1 1 "same" 1 (arange [1; 2; 2; 3])
                  None false true None "data" "probs" (example_builder plain))
         = with_layer {| layer_name := "conv";
                         layer_input := ["data"];
                         layer_output := ["probs"];
                         layer_params := convolution p |} (example_builder plain)
         ∧ conv_weights p
           = map float (flattened_Cin_Cout_H_W (arange [1; 2; 2; 3]) 1 2 2 3)
         ∧ (false = false ->
            add_convolution "conv" 2 3 1 2 1 1 "same" 1 (arange [1; 2; 2; 3])
              None false true None "data" "probs" (example_builder plain)
            = Return (final
                (add_convolution "conv" 2 3 1 2 1 1 "same" 1 (arange [1; 2; 2; 3])
                   None false true None "data" "probs" (example_builder plain)))).
Proof.
  split; [reflexivity|].
  apply (add_convolution_weight_layout "conv" 1 2 2 3 1 1 "same" 1
           (arange [1; 2; 2; 3]) None false true None "data" "probs"
           (example_builder plain)).
  - reflexivity.
  - right. reflexivity.
Defined.

(** The border mode 'full' on the example document. *)
Lemma add_convolution_unsupported_border_witness :
  "full" ≠ "valid" ∧ "full" ≠ "same"
  ∧ add_convolution "conv" 2 3 1 2 1 1 "full" 1 (arange [1; 2; 2; 3])
      None false false None "data" "probs" (example_builder plain)
    = Raise NotImplementedError
        (with_layer {| layer_name := "conv";
                       layer_input := ["data"];
                       layer_output := ["probs"];
                       layer_params :=
                         convolution (convolution_before_border 2 3 1 2 1 1 false None) |}
           (example_builder plain)).
Proof.
  split; [discriminate|]. split; [discriminate|].
  apply (add_convolution_unsupported_border "conv" 2 3 1 2 1 1 "full" 1
           (arange [1; 2; 2; 3]) None false false None "data" "probs"
           (example_builder plain)); discriminate.
Defined.

(** C3, as stated, fails: the call with border mode 'full' raises
    NotImplementedError, and the layer list, empty before the call, holds
    a layer after it. *)
Lemma add_convolution_border_appends_layer :
  ∃ b', add_convolution "conv" 2 3 1 2 1 1 "full" 1 (arange [1; 2; 2; 3])
          None false false None "data" "probs" (example_builder plain)
        = Raise NotImplementedError b'
        ∧ layers (example_builder plain) = []
        ∧ length (layers b') = 1
        ∧ layers b' ≠ layers (example_builder plain).
Proof. eexists. split; [reflexivity|]. by split_and!. Qed.

(** No labels, on the example classifier, whose first output is an array. *)
Lemma set_class_labels_empty_witness :
  description_output (example_builder classifier)
  = {| feature_name := "probs"; feature_type := multiArrayType [2%Z] DOUBLE |} :: []
  ∧ set_class_labels [] "classLabel" (example_builder classifier)
    = Return (with_probability_dictionary
                {| feature_name := "probs"; feature_type := multiArrayType [2%Z] DOUBLE |}
                [] (example_builder classifier))
  ∧ (with_probability_dictionary
       {| feature_name := "probs"; feature_type := multiArrayType [2%Z] DOUBLE |}
       [] (example_builder classifier)
     = example_builder classifier
     ↔ ∃ key, multiArrayType [2%Z] DOUBLE = dictionaryType key).
Proof.
  split; [reflexivity|].
  apply (set_class_labels_empty "classLabel" (example_builder classifier)
           {| feature_name := "probs"; feature_type := multiArrayType [2%Z] DOUBLE |} []).
  reflexivity.
Defined.

(** C4, as stated, fails: with an empty label list the call returns, and
    the first output, an array before the call, is a dictionary after it;
    the document is not the one before the call. *)
Lemma set_class_labels_empty_changes_output :
  ∃ b', set_class_labels [] "classLabel" (example_builder classifier) = Return b'
        ∧ feature_type <$> description_output (example_builder classifier)
          = [multiArrayType [2%Z] DOUBLE]
        ∧ feature_type <$> description_output b' = [dictionaryType KeyUnset]
        ∧ b' ≠ example_builder classifier.
Proof. eexists. split; [reflexivity|]. by split_and!. Qed.

(** Labels that start with a float, on the example classifier. *)
Lemma set_class_labels_rejects_first_type_witness :
  description_output (example_builder classifier)
  = {| feature_name := "probs"; feature_type := multiArrayType [2%Z] DOUBLE |} :: []
  ∧ type (PyFloat 1.5) ≠ py_int ∧ type (PyFloat 1.5) ≠ py_str
  ∧ set_class_labels [PyFloat 1.5; PyInt 2] "classLabel" (example_builder classifier)
    = Raise TypeError
        (with_probability_dictionary
           {| feature_name := "probs"; feature_type := multiArrayType [2%Z] DOUBLE |}
           [] (example_builder classifier)).
Proof.
  split; [reflexivity|]. split; [discriminate|]. split; [discriminate|].
  apply (set_class_labels_rejects_first_type (PyFloat 1.5) [PyInt 2] "classLabel"
           (example_builder classifier)
           {| feature_name := "probs"; feature_type := multiArrayType [2%Z] DOUBLE |} []);
    [reflexivity | discriminate | discriminate].
Defined.

(** C5, as stated, fails: the labels [1.5, 2] are neither all integers
    nor all strings, the call raises TypeError, and the document it
    leaves is not the one before the call. *)
Lemma set_class_labels_TypeError_after_mutation :
  ∃ b', set_class_labels [PyFloat 1.5; PyInt 2] "classLabel" (example_builder classifier)
        = Raise TypeError b'
        ∧ feature_type <$> description_output b' = [dictionaryType KeyUnset]
        ∧ b' ≠ example_builder classifier.
Proof. eexists. split; [reflexivity|]. by split_and!. Qed.

(** A list that starts with an integer and holds a string is rejected
    only when the string is appended to the label vector: by then the
    names, the new output and the first label are written. *)
Example set_class_labels_mixed_after_first :
  ∃ b', set_class_labels [PyInt 1; PyStr "a"] "classLabel" (example_builder classifier)
        = Raise TypeError b'
        ∧ feature_name <$> description_output b' = ["probs"; "classLabel"]
        ∧ predictedFeatureName b' = "classLabel"
        ∧ classLabels b' = int64ClassLabels [1%Z].
Proof. eexists. split; [reflexivity|]. by split_and!. Qed.

(** The rank-2 shape (4, 3), written to the input and to the output of the
    example document. *)
Lemma set_input_normalizes_set_output_copies_witness :
  length [[4; 3]%Z] <= length (description_input (example_builder plain))
  ∧ length [[4; 3]%Z] <= length (description_output (example_builder plain))
  ∧ (Forall supported_rank [[4; 3]%Z] ->
     set_input ["data"] [[4; 3]%Z] (example_builder plain)
     = Return (set_description_input
                 (write_shapes (map normalize_shape [[4; 3]%Z])
                    (description_input (example_builder plain)))
                 (example_builder plain)))
  ∧ (¬ Forall supported_rank [[4; 3]%Z] ->
     ∃ b', set_input ["data"] [[4; 3]%Z] (example_builder plain) = Raise RuntimeError b')
  ∧ set_output ["data"] [[4; 3]%Z] (example_builder plain)
    = Return (set_description_output
                (write_shapes [[4; 3]%Z] (description_output (example_builder plain)))
                (example_builder plain)).
Proof.
  split; [simpl; lia|]. split; [simpl; lia|].
  apply (set_input_normalizes_set_output_copies ["data"] [[4; 3]%Z]
           (example_builder plain)); simpl; lia.
Defined.

(** C6, as stated, fails for [set_output]: the rank-2 shape (4, 3) is
    written as it is, where [set_input] writes (3,); and a rank-4 shape
    is written too, where [set_input] raises. *)
Lemma set_output_keeps_rank_2 :
  (∃ b', set_output ["probs"] [[4; 3]%Z] (example_builder plain) = Return b'
         ∧ feature_type <$> description_output b' = [multiArrayType [4; 3]%Z DOUBLE]
         ∧ feature_type <$> description_output b' ≠ [multiArrayType [3%Z] DOUBLE])
  ∧ (∃ b', set_input ["data"] [[4; 3]%Z] (example_builder plain) = Return b'
           ∧ feature_type <$> description_input b' = [multiArrayType [3%Z] DOUBLE])
  ∧ (∃ b', set_output ["probs"] [[1; 2; 3; 4]%Z] (example_builder plain) = Return b'
           ∧ feature_type <$> description_output b'
             = [multiArrayType [1; 2; 3; 4]%Z DOUBLE])
  ∧ (∃ b', set_input ["data"] [[1; 2; 3; 4]%Z] (example_builder plain)
           = Raise RuntimeError b').
Proof. split_and!; eexists; first [reflexivity | by split_and!]. Qed.

(** A dot product of a single input. *)
Lemma add_elementwise_any_arity_witness :
  "DOT" ∈ elementwise_modes
  ∧ ∃ p, add_elementwise "dot" ["data"] "probs" "DOT" (example_builder plain)
         = Return (with_layer {| layer_name := "dot";
                                 layer_input := ["data"];
                                 layer_output := ["probs"];
                                 layer_params := p |} (example_builder plain))
         ∧ WhichOneof p = elementwise_variant "DOT"
         ∧ WhichOneof p ≠ None.
Proof.
  assert ("DOT" ∈ elementwise_modes) as Hmode.
  { unfold elementwise_modes. rewrite !elem_of_cons. do 4 right. by left. }
  split; [exact Hmode|].
  exact (add_elementwise_any_arity "dot" ["data"] "probs" "DOT" (example_builder plain) Hmode).
Defined.

(** C9, as stated, fails: a call with one input name and mode 'ADD', and
    a call with three input names and mode 'DOT', return and append
    their layer. *)
Lemma add_elementwise_accepts_wrong_arity :
  add_elementwise "sum" ["data"] "probs" "ADD" (example_builder plain)
  = Return (with_layer {| layer_name := "sum";
                          layer_input := ["data"];
                          layer_output := ["probs"];
                          layer_params := add |} (example_builder plain))
  ∧ add_elementwise "dot" ["x"; "y"; "z"] "probs" "DOT" (example_builder plain)
    = Return (with_layer {| layer_name := "dot";
                            layer_input := ["x"; "y"; "z"];
                            layer_output := ["probs"];
                            layer_params := dot false |} (example_builder plain)).
Proof. split; reflexivity. Qed.

(** C8, as stated, fails: two calls that return, [add_softmax] and
    [add_dropout], leave one layer, not two. *)
Lemma two_calls_one_layer :
  ∃ b', run_calls [ call_add_softmax (A := Z) "softmax" "data" "probs";
                    call_add_dropout "dropout" "probs" "out" ]
          (example_builder plain)
        = Return b'
        ∧ layers (example_builder plain) = []
        ∧ length (layers b') = 1
        ∧ length (layers b') ≠ 2.
Proof. eexists. split; [reflexivity | by split_and!]. Qed.

(** Three calls, one of them [add_dropout], on the example document. *)
Lemma layers_after_calls_witness :
  let calls := [ call_add_softmax (A := Z) "softmax" "data" "probs";
                 call_add_dropout "dropout" "probs" "out";
                 call_add_elementwise "sum" ["probs"; "out"] "sum" "ADD" ] in
  let b := example_builder plain in
  let b' := final (run_calls calls b) in
  run_calls calls b = Return b'
  ∧ ∃ new, layers b' = layers b ++ new
           ∧ Forall2 made_by (List.filter (fun c => negb (is_add_dropout c)) calls) new
           ∧ (layers b = [] ->
              length (layers b')
              = length calls - length (List.filter is_add_dropout calls)).
Proof.
  intros calls b b'.
  assert (run_calls calls b = Return b') as Hrun by reflexivity.
  split; [exact Hrun|].
  exact (layers_after_calls calls b b' Hrun).
Defined.

(** One hidden unit and two inputs: each gate is one row. *)
Lemma gate_blocks_are_row_slices_witness :
  let G_h := arange [1; 1; 3; 1] in
  let G_x := arange [1; 1; 3; 2] in
  let W_h := arange [1; 1; 4; 1] in
  let W_x := arange [1; 1; 4; 2] in
  let b := Some (vector_of [1; 2; 3; 4]%Z) in
  let peep := Some (vector_of [0; 0; 0]%Z) in
  let doc := example_builder plain in
  (gate_stacked 3 1 G_x ∧ gate_stacked 3 1 G_h)
  ∧ (gate_stacked 4 1 W_x ∧ gate_stacked 4 1 W_h)
  ∧ Forall (fun a => a ∈ recurrent_activations) ["TANH"; "SIGMOID"; "TANH"; "RELU"]
  ∧ (sliceable b ∧ sliceable b ∧ sliceable peep ∧ sliceable (@None (ndarray Z)))
  ∧ (present b = true -> is_Some b)
  ∧ (∃ p, add_gru "rnn" G_h G_x b "TANH" "SIGMOID" 1 2 ["data"] ["probs"]
            false false doc
          = Return (with_layer {| layer_name := "rnn";
                                  layer_input := ["data"];
                                  layer_output := ["probs"];
                                  layer_params := gru p |} doc)
          ∧ gru_gate_order p G_x G_h 1)
  ∧ (∃ p, add_unilstm "rnn" 1 2 ["data"] ["probs"] W_h W_x "SIGMOID" "TANH" "RELU"
            b peep false false false 50%Z false doc
          = Return (with_layer {| layer_name := "rnn";
                                  layer_input := ["data"];
                                  layer_output := ["probs"];
                                  layer_params := uniDirectionalLSTM p |} doc)
          ∧ lstm_gate_order (uni_weightParams p) W_x W_h 1)
  ∧ (∃ p forward backward,
          add_bidirlstm "rnn" 1 2 ["data"] ["probs"] W_h W_x W_h W_x
            "SIGMOID" "TANH" "RELU" b b peep None false false false 50%Z doc
          = Return (with_layer {| layer_name := "rnn";
                                  layer_input := ["data"];
                                  layer_output := ["probs"];
                                  layer_params := biDirectionalLSTM p |} doc)
          ∧ bi_weightParams p = [forward; backward]
          ∧ lstm_gate_order forward W_x W_h 1
          ∧ lstm_gate_order backward W_x W_h 1).
Proof.
  intros G_h G_x W_h W_x b peep doc.
  assert (gate_stacked 3 1 G_x ∧ gate_stacked 3 1 G_h) as HG
    by (split; [by exists 0, 0, 2 | by exists 0, 0, 1]).
  assert (gate_stacked 4 1 W_x ∧ gate_stacked 4 1 W_h) as HW
    by (split; [by exists 0, 0, 2 | by exists 0, 0, 1]).
  assert (Forall (fun a => a ∈ recurrent_activations) ["TANH"; "SIGMOID"; "TANH"; "RELU"])
    as Hact.
  { unfold recurrent_activations.
    repeat constructor; rewrite !elem_of_cons; repeat ((by left) || right). }
  assert (sliceable b ∧ sliceable b ∧ sliceable peep ∧ sliceable (@None (ndarray Z)))
    as Hvec by (by split_and!).
  assert (present b = true -> is_Some b) as Hback by (by intros _; eexists).
  split; [exact HG|]. split; [exact HW|]. split; [exact Hact|].
  split; [exact Hvec|]. split; [exact Hback|].
  exact (gate_blocks_are_row_slices "rnn" 1 2 ["data"] ["probs"] false false false
           false 50%Z "TANH" "SIGMOID" "TANH" "RELU" G_h G_x W_h W_x W_h W_x
           b b peep None doc HG HW HW Hact Hvec Hback).
Defined.

(** The rows a GRU call writes, on arrays numbered in flattening order:
    gate [g] gets row [g] of the three rows. *)
Example add_gru_arange :
  ∃ p, add_gru "gru" (arange [1; 1; 3; 1]) (arange [1; 1; 3; 2]) None
         "TANH" "SIGMOID" 1 2 ["data"] ["probs"] false false (example_builder plain)
       = Return (with_layer {| layer_name := "gru";
                               layer_input := ["data"];
                               layer_output := ["probs"];
                               layer_params := gru p |} (example_builder plain))
       ∧ gru_updateGateWeightMatrix p = map inject_Z [0; 1]%Z
       ∧ gru_resetGateWeightMatrix p = map inject_Z [2; 3]%Z
       ∧ gru_outputGateWeightMatrix p = map inject_Z [4; 5]%Z.
Proof. vm_compute. eexists. split; [reflexivity|]. by split_and!. Qed.

(** C7 fails on [add_bidirlstm], where the backward bias is written
    under the test of the forward bias.  With no forward bias, a backward
    bias with a non-zero element is left out, while the backward peephole
    vector, tested on its own, is written; with a forward bias, a
    backward bias of zeros is written. *)
Theorem add_bidirlstm_backward_bias_follows_forward :
  let W_h := arange [1; 1; 4; 1] in
  let W_x := arange [1; 1; 4; 2] in
  let nonzero_bias := Some (vector_of [1; 0; 0; 0]%Z) in
  let zero_bias := Some (vector_of [0; 0; 0; 0]%Z) in
  let peep_back := Some (vector_of [1; 0; 0]%Z) in
  let doc := example_builder plain in
  present nonzero_bias = true ∧ present zero_bias = false
  ∧ (∃ p forward backward,
        add_bidirlstm "lstm" 1 2 ["data"] ["probs"] W_h W_x W_h W_x
          "SIGMOID" "TANH" "TANH" None nonzero_bias None peep_back
          false false false 50%Z doc
        = Return (with_layer {| layer_name := "lstm";
                                layer_input := ["data"];
                                layer_output := ["probs"];
                                layer_params := biDirectionalLSTM p |} doc)
        ∧ bi_weightParams p = [forward; backward]
        ∧ lstm_hasBiasVectors (bi_params p) = false
        ∧ w_inputGateBiasVector backward = []
        ∧ w_forgetGateBiasVector backward = []
        ∧ w_outputGateBiasVector backward = []
        ∧ w_blockInputBiasVector backward = []
        ∧ w_inputGatePeepholeVector backward = map inject_Z [1%Z]
        ∧ w_forgetGatePeepholeVector backward = map inject_Z [0%Z]
        ∧ w_outputGatePeepholeVector backward = map inject_Z [0%Z])
  ∧ (∃ p forward backward,
        add_bidirlstm "lstm" 1 2 ["data"] ["probs"] W_h W_x W_h W_x
          "SIGMOID" "TANH" "TANH" nonzero_bias zero_bias None None
          false false false 50%Z doc
        = Return (with_layer {| layer_name := "lstm";
                                layer_input := ["data"];
                                layer_output := ["probs"];
                                layer_params := biDirectionalLSTM p |} doc)
        ∧ bi_weightParams p = [forward; backward]
        ∧ w_inputGateBiasVector backward = map inject_Z [0%Z]
        ∧ w_forgetGateBiasVector backward = map inject_Z [0%Z]
        ∧ w_outputGateBiasVector backward = map inject_Z [0%Z]
        ∧ w_blockInputBiasVector backward = map inject_Z [0%Z])
  ∧ (∃ b', add_bidirlstm "lstm" 1 2 ["data"] ["probs"] W_h W_x W_h W_x
             "SIGMOID" "TANH" "TANH" nonzero_bias None None None
             false false false 50%Z doc
           = Raise TypeError b').
Proof.
  vm_compute. split; [reflexivity|]. split; [reflexivity|]. split_and!.
  - eexists _, _, _. split; [reflexivity|]. split; [reflexivity|]. by split_and!.
  - eexists _, _, _. split; [reflexivity|]. split; [reflexivity|]. by split_and!.
  - eexists. reflexivity.
Qed.

(** *** Image preprocessing *)


Lemma set_pre_processing_parameters_frame_witness :
  feature_name <$> description_input
    (document (network_of (set_pre_processing_parameters ["image"] false
                             0%Z 0%Z 0%Z 0%Z 1%Z two_channel_network)))
  = ["image"].
Proof.
  exact (proj1 (set_pre_processing_parameters_frame ["image"] false
                  0%Z 0%Z 0%Z 0%Z 1%Z two_channel_network)).
Defined.

(** Two channels are refused, and an empty preprocessing entry stays. *)
Lemma set_pre_processing_parameters_bad_shape_witness :
  let bad := {| feature_name := "image";
                feature_type := multiArrayType [2; 4; 5]%Z DOUBLE |} in
  description_input (document two_channel_network) = [] ++ bad :: []
  ∧ is_in (feature_name bad) ["image"] = true
  ∧ ∃ good',
      set_pre_processing_parameters ["image"] false 0%Z 0%Z 0%Z 0%Z 1%Z
        two_channel_network
      = Raised ValueError
          {| document := set_description_input (good' ++ bad :: [])
                           (document two_channel_network);
             preprocessing := preprocessing two_channel_network ++ [PreprocessorUnset] |}
      ∧ Forall2 (image_input ["image"] false) [] good'.
Proof.
  intros bad. split; [reflexivity|]. split; [reflexivity|].
  apply (set_pre_processing_parameters_bad_shape ["image"] false 0%Z 0%Z 0%Z 0%Z 1%Z
           two_channel_network [] [] bad [2; 4; 5]%Z DOUBLE).
  - reflexivity.
  - constructor.
  - reflexivity.
  - reflexivity.
  - intros height width. split; discriminate.
Defined.


(** *** The interface *)

Lemma set_input_set_output_too_many_shapes_witness :
  length (description_output (example_builder plain)) < length [[4]; [5]]%Z
  ∧ set_output ["a"; "b"] [[4]; [5]]%Z (example_builder plain)
    = Raise IndexError
        (set_description_output
           (write_shapes [[4]; [5]]%Z (description_output (example_builder plain)))
           (example_builder plain)).
Proof.
  assert (length (description_output (example_builder plain))
          < length [[4]; [5]]%Z) as Hlen by (simpl; lia).
  split; [exact Hlen|].
  exact (proj1 (set_input_set_output_too_many_shapes ["a"; "b"] [[4]; [5]]%Z
                  (example_builder plain)) Hlen).
Defined.

Lemma set_input_stops_at_unsupported_rank_witness :
  Forall supported_rank [[4]%Z]
  ∧ ¬ supported_rank [1; 2; 3; 4]%Z
  ∧ set_input ["a"; "b"] ([[4]%Z] ++ [1; 2; 3; 4]%Z :: []) (example_builder plain)
    = Raise RuntimeError
        (set_description_input
           (write_shapes (map normalize_shape [[4]%Z])
              (description_input (example_builder plain)))
           (example_builder plain)).
Proof.
  assert (Forall supported_rank [[4]%Z]) as Hgood
    by (repeat constructor; unfold supported_rank; simpl; lia).
  assert (¬ supported_rank [1; 2; 3; 4]%Z) as Hbad
    by (unfold supported_rank; simpl; lia).
  split; [exact Hgood|]. split; [exact Hbad|].
  apply (set_input_stops_at_unsupported_rank ["a"; "b"] [[4]%Z] [] [1; 2; 3; 4]%Z
           (example_builder plain) Hgood Hbad).
  simpl; lia.
Defined.

Lemma set_input_set_output_last_write_wins_witness :
  length [[4]%Z] <= length [[5]%Z]
  ∧ ∃ b1, set_output ["probs"] [[4]%Z] (example_builder plain) = Return b1
          ∧ set_output ["probs"] [[5]%Z] b1
            = set_output ["probs"] [[5]%Z] (example_builder plain).
Proof.
  assert (length [[4]%Z] <= length [[5]%Z]) as Hlen by (simpl; lia).
  split; [exact Hlen|].
  apply (proj2 (set_input_set_output_last_write_wins ["probs"] ["probs"]
                  [[4]%Z] [[5]%Z] (example_builder plain) Hlen)).
  simpl; lia.
Defined.

Lemma set_input_set_output_keep_slots_witness :
  ∃ inputs',
    final (set_input ["data"] [[2; 7]%Z] (example_builder plain))
    = set_description_input inputs' (example_builder plain)
    ∧ feature_name <$> inputs' = ["data"].
Proof.
  exact (proj1 (set_input_set_output_keep_slots ["data"] [[2; 7]%Z]
                  (example_builder plain))).
Defined.

(** *** Class labels *)

Lemma set_class_labels_homogeneous_witness :
  nn_mode (example_builder classifier) = classifier
  ∧ ∃ b', set_class_labels [PyInt 1; PyInt 2] "classLabel" (example_builder classifier)
          = Return b'
          ∧ classLabels b' = int64ClassLabels [1; 2]%Z
          ∧ feature_name <$> description_output b' = ["probs"; "classLabel"].
Proof.
  split; [reflexivity|]. eexists. split.
  - exact (proj1 (set_class_labels_homogeneous "classLabel" (example_builder classifier)
                    {| feature_name := "probs";
                       feature_type := multiArrayType [2%Z] DOUBLE |} []
                    eq_refl eq_refl) 1%Z [2%Z]).
  - split; reflexivity.
Defined.

Lemma set_class_labels_stops_at_other_type_witness :
  type (PyStr "a") ≠ py_int
  ∧ ∃ b', set_class_labels [PyInt 1; PyStr "a"; PyInt 3] "classLabel"
            (example_builder classifier)
          = Raise TypeError b'
          ∧ classLabels b' = int64ClassLabels [1%Z].
Proof.
  assert (type (PyStr "a") ≠ py_int) as Htype by discriminate.
  split; [exact Htype|]. eexists. split.
  - exact (proj1 (set_class_labels_stops_at_other_type "classLabel"
                    (example_builder classifier)
                    {| feature_name := "probs";
                       feature_type := multiArrayType [2%Z] DOUBLE |} []
                    (PyStr "a") [PyInt 3] eq_refl eq_refl) 1%Z [] Htype).
  - reflexivity.
Defined.


(** *** Tags and parameters *)

Lemma unknown_tag_leaves_empty_layer_witness :
  ("SWISH" ∉ non_linearities)
  ∧ add_activation "act" "SWISH" "data" "probs" (params_list [1; 2]%Z)
      (example_builder plain)
    = Raise TypeError
        (with_layer (empty_layer "act" ["data"] ["probs"]) (example_builder plain)).
Proof.
  assert ("SWISH" ∉ non_linearities) as Hname.
  { unfold non_linearities. intros Hin.
    repeat (apply elem_of_cons in Hin as [Hin|Hin]; [discriminate Hin|]).
    by apply elem_of_nil in Hin. }
  split; [exact Hname|].
  exact (proj1 (unknown_tag_leaves_empty_layer "act" "data" "probs"
                  (example_builder plain))
           "SWISH" (params_list [1; 2]%Z) Hname).
Defined.

Lemma unchecked_tags_witness :
  "MAX" ∈ pooling_types ∧ "FULL" ≠ "VALID" ∧ "FULL" ≠ "SAME"
  ∧ ∃ p, add_pooling "pool" 2 2 1 1 "MAX" "FULL" false false "data" "probs"
           (example_builder plain)
         = Return (with_layer {| layer_name := "pool";
                                 layer_input := ["data"];
                                 layer_output := ["probs"];
                                 layer_params := pooling p |} (example_builder plain))
         ∧ PoolingType_Value "MAX" = Some (pool_type p)
         ∧ pool_padding p = PaddingUnset
         ∧ pool_kernelSize p = [2; 2]
         ∧ pool_stride p = [1; 1].
Proof.
  assert ("MAX" ∈ pooling_types) as Htype by (unfold pooling_types; by left).
  assert ("FULL" ≠ "VALID") as Hvalid by discriminate.
  assert ("FULL" ≠ "SAME") as Hsame by discriminate.
  split; [exact Htype|]. split; [exact Hvalid|]. split; [exact Hsame|].
  exact (proj2 (unchecked_tags "pool" "data" "probs" (example_builder plain))
           2 2 1 1 "MAX" "FULL" false false Htype Hvalid Hsame).
Defined.

Lemma add_activation_without_params_witness :
  add_activation (A := Z) "act" "SIGMOID_HARD" "data" "probs" params_None
    (example_builder plain)
  = Return (with_layer {| layer_name := "act";
                          layer_input := ["data"];
                          layer_output := ["probs"];
                          layer_params := activation (sigmoidHard 0.2%Q 0.5%Q) |}
              (example_builder plain)).
Proof.
  exact (proj1 (proj2 (add_activation_without_params (A := Z) "act" "data" "probs"
                         (example_builder plain)))).
Defined.

Lemma add_activation_list_params_witness :
  [2; 3; 4]%Z = 2%Z :: 3%Z :: [4%Z]
  ∧ add_activation "act" "SIGMOID_HARD" "data" "probs" (params_list [2; 3; 4]%Z)
      (example_builder plain)
    = Return (with_layer {| layer_name := "act";
                            layer_input := ["data"];
                            layer_output := ["probs"];
                            layer_params := activation (sigmoidHard (inject_Z 2) (inject_Z 3)) |}
                (example_builder plain)).
Proof.
  split; [reflexivity|].
  destruct (add_activation_list_params "act" "data" "probs" [2; 3; 4]%Z
              (example_builder plain)) as (_ & Htwo & _).
  exact (proj1 (Htwo 2%Z 3%Z [4%Z] eq_refl)).
Defined.

Lemma dense_layers_bias_flag_witness :
  ∃ b', add_inner_product "ip" (arange [2; 3]) None 3 2 true "data" "probs"
          (example_builder plain)
        = Raise AttributeError b'
        ∧ length (layers b') = 1.
Proof.
  eexists. split.
  - exact (proj1 (proj2 (proj2 (dense_layers_bias_flag "ip" (arange [2; 3]) 3 2
                                  "data" "probs" (example_builder plain))))).
  - reflexivity.
Defined.

(** *** Convolution *)

(** Twelve elements, six declared: the first six are stored. *)
Lemma add_convolution_declared_sizes_witness :
  shape (arange [1; 2; 2; 3]) = [1; 2; 2; 3]
  ∧ ∃ p, final (add_convolution "conv" 2 3 1 1 1 1 "valid" 1 (arange [1; 2; 2; 3])
                  None false false None "data" "probs" (example_builder plain))
         = with_layer {| layer_name := "conv";
                         layer_input := ["data"];
                         layer_output := ["probs"];
                         layer_params := convolution p |} (example_builder plain)
         ∧ conv_weights p
           = map float (take (3 * 2 * 1 * 1)
                          (flattened_Cout_Cin_H_W (arange [1; 2; 2; 3]) 1 2 2 3)).
Proof.
  split; [reflexivity|].
  destruct (add_convolution_declared_sizes "conv" 1 2 2 3 2 3 1 1 1 1 "valid" 1
              (arange [1; 2; 2; 3]) None false false None "data" "probs"
              (example_builder plain) eq_refl (or_introl eq_refl))
    as (p & Hfinal & Hweights & _).
  exists p. split; [exact Hfinal | exact Hweights].
Defined.

(** A bias of four elements for three output channels. *)
Lemma add_convolution_bias_witness :
  shape (arange [1; 2; 2; 3]) = [1; 2; 2; 3]
  ∧ ∃ p, final (add_convolution "conv" 2 3 1 2 1 1 "same" 1 (arange [1; 2; 2; 3])
                  (Some (vector_of [7; 8; 9; 10]%Z)) true false None "data" "probs"
                  (example_builder plain))
         = with_layer {| layer_name := "conv";
                         layer_input := ["data"];
                         layer_output := ["probs"];
                         layer_params := convolution p |} (example_builder plain)
         ∧ conv_hasBias p = true
         ∧ conv_bias p = map float (take 3 (Numpy.flatten (vector_of [7; 8; 9; 10]%Z))).
Proof.
  split; [reflexivity|].
  destruct (add_convolution_bias "conv" 1 2 2 3 1 1 "same" 1 (arange [1; 2; 2; 3])
              (Some (vector_of [7; 8; 9; 10]%Z)) false None "data" "probs"
              (example_builder plain) eq_refl (or_intror eq_refl))
    as (p & Hfinal & Hflag & Hvector & _).
  exists p. split; [exact Hfinal|]. split; [exact Hflag|].
  exact (proj1 (Hvector (vector_of [7; 8; 9; 10]%Z) 4 eq_refl eq_refl)).
Defined.

(** *** Recurrent layers *)

Lemma recurrent_unknown_activation_witness :
  ("SOFTMAX" ∉ recurrent_activations)
  ∧ ∃ p, add_vanilla_rnn "rnn" (arange [2; 2]) (arange [2; 3]) None "SOFTMAX" 2 3
           ["data"] ["probs"] false false (example_builder plain)
         = Raise TypeError
             (with_layer {| layer_name := "rnn";
                            layer_input := ["data"];
                            layer_output := ["probs"];
                            layer_params := simpleRecurrent p |} (example_builder plain))
         ∧ rnn_inputVectorSize p = 3
         ∧ rnn_outputVectorSize p = 2
         ∧ rnn_weightMatrix p = [] ∧ rnn_recursionMatrix p = []
         ∧ rnn_biasVector p = [].
Proof.
  assert ("SOFTMAX" ∉ recurrent_activations) as Hname.
  { unfold recurrent_activations. intros Hin.
    repeat (apply elem_of_cons in Hin as [Hin|Hin]; [discriminate Hin|]).
    by apply elem_of_nil in Hin. }
  split; [exact Hname|].
  exact (proj1 (recurrent_unknown_activation "rnn" 2 3 ["data"] ["probs"]
                  (arange [2; 2]) (arange [2; 3]) (arange [2; 2]) (arange [2; 3])
                  None None None None false false false false 0%Z
                  (example_builder plain))
           "SOFTMAX" Hname).
Defined.

(** Two rows where three gates of one row each are read: the third
    block is empty. *)
Lemma add_gru_unchecked_height_witness :
  "TANH" ∈ recurrent_activations ∧ "SIGMOID" ∈ recurrent_activations
  ∧ ∃ p, add_gru "gru" (arange [1; 1; 3; 1]) (arange [1; 1; 2; 2]) None
           "TANH" "SIGMOID" 1 2 ["data"] ["probs"] false false (example_builder plain)
         = Return (with_layer {| layer_name := "gru";
                                 layer_input := ["data"];
                                 layer_output := ["probs"];
                                 layer_params := gru p |} (example_builder plain))
         ∧ gru_gate_order p (arange [1; 1; 2; 2]) (arange [1; 1; 3; 1]) 1.
Proof.
  assert ("TANH" ∈ recurrent_activations) as Hact
    by (unfold recurrent_activations; rewrite !elem_of_cons; tauto).
  assert ("SIGMOID" ∈ recurrent_activations) as Hinner
    by (unfold recurrent_activations; rewrite !elem_of_cons; tauto).
  split; [exact Hact|]. split; [exact Hinner|].
  destruct (proj1 (add_gru_unchecked_height "gru" (arange [1; 1; 3; 1])
                     (arange [1; 1; 2; 2]) None "TANH" "SIGMOID" 1 2 ["data"] ["probs"]
                     false false (example_builder plain) Hact Hinner)
              0 0 2 2 0 0 3 1 eq_refl eq_refl eq_refl)
    as (p & Hcall & Horder & _).
  exists p. split; [exact Hcall | exact Horder].
Defined.

(** *** Runs of calls *)

(** A run that stops at its second call. *)
Lemma run_calls_only_appends_witness :
  let calls := [ call_add_softmax (A := Z) "softmax" "data" "probs";
                 call_add_flatten 5%Z "flat" "probs" "out";
                 call_add_softmax "last" "out" "out" ] in
  ∃ new,
    final (run_calls calls (example_builder plain))
    = set_layers (layers (example_builder plain) ++ new) (example_builder plain)
    ∧ length new <= 3.
Proof.
  intros calls.
  destruct (run_calls_only_appends calls (example_builder plain))
    as (new & Hfinal & Hlen & _).
  exists new. split; [exact Hfinal | exact Hlen].
Defined.

(** *** Optional dependencies *)

(** Keras 2.0.6, above the maximum version, keeps the flag. *)
Lemma keras_gate_has_no_upper_bound_witness :
  Deps.version_gt (2, 0, 6) Deps.KERAS_MAX_VERSION = true
  ∧ Deps.HAS_KERAS_TF newer_packages = true.
Proof.
  split; [reflexivity|].
  apply (proj2 (keras_gate_has_no_upper_bound newer_packages)).
  exists {| Deps.keras_version := "2.0.6"; Deps.backend := "tensorflow" |},
    "1.2.0", (2, 0, 6), (1, 2, 0).
  by split_and!.
Defined.

Lemma keras_probe_warnings_witness :
  Deps.HAS_KERAS_TF newer_packages = true
  ∧ (Deps.probe_keras_tf newer_packages).2 = [Deps.tensorflow_not_known_compatible].
Proof.
  assert (Deps.HAS_KERAS_TF newer_packages = true) as Hflag by reflexivity.
  split; [exact Hflag|].
  exact (proj2 (keras_probe_warnings newer_packages) "1.2.0" (1, 2, 0)
           Hflag eq_refl eq_refl).
Defined.

Lemma get_version_reads_dotted_prefix_witness :
  Deps.starts_with_digit "rc1" = false
  ∧ Deps.__get_version "1.6.1rc1" = Some (1, 6, 1).
Proof.
  assert (Deps.starts_with_digit "rc1" = false) as Hsuffix by reflexivity.
  split; [exact Hsuffix|].
  exact (proj1 (get_version_reads_dotted_prefix 1 6 1 "rc1" Hsuffix)).
Defined.

(** *** Bias and peephole vectors *)

Lemma add_elementwise_unknown_mode_witness :
  ("SUB" ∉ elementwise_modes)
  ∧ add_elementwise "sub" ["data"; "probs"] "out" "SUB" (example_builder plain)
    = Raise ValueError
        (with_layer {| layer_name := "sub";
                       layer_input := ["data"; "probs"];
                       layer_output := ["out"];
                       layer_params := LayerUnset |} (example_builder plain)).
Proof.
  assert ("SUB" ∉ elementwise_modes) as Hmode.
  { unfold elementwise_modes. intros Hin.
    repeat (apply elem_of_cons in Hin as [Hin|Hin]; [discriminate Hin|]).
    by apply elem_of_nil in Hin. }
  split; [exact Hmode|].
  exact (add_elementwise_unknown_mode "sub" ["data"; "probs"] "out" "SUB"
           (example_builder plain) Hmode).
Defined.

Lemma add_vanilla_rnn_bias_witness :
  "RELU" ∈ recurrent_activations
  ∧ ∃ p, add_vanilla_rnn "rnn" (arange [2; 2]) (arange [2; 3])
           (Some (vector_of [0; 0]%Z)) "RELU" 2 3 ["data"] ["probs"] false false
           (example_builder plain)
         = Return (with_layer {| layer_name := "rnn";
                                 layer_input := ["data"];
                                 layer_output := ["probs"];
                                 layer_params := simpleRecurrent p |}
                     (example_builder plain))
         ∧ rnn_hasBiasVector p = present (Some (vector_of [0; 0]%Z))
         ∧ rnn_biasVector p = stored_vector (Some (vector_of [0; 0]%Z)).
Proof.
  assert ("RELU" ∈ recurrent_activations) as Hact
    by (unfold recurrent_activations; rewrite !elem_of_cons; tauto).
  split; [exact Hact|].
  exact (add_vanilla_rnn_bias "rnn" (arange [2; 2]) (arange [2; 3])
           (Some (vector_of [0; 0]%Z)) "RELU" 2 3 ["data"] ["probs"] false false
           (example_builder plain) Hact).
Defined.

Lemma add_gru_bias_witness :
  let W_h := arange [1; 1; 3; 1] in
  let W_x := arange [1; 1; 3; 2] in
  let bias := Some (vector_of [1; 2; 3]%Z) in
  gate_stacked 3 1 W_x ∧ gate_stacked 3 1 W_h
  ∧ gate_vector_shaped 3 1 bias
  ∧ ∃ p, add_gru "gru" W_h W_x bias "TANH" "SIGMOID" 1 2 ["data"] ["probs"]
           false false (example_builder plain)
         = Return (with_layer {| layer_name := "gru";
                                 layer_input := ["data"];
                                 layer_output := ["probs"];
                                 layer_params := gru p |} (example_builder plain))
         ∧ gru_hasBiasVectors p = present bias
         ∧ gru_updateGateBiasVector p ++ gru_resetGateBiasVector p
           ++ gru_outputGateBiasVector p = stored_vector bias.
Proof.
  intros W_h W_x bias.
  assert (gate_stacked 3 1 W_x) as Hx by (by exists 0, 0, 2).
  assert (gate_stacked 3 1 W_h) as Hh by (by exists 0, 0, 1).
  assert ("TANH" ∈ recurrent_activations) as Hact
    by (unfold recurrent_activations; rewrite !elem_of_cons; tauto).
  assert ("SIGMOID" ∈ recurrent_activations) as Hinner
    by (unfold recurrent_activations; rewrite !elem_of_cons; tauto).
  assert (gate_vector_shaped 3 1 bias) as Hbias by reflexivity.
  split; [exact Hx|]. split; [exact Hh|]. split; [exact Hbias|].
  exact (add_gru_bias "gru" W_h W_x bias "TANH" "SIGMOID" 1 2 ["data"] ["probs"]
           false false (example_builder plain) Hx Hh Hact Hinner Hbias).
Defined.

Lemma add_unilstm_bias_peephole_witness :
  let W_h := arange [1; 1; 4; 1] in
  let W_x := arange [1; 1; 4; 2] in
  let bias := Some (vector_of [1; 2; 3; 4]%Z) in
  let peep := Some (vector_of [0; 0; 0]%Z) in
  gate_stacked 4 1 W_x ∧ gate_stacked 4 1 W_h
  ∧ gate_vector_shaped 4 1 bias ∧ gate_vector_shaped 3 1 peep
  ∧ ∃ p, add_unilstm "lstm" 1 2 ["data"] ["probs"] W_h W_x "SIGMOID" "TANH" "TANH"
           bias peep false false false 50%Z false (example_builder plain)
         = Return (with_layer {| layer_name := "lstm";
                                 layer_input := ["data"];
                                 layer_output := ["probs"];
                                 layer_params := uniDirectionalLSTM p |}
                     (example_builder plain))
         ∧ lstm_hasBiasVectors (uni_params p) = present bias
         ∧ lstm_hasPeepholeVectors (uni_params p) = present peep
         ∧ lstm_bias_vectors (uni_weightParams p) = stored_vector bias
         ∧ lstm_peephole_vectors (uni_weightParams p) = stored_vector peep.
Proof.
  intros W_h W_x bias peep.
  assert (gate_stacked 4 1 W_x) as Hx by (by exists 0, 0, 2).
  assert (gate_stacked 4 1 W_h) as Hh by (by exists 0, 0, 1).
  assert (Forall (fun a => a ∈ recurrent_activations) ["SIGMOID"; "TANH"; "TANH"])
    as Hact.
  { unfold recurrent_activations.
    repeat constructor; rewrite !elem_of_cons; repeat ((by left) || right). }
  assert (gate_vector_shaped 4 1 bias) as Hbias by reflexivity.
  assert (gate_vector_shaped 3 1 peep) as Hpeep by reflexivity.
  split; [exact Hx|]. split; [exact Hh|]. split; [exact Hbias|]. split; [exact Hpeep|].
  exact (add_unilstm_bias_peephole "lstm" 1 2 ["data"] ["probs"] W_h W_x
           "SIGMOID" "TANH" "TANH" bias peep false false false 50%Z false
           (example_builder plain) Hx Hh Hact Hbias Hpeep).
Defined.

